(** * conda_build.source: provisioning of the build work directory

    A shallow embedding of [conda_build/source.py].  The module is
    imperative Python working on the file system and on external tools,
    so the embedding is a state-and-exception monad over a [world] made
    of a file system (a finite map from path strings to nodes) and the
    trace of the calls the module makes to code outside of it.

    Conventions.
    - [os.path] is [posixpath]; paths are compared as strings.
    - The file system keeps one entry per path; [os.makedirs] records the
      leaf directory it creates (the intermediate directories it may
      create on the way play no role in the module's decisions).
    - Everything the module imports from elsewhere and that is not part of
      Python's [os]/[os.path] is a field of [host]: the configured build
      root, the tool lookup, the digest function and the effect of the
      external tools on the file system. *)

From stdpp Require Import gmap strings list fin_maps pretty.
From Stdlib Require Import Ascii.

Local Open Scope string_scope.
Local Open Scope list_scope.

(** ** Python strings *)

Module PyStr.

Definition lower_ascii (c : ascii) : ascii :=
  let n := N_of_ascii c in
  if ((65 <=? n) && (n <=? 90))%N then ascii_of_N (n + 32) else c.

Definition upper_ascii (c : ascii) : ascii :=
  let n := N_of_ascii c in
  if ((97 <=? n) && (n <=? 122))%N then ascii_of_N (n - 32) else c.

Fixpoint smap (f : ascii → ascii) (s : string) : string :=
  match s with
  | EmptyString => EmptyString
  | String c r => String (f c) (smap f r)
  end.

(** [s.lower()] and [s.upper()] *)
Definition lower : string → string := smap lower_ascii.
Definition upper : string → string := smap upper_ascii.

(** [s.replace(a, b)] for one-character [a] and [b] *)
Definition replace (a b : ascii) : string → string :=
  smap (λ c, if Ascii.eqb c a then b else c).

(** [s.startswith(p)] *)
Definition startswith (s p : string) : bool := String.prefix p s.

(** [s[n:]] *)
Fixpoint drop (n : nat) (s : string) : string :=
  match n, s with
  | O, _ => s
  | S _, EmptyString => EmptyString
  | S n', String _ r => drop n' r
  end.

(** [s.endswith(p)] *)
Definition endswith (s p : string) : bool :=
  (String.length p <=? String.length s)%nat
  && String.eqb (drop (String.length s - String.length p) s) p.

(** [s.endswith((p1, ..., pn))] *)
Definition endswith_any (s : string) (ps : list string) : bool :=
  existsb (endswith s) ps.

(** [s.split(c)]: never empty *)
Fixpoint split (c : ascii) (s : string) : list string :=
  match s with
  | EmptyString => [EmptyString]
  | String a r =>
      if Ascii.eqb a c then EmptyString :: split c r
      else match split c r with
           | h :: t => String a h :: t
           | [] => [String a EmptyString]
           end
  end.

(** [s.split(c, 1)]: at most one cut, at the first [c] *)
Fixpoint split1 (c : ascii) (s : string) : list string :=
  match s with
  | EmptyString => [EmptyString]
  | String a r =>
      if Ascii.eqb a c then [EmptyString; r]
      else match split1 c r with
           | h :: t => String a h :: t
           | [] => [String a EmptyString]
           end
  end.

(** [l[-1]] on the result of a split *)
Definition last_item (l : list string) : string := List.last l EmptyString.

(** the white space of a unicode string, among the code points below 256 *)
Definition is_white (c : ascii) : bool :=
  let n := N_of_ascii c in
  ((n =? 32) || ((9 <=? n) && (n <=? 13)) || ((28 <=? n) && (n <=? 31))
   || (n =? 133) || (n =? 160))%N.

Fixpoint lstrip (s : string) : string :=
  match s with
  | EmptyString => EmptyString
  | String c r => if is_white c then lstrip r else s
  end.

(** [s.strip()] *)
Definition strip (s : string) : string :=
  String.rev (lstrip (String.rev (lstrip s))).

(** [os.path.join(a, b)] of [posixpath] *)
Definition join (a b : string) : string :=
  if startswith b "/" then b
  else if String.eqb a "" || endswith a "/" then a +:+ b
  else a +:+ "/" +:+ b.

(** the one-character strings [for c in s] runs through *)
Fixpoint chars (s : string) : list string :=
  match s with
  | EmptyString => []
  | String c r => String c EmptyString :: chars r
  end.

(** [os.path.basename(p)] of [posixpath] *)
Definition basename (p : string) : string := last_item (split "/" p).

End PyStr.

(** ** Python values found in a source descriptor

    The descriptor comes from the recipe's YAML: its values are [None],
    booleans, integers, strings and lists of strings. *)

Inductive pyval : Type :=
| VNone
| VBool (b : bool)
| VInt (z : Z)
| VStr (s : string)
| VList (items : list string).

#[global] Instance pyval_eq_dec : EqDecision pyval.
Proof. solve_decision. Defined.

(** Truth value of a Python object *)
Definition truthy (v : pyval) : bool :=
  match v with
  | VNone => false
  | VBool b => b
  | VInt z => negb (z =? 0)%Z
  | VStr s => negb (String.eqb s "")
  | VList l => match l with [] => false | _ => true end
  end.

(** [a or b] *)
Definition py_or (a b : pyval) : pyval := if truthy a then a else b.

(** [a != b] *)
Definition py_ne (a b : pyval) : bool := negb (bool_decide (a = b)).

(** [str(v)]; the items of a list are shown between quotes *)
Definition py_str (v : pyval) : string :=
  match v with
  | VNone => "None"
  | VBool true => "True"
  | VBool false => "False"
  | VInt z => pretty z
  | VStr s => s
  | VList l =>
      "[" +:+ String.concat ", " (map (λ s, "'" +:+ s +:+ "'") l) +:+ "]"
  end.

(** The descriptor: [meta] *)
Abbreviation descriptor := (gmap string pyval).

(** [meta.get(k)] *)
Definition meta_get (meta : descriptor) (k : string) : pyval :=
  default VNone (meta !! k).

(** [k in meta] *)
Definition meta_has (meta : descriptor) (k : string) : bool :=
  bool_decide (is_Some (meta !! k)).

(** ** The world: file system and trace *)

Inductive node : Type :=
| Dir
| File (content : string).

#[global] Instance node_eq_dec : EqDecision node.
Proof. solve_decision. Defined.

Abbreviation filesystem := (gmap string node).

(** Calls that leave the module, in the order they are made. *)
Inductive event : Type :=
| EvPrint (fmt : string) (args : list pyval)
| EvWrite (text : string)
| EvRmRf (path : string)
| EvDownload (url : pyval) (path : string)
| EvHashsum (path tp : string)
| EvTarXf (src dst : string)
| EvUnzip (src dst : string)
| EvCopy2 (src dst : string)
| EvCopytree (src dst : string) (ignore : list string)
| EvCheckCall (argv : list string) (cwd : option string)
| EvPopen (argv : list string) (cwd : string).

#[global] Instance event_eq_dec : EqDecision event.
Proof. solve_decision. Defined.

Record world : Type := World { fs : filesystem; trace : list event }.

(** Python exceptions the module raises or lets through. *)
Inductive exn : Type :=
| SystemExit (msg : string)
| RuntimeError (tp computed : string) (expected : pyval)
| GitError (stderr : string)
| KeyError (key : string)
| OSError (path : string)
| IOError (path : string)
| TypeError
| AttributeError
| AssertionError
| CalledProcessError (argv : list string)
| ExternalError (callee : string).

Inductive outcome (A : Type) : Type :=
| Ret (a : A) (w : world)
| Raise (e : exn) (w : world).
Arguments Ret {A} a w.
Arguments Raise {A} e w.

Definition final {A} (o : outcome A) : world :=
  match o with Ret _ w => w | Raise _ w => w end.

Definition succeeds {A} (o : outcome A) : bool :=
  match o with Ret _ _ => true | Raise _ _ => false end.

(** The monad of the module's functions *)
Definition Py (A : Type) : Type := world → outcome A.

Definition ret {A} (a : A) : Py A := λ w, Ret a w.
Definition raise {A} (e : exn) : Py A := λ w, Raise e w.
Definition bind {A B} (c : Py A) (k : A → Py B) : Py B := λ w,
  match c w with
  | Ret a w' => k a w'
  | Raise e w' => Raise e w'
  end.

Notation "'let!' x ':=' c 'in' k" := (bind c (λ x, k))
  (at level 10, x name, c at level 100, k at level 200,
   format "'[' 'let!'  x  ':='  c  'in' ']' '/' k").
Notation "c >> k" := (bind c (λ _, k))
  (at level 100, k at level 200, right associativity,
   format "'[' c  >> ']' '/' k").

(** [for x in l: body(x)] *)
Fixpoint for_each {A} (body : A → Py unit) (l : list A) : Py unit :=
  match l with
  | [] => ret tt
  | x :: r => body x >> for_each body r
  end.

Definition log (e : event) : Py unit := λ w,
  Ret tt (World (fs w) (trace w ++ [e])).

(** [print(fmt % args)] *)
Definition print (fmt : string) (args : list pyval) : Py unit :=
  log (EvPrint fmt args).

(** A value used where Python calls a [str] method on it *)
Definition as_str (v : pyval) : Py string :=
  match v with VStr s => ret s | _ => raise AttributeError end.

(** [meta[k]] *)
Definition meta_item (meta : descriptor) (k : string) : Py pyval :=
  match meta !! k with Some v => ret v | None => raise (KeyError k) end.

(** Iteration over a value: a list gives its items, a string its characters *)
Definition py_iter (v : pyval) : Py (list string) :=
  match v with
  | VList l => ret l
  | VStr s => ret (PyStr.chars s)
  | _ => raise TypeError
  end.

(** *** File system primitives of [os] and [os.path] *)

Module FS.

Definition isdir (p : string) (m : filesystem) : bool :=
  bool_decide (m !! p = Some Dir).

Definition isfile (p : string) (m : filesystem) : bool :=
  match m !! p with Some (File _) => true | _ => false end.

(** [p] is [d] itself or lies below it *)
Definition under (d p : string) : bool :=
  String.eqb p d || String.prefix (d +:+ "/") p.

(** the name of [p] as an entry of directory [d], if it is one *)
Definition entry_name (d p : string) : option string :=
  if String.prefix (d +:+ "/") p then
    let n := PyStr.drop (String.length d + 1) p in
    match PyStr.split "/" n with
    | [x] => if String.eqb x "" then None else Some x
    | _ => None
    end
  else None.

Definition entries (d : string) (m : filesystem) : list string :=
  omap (λ kv, entry_name d kv.1) (map_to_list m).

End FS.

Definition isdir (p : string) : Py bool := λ w, Ret (FS.isdir p (fs w)) w.
Definition isfile (p : string) : Py bool := λ w, Ret (FS.isfile p (fs w)) w.

(** [os.makedirs(p)]: fails when [p] exists (the directory that holds [p]
    is taken to be there) *)
Definition makedirs (p : string) : Py unit := λ w,
  match fs w !! p with
  | Some _ => Raise (OSError p) w
  | None => Ret tt (World (<[p := Dir]> (fs w)) (trace w))
  end.

(** [os.listdir(d)] *)
Definition listdir (d : string) : Py (list string) := λ w,
  if FS.isdir d (fs w) then Ret (FS.entries d (fs w)) w
  else Raise (OSError d) w.

(** [shutil.copy2(src, dst)]: into [dst] when it is a directory *)
Definition copy2 (src dst : string) : Py unit := λ w,
  let target :=
    if FS.isdir dst (fs w) then PyStr.join dst (PyStr.basename src) else dst in
  match fs w !! src with
  | Some (File c) =>
      if String.eqb src target then Raise (IOError src) w
      else if FS.isdir target (fs w) then Raise (IOError target) w
      else Ret tt (World (<[target := File c]> (fs w))
                         (trace w ++ [EvCopy2 src dst]))
  | _ => Raise (IOError src) w
  end.

(** ** The host: what the module imports *)

Record host : Type := Host {
  (** [conda_build.config.croot] *)
  croot : string;
  (** [sys.platform] and [os.getenv] *)
  platform : string;
  getenv : string → option string;
  (** [conda_build.external.find_executable] and [external.dir_paths] *)
  find_executable : string → option string;
  dir_paths : list string;
  (** the digest [conda.utils.hashsum_file] computes for a content *)
  hashsum : string → string → string;
  (** [conda.fetch.download(url, path)]; [None] when it raises *)
  download_fx : pyval → string → filesystem → option filesystem;
  (** [conda_build.utils.tar_xf] and [unzip]; [None] when they raise *)
  tar_xf_fx : string → string → filesystem → option filesystem;
  unzip_fx : string → string → filesystem → option filesystem;
  (** [shutil.copytree(src, dst, ignore=ignore_patterns(...))] *)
  copytree_fx : string → string → list string → filesystem → option filesystem;
  (** a child process run to completion: exit status zero? (a process that
      cannot be started counts as failed), and its effect on the files *)
  process_fx : list string → option string → filesystem → bool * filesystem;
  (** a child process with captured output: stdout and stderr as text,
      and its effect on the files; [None] when the process cannot be
      started or its output cannot be decoded *)
  popen_fx : list string → string → filesystem
             → option (string * string * filesystem)
}.

(** ** The module *)

Section Source.

Context (h : host).

Definition SRC_CACHE : string := PyStr.join (croot h) "src_cache".
Definition GIT_CACHE : string := PyStr.join (croot h) "git_cache".
Definition HG_CACHE : string := PyStr.join (croot h) "hg_cache".
Definition SVN_CACHE : string := PyStr.join (croot h) "svn_cache".
Definition WORK_DIR : string := PyStr.join (croot h) "work".

(** *** Imported callables *)

(** Modelled from the spec: [conda_build.utils.rm_rf] is not part of the
    sources at hand.  The spec's [Reset] state has the working directory
    "fully removed (if present)": the path and everything below it go,
    and nothing else changes. *)
Definition rm_rf (path : string) : Py unit := λ w,
  Ret tt (World (filter (λ kv, ¬ FS.under path kv.1) (fs w))
                (trace w ++ [EvRmRf path])).

(** an imported callable whose effect on the file system is the host's *)
Definition external (callee : string) (e : event)
    (fx : filesystem → option filesystem) : Py unit := λ w,
  match fx (fs w) with
  | Some m => Ret tt (World m (trace w ++ [e]))
  | None => Raise (ExternalError callee) (World (fs w) (trace w ++ [e]))
  end.

Definition download (url : pyval) (path : string) : Py unit :=
  external "download" (EvDownload url path) (download_fx h url path).

Definition tar_xf (src dst : string) : Py unit :=
  external "tar_xf" (EvTarXf src dst) (tar_xf_fx h src dst).

Definition unzip (src dst : string) : Py unit :=
  external "unzip" (EvUnzip src dst) (unzip_fx h src dst).

Definition copytree (src dst : string) (ignore : list string) : Py unit :=
  external "copytree" (EvCopytree src dst ignore)
           (copytree_fx h src dst ignore).

(** [hashsum_file(path, tp)]: reads the file *)
Definition hashsum_file (path tp : string) : Py string := λ w,
  match fs w !! path with
  | Some (File c) =>
      Ret (hashsum h tp c) (World (fs w) (trace w ++ [EvHashsum path tp]))
  | _ => Raise (IOError path) w
  end.

(** the arguments of a child process must all be strings *)
Fixpoint argv_strs (argv : list pyval) : option (list string) :=
  match argv with
  | [] => Some []
  | VStr s :: r => cons s <$> argv_strs r
  | _ :: _ => None
  end.

(** [subprocess.check_call(argv, cwd=cwd)] *)
Definition check_call (argv : list pyval) (cwd : option string) : Py unit :=
  λ w,
  match argv_strs argv with
  | None => Raise TypeError w
  | Some args =>
      let r := process_fx h args cwd (fs w) in
      let w' := World r.2 (trace w ++ [EvCheckCall args cwd]) in
      if r.1 then Ret tt w' else Raise (CalledProcessError args) w'
  end.

(** [Popen(argv, stdout=PIPE, stderr=PIPE, cwd=cwd).communicate()], with
    the two outputs decoded *)
Definition popen_communicate (argv : list string) (cwd : string)
    : Py (string * string) := λ w,
  match popen_fx h argv cwd (fs w) with
  | Some (out, m) => Ret out (World m (trace w ++ [EvPopen argv cwd]))
  | None =>
      Raise (ExternalError "Popen")
            (World (fs w) (trace w ++ [EvPopen argv cwd]))
  end.

(** [sys.exit(msg)] *)
Definition sys_exit {A} (msg : string) : Py A := raise (SystemExit msg).

(** [assert isdir(p)] *)
Definition assert_isdir (p : string) : Py unit :=
  let! d := isdir p in
  if d then ret tt else raise AssertionError.

(** *** [get_dir] *)

Definition get_dir : Py string :=
  let! d := isdir WORK_DIR in
  (if d then ret tt else makedirs WORK_DIR) >>
  let! names := listdir WORK_DIR in
  let lst := List.filter (λ fn, negb (PyStr.startswith fn ".")) names in
  match lst with
  | [x] =>
      let dir_path := PyStr.join WORK_DIR x in
      let! d' := isdir dir_path in
      if d' then ret dir_path else ret WORK_DIR
  | _ => ret WORK_DIR
  end.

(** *** [download_to_cache] *)

(** the body of the loop over the digest kinds *)
Definition check_digest (meta : descriptor) (path tp : string) : Py unit :=
  if truthy (meta_get meta tp) then
    let! computed := hashsum_file path tp in
    let! expected := meta_item meta tp in
    if py_ne (VStr computed) expected then
      let! computed' := hashsum_file path tp in
      let! expected' := meta_item meta tp in
      raise (RuntimeError (PyStr.upper tp) computed' expected')
    else ret tt
  else ret tt.

Definition digest_kinds : list string := ["md5"; "sha1"; "sha256"].

(** [for tp in 'md5', 'sha1', 'sha256': ...] *)
Definition verify_digests (meta : descriptor) (path : string) : Py unit :=
  for_each (check_digest meta path) digest_kinds.

Definition download_to_cache (meta : descriptor) : Py string :=
  print "Source cache directory is: %s" [VStr SRC_CACHE] >>
  let! d := isdir SRC_CACHE in
  (if d then ret tt else makedirs SRC_CACHE) >>
  let! fn := meta_item meta "fn" in
  let! fn_s := as_str fn in
  let path := PyStr.join SRC_CACHE fn_s in
  let! cached := isfile path in
  (if cached then print "Found source in cache: %s" [fn]
   else
     print "Downloading source to cache: %s" [fn] >>
     let! url := meta_item meta "url" in
     download url path) >>
  verify_digests meta path >>
  ret path.

(** *** [unpack] *)

Definition tar_suffixes : list string :=
  [".tar.gz"; ".tar.bz2"; ".tgz"; ".tar.xz"; ".tar"].

Definition unpack (meta : descriptor) : Py unit :=
  let! src_path := download_to_cache meta in
  makedirs WORK_DIR >>
  if PyStr.endswith_any (PyStr.lower src_path) tar_suffixes then
    tar_xf src_path WORK_DIR
  else if PyStr.endswith (PyStr.lower src_path) ".zip" then
    unzip src_path WORK_DIR
  else
    print "Warning: Unrecognized source format. Source file will be copied to the SRC_DIR" [] >>
    copy2 src_path WORK_DIR.

(** *** [git_source] and [git_info] *)

(** [not exe], for the result of [find_executable] *)
Definition exe_missing (exe : option string) : bool :=
  match exe with
  | None => true
  | Some s => String.eqb s ""
  end.

Definition backslash : ascii := ascii_of_nat 92.
Definition newline : string := String (ascii_of_nat 10) EmptyString.

(** the name of the mirror of [url] in its cache: [split(':')[-1]] with
    the path separators replaced *)
Definition git_dn (url : string) : string :=
  PyStr.replace "/" "_" (PyStr.last_item (PyStr.split ":" url)).

Definition git_cache_repo (url : string) : string :=
  PyStr.join GIT_CACHE (git_dn url).

(** the mirror as given to git on the command line *)
Definition git_cache_repo_arg (url : string) : string :=
  let arg := git_cache_repo url in
  if String.eqb (platform h) "win32" then
    let arg := PyStr.replace backslash "/" arg in
    if bool_decide (getenv h "USERNAME" = Some "builder")
    then "/cygdrive/c/" +:+ PyStr.drop 3 arg
    else arg
  else arg.

Definition git_info_cmds : list (string * bool) :=
  [("git log -n1", true);
   ("git describe --tags --dirty", false);
   ("git status", true)].

(** [git_info(fo=sys.stdout)] *)
Definition git_info : Py unit :=
  assert_isdir WORK_DIR >>
  for_each (λ '(cmd, check_error),
    let! out := popen_communicate (PyStr.split " " cmd) WORK_DIR in
    let '(stdout, stderr) := out in
    if check_error && negb (String.eqb stderr "")
       && negb (String.eqb (PyStr.strip stderr) "")
    then raise (GitError stderr)
    else
      log (EvWrite ("==> " +:+ cmd +:+ " <==" +:+ newline)) >>
      log (EvWrite (stdout +:+ newline)))
    git_info_cmds.

Definition git_source (meta : descriptor) : Py string :=
  let! d := isdir GIT_CACHE in
  (if d then ret tt else makedirs GIT_CACHE) >>
  let git := find_executable h "git" in
  if exe_missing git then sys_exit "Error: git is not installed" else
  let git := VStr (default "" git) in
  let! git_url_v := meta_item meta "git_url" in
  let! git_url := as_str git_url_v in
  let cache_repo := git_cache_repo git_url in
  let cache_repo_arg := git_cache_repo_arg git_url in
  let! present := isdir cache_repo in
  (if present then check_call [git; VStr "fetch"] (Some cache_repo)
   else
     check_call [git; VStr "clone"; VStr "--mirror"; git_url_v;
                 VStr cache_repo_arg] None >>
     assert_isdir cache_repo) >>
  let checkout :=
    py_or (meta_get meta "git_tag")
          (py_or (meta_get meta "git_branch") (VStr "master")) in
  print "checkout: %r" [checkout] >>
  check_call [git; VStr "clone"; VStr cache_repo_arg; VStr WORK_DIR] None >>
  check_call [git; VStr "checkout"; checkout] (Some WORK_DIR) >>
  git_info >>
  ret WORK_DIR.

(** *** [hg_source] *)

Definition hg_dn (url : string) : string :=
  PyStr.replace "/" "_" (PyStr.last_item (PyStr.split ":" url)).

Definition hg_cache_repo (url : string) : string :=
  PyStr.join HG_CACHE (hg_dn url).

Definition hg_source (meta : descriptor) : Py string :=
  let hg := find_executable h "hg" in
  if exe_missing hg then sys_exit "Error: hg not installed" else
  let hg := VStr (default "" hg) in
  let! hg_url_v := meta_item meta "hg_url" in
  let! d := isdir HG_CACHE in
  (if d then ret tt else makedirs HG_CACHE) >>
  let! hg_url := as_str hg_url_v in
  let cache_repo := hg_cache_repo hg_url in
  let! present := isdir cache_repo in
  (if present then check_call [hg; VStr "pull"] (Some cache_repo)
   else
     check_call [hg; VStr "clone"; hg_url_v; VStr cache_repo] None >>
     assert_isdir cache_repo) >>
  let update := py_or (meta_get meta "hg_tag") (VStr "tip") in
  print "checkout: %r" [update] >>
  check_call [hg; VStr "clone"; VStr cache_repo; VStr WORK_DIR] None >>
  check_call [hg; VStr "update"; VStr "-C"; update] (Some WORK_DIR) >>
  ret WORK_DIR.

(** *** [svn_source] *)

Definition parse_bool (s : pyval) : bool :=
  bool_decide (PyStr.strip (PyStr.lower (py_str s))
                 ∈ ["yes"; "true"; "1"; "on"]).

Definition svn_dn (url : string) : string :=
  PyStr.replace ":" "_"
    (PyStr.replace "/" "_" (PyStr.last_item (PyStr.split1 ":" url))).

Definition svn_cache_repo (url : string) : string :=
  PyStr.join SVN_CACHE (svn_dn url).

Definition svn_source (meta : descriptor) : Py string :=
  let svn := find_executable h "svn" in
  if exe_missing svn then sys_exit "Error: svn is not installed" else
  let svn := VStr (default "" svn) in
  let! svn_url_v := meta_item meta "svn_url" in
  let svn_revision := py_or (meta_get meta "svn_rev") (VStr "head") in
  let svn_ignore_externals :=
    parse_bool (py_or (meta_get meta "svn_ignore_externals") (VStr "no")) in
  let! d := isdir SVN_CACHE in
  (if d then ret tt else makedirs SVN_CACHE) >>
  let! svn_url := as_str svn_url_v in
  let cache_repo := svn_cache_repo svn_url in
  let extra_args :=
    if svn_ignore_externals then [VStr "--ignore-externals"] else [] in
  let! present := isdir cache_repo in
  (if present then
     check_call ([svn; VStr "up"; VStr "-r"; svn_revision] ++ extra_args)
                (Some cache_repo)
   else
     check_call ([svn; VStr "co"; VStr "-r"; svn_revision] ++ extra_args
                   ++ [svn_url_v; VStr cache_repo]) None >>
     assert_isdir cache_repo) >>
  copytree cache_repo WORK_DIR [".svn"] >>
  ret WORK_DIR.

(** *** [apply_patch] *)

Definition patch_missing_msg : string :=
  "Error:" +:+ newline +:+
  "    Did not find 'patch' in: " +:+ String.concat ":" (dir_paths h)
    +:+ newline +:+
  "    You can install 'patch' using apt-get, yum (Linux), Xcode (MacOSX),"
    +:+ newline +:+
  "    or conda, cygwin (Windows)," +:+ newline.

Definition no_such_patch_msg (path : string) : string :=
  "Error: no such patch: " +:+ path.

Definition apply_patch (src_dir path : string) : Py unit :=
  print "Applying patch: %r" [VStr path] >>
  let! present := isfile path in
  (if present then ret tt else sys_exit (no_such_patch_msg path)) >>
  match find_executable h "patch" with
  | None => sys_exit patch_missing_msg
  | Some patch =>
      check_call [VStr patch; VStr "-p0"; VStr "-i"; VStr path]
                 (Some src_dir)
  end.

(** *** [provide] *)

(** the branch on the keys of the descriptor *)
Definition acquire (meta : descriptor) : Py unit :=
  if meta_has meta "fn" then unpack meta
  else if meta_has meta "git_url" then git_source meta >> ret tt
  else if meta_has meta "hg_url" then hg_source meta >> ret tt
  else if meta_has meta "svn_url" then svn_source meta >> ret tt
  else makedirs WORK_DIR.

(** [meta.get('patches', [])] *)
Definition patches_of (meta : descriptor) : pyval :=
  default (VList []) (meta !! "patches").

Definition apply_patches (recipe_dir : string) (meta : descriptor)
    : Py unit :=
  let! src_dir := get_dir in
  let! patches := py_iter (patches_of meta) in
  for_each (λ patch, apply_patch src_dir (PyStr.join recipe_dir patch))
           patches.

(** [provide(recipe_dir, meta, patch=True)]; the function has no
    [return] statement, its value is [None] *)
Definition provide (recipe_dir : string) (meta : descriptor) (patch : bool)
    : Py pyval :=
  rm_rf WORK_DIR >>
  acquire meta >>
  (if patch then apply_patches recipe_dir meta else ret tt) >>
  ret VNone.

End Source.

(** ** A concrete host, for the examples *)

Module Demo.

Definition md5_empty : string := "d41d8cd98f00b204e9800998ecf8427e".
Definition sha1_empty : string := "da39a3ee5e6b4b0d3255bfef95601890afd80709".
Definition sha256_empty : string :=
  "e3b0c44298fc1c149afbf4c8996fb92427ae41e4649b934ca495991b7852b855".

(** the digests of the empty file; the examples hash no other content *)
Definition digest (tp content : string) : string :=
  if String.eqb tp "md5" then md5_empty
  else if String.eqb tp "sha1" then sha1_empty
  else sha256_empty.

Definition tools (name : string) : option string :=
  if bool_decide (name ∈ ["git"; "hg"; "svn"; "patch"])
  then Some ("/usr/bin/" +:+ name) else None.

(** a download stores an (empty) file *)
Definition fetch (url : pyval) (path : string) (m : filesystem)
    : option filesystem :=
  Some (<[path := File ""]> m).

(** an archive holds one top-level directory with one file *)
Definition extract (src dst : string) (m : filesystem)
    : option filesystem :=
  Some (<[dst +:+ "/pkg-1.0/setup.py" := File "setup()"]>
          (<[dst +:+ "/pkg-1.0" := Dir]> m)).

(** a copied tree arrives as its root and one file *)
Definition copy_tree (src dst : string) (ignore : list string)
    (m : filesystem) : option filesystem :=
  Some (<[dst +:+ "/README" := File "readme"]> (<[dst := Dir]> m)).

(** a clone or checkout creates its target (the last argument) with one
    file, every other command succeeds and leaves the files alone *)
Definition run (argv : list string) (cwd : option string) (m : filesystem)
    : bool * filesystem :=
  match argv with
  | _ :: cmd :: _ =>
      if bool_decide (cmd ∈ ["clone"; "co"]) then
        let dst := List.last argv "" in
        (true, <[dst +:+ "/README" := File "readme"]> (<[dst := Dir]> m))
      else (true, m)
  | _ => (true, m)
  end.

(** a captured command answers and leaves the files alone *)
Definition capture (argv : list string) (cwd : string) (m : filesystem)
    : option (string * string * filesystem) := Some ("ok", "", m).

Definition linux : host :=
  {| croot := "/opt/conda-bld";
     platform := "linux";
     getenv := λ _, None;
     find_executable := tools;
     dir_paths := ["/usr/bin"];
     hashsum := digest;
     download_fx := fetch;
     tar_xf_fx := extract;
     unzip_fx := extract;
     copytree_fx := copy_tree;
     process_fx := run;
     popen_fx := capture |}.

(** the same host without the patch tool *)
Definition linux_no_patch : host :=
  {| croot := "/opt/conda-bld";
     platform := "linux";
     getenv := λ _, None;
     find_executable := λ name,
       if String.eqb name "patch" then None else tools name;
     dir_paths := ["/usr/bin"];
     hashsum := digest;
     download_fx := fetch;
     tar_xf_fx := extract;
     unzip_fx := extract;
     copytree_fx := copy_tree;
     process_fx := run;
     popen_fx := capture |}.

Definition empty_world : world := World ∅ [].

(** a work directory left over by an earlier run *)
Definition stale_world : world :=
  World (<["/opt/conda-bld/work/old/junk.o" := File "junk"]>
           (<["/opt/conda-bld/work/old" := Dir]>
              (<["/opt/conda-bld/work" := Dir]>
                 (<["/recipe/fix1.patch" := File "--- a"]> ∅)))) [].

End Demo.

(** ** Vocabulary of the statements *)

(** The spec's reading of a failed check, in its words: the computed and
    the expected digest of kind [tp] differ when "compared
    case-insensitively". *)
Definition spec_digest_differs (h : host) (meta : descriptor) (c tp : string)
    : Prop :=
  ∃ e, meta !! tp = Some (VStr e)
       ∧ PyStr.lower (hashsum h tp c) ≠ PyStr.lower e.

(** every call [c] adds to the trace satisfies [P]; nothing is taken away *)
Definition emits (P : event → Prop) {A} (c : Py A) : Prop :=
  ∀ w, ∃ evs : list event,
    trace (final (c w)) = trace w ++ evs ∧ Forall P evs.

(** the trace only grows *)
Definition extends {A} (c : Py A) : Prop := emits (λ _, True) c.


(** the file system once [d] and everything below it is removed *)
Definition removed (d : string) (m : filesystem) : filesystem :=
  filter (λ kv, ¬ FS.under d kv.1) m.

(** The spec's reading of the branch: the identity keys are looked up in
    a fixed priority and the first one present decides. *)
Inductive source_kind : Type :=
| Archive | Git | Mercurial | Subversion | NoSource.

Definition identity_keys : list (string * source_kind) :=
  [("fn", Archive); ("git_url", Git); ("hg_url", Mercurial);
   ("svn_url", Subversion)].

Definition spec_kind (meta : descriptor) : source_kind :=
  match List.find (λ kv, meta_has meta kv.1) identity_keys with
  | Some kv => kv.2
  | None => NoSource
  end.

(** what each kind stands for in the module *)
Definition run_kind (h : host) (k : source_kind) (meta : descriptor)
    : Py unit :=
  match k with
  | Archive => unpack h meta
  | Git => git_source h meta >> ret tt
  | Mercurial => hg_source h meta >> ret tt
  | Subversion => svn_source h meta >> ret tt
  | NoSource => makedirs (WORK_DIR h)
  end.

(** [c] occurs in [s] *)
Fixpoint has_char (c : ascii) (s : string) : bool :=
  match s with
  | EmptyString => false
  | String a r => Ascii.eqb a c || has_char c r
  end.

(** the suffixes that select tar extraction, in the order of the spec *)
Definition spec_tar_suffixes : list string :=
  [".tar.gz"; ".tgz"; ".tar.bz2"; ".tar.xz"; ".tar"].

Definition unrecognized_warning : event :=
  EvPrint "Warning: Unrecognized source format. Source file will be copied to the SRC_DIR" [].

(** the world once the cache directory [d] is there *)
Definition ensure_dir (d : string) (w : world) : world :=
  if FS.isdir d (fs w) then w else World (<[d := Dir]> (fs w)) (trace w).

(** the two calls [apply_patch] makes for one patch *)
Definition applying (path : string) : event :=
  EvPrint "Applying patch: %r" [VStr path].

Definition patch_call (tool src_dir path : string) : event :=
  EvCheckCall [tool; "-p0"; "-i"; path] (Some src_dir).


Section Vocabulary.

Context (h : host).

(** the expected value of kind [tp] is compared and differs *)
Definition mismatch (meta : descriptor) (c tp : string) : Prop :=
  truthy (meta_get meta tp) = true
  ∧ meta_get meta tp ≠ VStr (hashsum h tp c).

(** what [provide] does once the work directory is gone *)
Definition after_reset (recipe_dir : string) (meta : descriptor)
    (patch : bool) : Py pyval :=
  acquire h meta >>
  (if patch then apply_patches h recipe_dir meta else ret tt) >>
  ret VNone.

Definition patch_events (src_dir path : string) : list event :=
  [applying path;
   patch_call (default "" (find_executable h "patch")) src_dir path].

(** the body of the loop of [provide] *)
Definition patch_body (src_dir recipe_dir : string) (patch : string)
    : Py unit :=
  apply_patch h src_dir (PyStr.join recipe_dir patch).

(** the calls made for a list of patches, in the order of the list *)
Definition patch_calls (src_dir recipe_dir : string)
    (ps : list string) : list event :=
  flat_map (λ p, patch_events src_dir (PyStr.join recipe_dir p)) ps.

(** [get_dir]: the only visible entry of the work directory when that
    is a directory, the work directory otherwise *)
Definition src_dir_of (m : filesystem) : string :=
  match List.filter (λ fn, negb (PyStr.startswith fn "."))
          (FS.entries (WORK_DIR h) m) with
  | [x] => if FS.isdir (PyStr.join (WORK_DIR h) x) m
           then PyStr.join (WORK_DIR h) x else WORK_DIR h
  | _ => WORK_DIR h
  end.















End Vocabulary.

(** ** Worlds and descriptors of the examples *)

Module Examples.

Definition cache_file : string := "/opt/conda-bld/src_cache/pkg-1.0.tar.gz".

(** the archive is in the cache already (an empty file) *)
Definition cached_world : world :=
  World (<[cache_file := File ""]> (<["/opt/conda-bld/src_cache" := Dir]> ∅))
        [].

(** the right MD5 digest of the empty file, written in upper case *)
Definition meta_upper_md5 : descriptor :=
  <["fn" := VStr "pkg-1.0.tar.gz"]>
    (<["md5" := VStr "D41D8CD98F00B204E9800998ECF8427E"]> ∅).

(** a digest key with an empty value *)
Definition meta_empty_md5 : descriptor :=
  <["fn" := VStr "pkg-1.0.tar.gz"]> (<["md5" := VStr ""]> ∅).

End Examples.

Module MainBlock.

(** the call of the module's [__main__] block *)
Definition meta : descriptor :=
  <["url" := VStr "http://pypi.python.org/packages/source/b/bitarray/bitarray-0.8.0.tar.gz"]>
    (<["git_url" := VStr "git@github.com:ilanschnell/bitarray.git"]>
       (<["git_tag" := VStr "0.5.2"]> ∅)).

End MainBlock.

Module Stale.

(** the world of [Demo.stale_world] with a clean work directory *)
Definition clean_world : world :=
  World (<["/recipe/fix1.patch" := File "--- a"]> ∅) [].

Definition meta : descriptor :=
  <["fn" := VStr "pkg-1.0.tar.gz"]>
    (<["url" := VStr "http://x/pkg-1.0.tar.gz"]>
       (<["patches" := VList ["fix1.patch"]]> ∅)).

End Stale.

Module Unpacked.

(** the work directory holds one extracted tree; the recipe has
    [fix1.patch] and no [fix2.patch] *)
Definition world0 : world :=
  World (<["/opt/conda-bld/work/pkg-1.0/setup.py" := File "setup()"]>
           (<["/opt/conda-bld/work/pkg-1.0" := Dir]>
              (<["/opt/conda-bld/work" := Dir]>
                 (<["/recipe/fix1.patch" := File "--- a"]> ∅)))) [].

Definition src_dir : string := "/opt/conda-bld/work/pkg-1.0".

Definition meta : descriptor :=
  <["patches" := VList ["fix1.patch"; "fix2.patch"]]> ∅.

(** the world once [fix1.patch] is applied *)
Definition world1 : world :=
  World (fs world0)
        [applying "/recipe/fix1.patch";
         patch_call "/usr/bin/patch" src_dir "/recipe/fix1.patch"].

End Unpacked.

Module NoTool.

(** a patch list whose only entry is not in the recipe *)
Definition meta_missing : descriptor :=
  <["patches" := VList ["fix2.patch"]]> ∅.

(** a patch list whose first entry is in the recipe *)
Definition meta_present : descriptor :=
  <["patches" := VList ["fix1.patch"; "fix2.patch"]]> ∅.

End NoTool.

Module Plain.

(** a source that is no archive *)
Definition meta : descriptor :=
  <["fn" := VStr "pkg-1.0.TXT"]>
    (<["url" := VStr "http://x/pkg-1.0.TXT"]> ∅).

Definition src_path : string := "/opt/conda-bld/src_cache/pkg-1.0.TXT".

Definition downloaded : world :=
  World (<[src_path := File ""]> (<["/opt/conda-bld/src_cache" := Dir]> ∅))
        [EvPrint "Source cache directory is: %s"
                 [VStr "/opt/conda-bld/src_cache"];
         EvPrint "Downloading source to cache: %s" [VStr "pkg-1.0.TXT"];
         EvDownload (VStr "http://x/pkg-1.0.TXT") src_path].

End Plain.

Module Mirrored.

(** the Mercurial and Subversion mirrors exist, the Git one does not *)
Definition world0 : world :=
  World (<["/opt/conda-bld/hg_cache/__hg.x.org_repo" := Dir]>
           (<["/opt/conda-bld/hg_cache" := Dir]>
              (<["/opt/conda-bld/svn_cache/__svn.x.org_repo_trunk" := Dir]>
                 (<["/opt/conda-bld/svn_cache" := Dir]> ∅)))) [].

Definition hg_url : string := "http://hg.x.org/repo".
Definition svn_url : string := "http://svn.x.org/repo/trunk".
Definition git_url : string := "git@github.com:ilanschnell/bitarray.git".

Definition hg_meta : descriptor := <["hg_url" := VStr hg_url]> ∅.

End Mirrored.

(** ** Further examples *)

Module Rooted.

(** the build root alone: no cache, no work directory *)
Definition world0 : world := World (<["/opt/conda-bld" := Dir]> ∅) [].

End Rooted.

Module Digests.

(** the right MD5 digest of the empty file, and two wrong ones *)
Definition meta : descriptor :=
  <["fn" := VStr "pkg-1.0.tar.gz"]>
    (<["md5" := VStr Demo.md5_empty]>
       (<["sha1" := VStr "00"]> (<["sha256" := VStr "11"]> ∅))).

End Digests.

Module Hosts.

(** the host of the examples with the patch tool alone *)
Definition no_vcs : host :=
  {| croot := "/opt/conda-bld";
     platform := "linux";
     getenv := λ _, None;
     find_executable := λ name,
       if String.eqb name "patch" then Demo.tools name else None;
     dir_paths := ["/usr/bin"];
     hashsum := Demo.digest;
     download_fx := Demo.fetch;
     tar_xf_fx := Demo.extract;
     unzip_fx := Demo.extract;
     copytree_fx := Demo.copy_tree;
     process_fx := Demo.run;
     popen_fx := Demo.capture |}.

End Hosts.

Module Noisy.

(** [git describe] complains on its error pipe, the other commands are
    silent there; nothing touches the files *)
Definition capture (argv : list string) (cwd : string) (m : filesystem)
    : option (string * string * filesystem) :=
  Some ("ok",
        if bool_decide (argv = ["git"; "describe"; "--tags"; "--dirty"])
        then "fatal: No names found, cannot describe anything."
        else "",
        m).

(** the host of the examples with that [git] *)
Definition linux : host :=
  {| croot := "/opt/conda-bld";
     platform := "linux";
     getenv := λ _, None;
     find_executable := Demo.tools;
     dir_paths := ["/usr/bin"];
     hashsum := Demo.digest;
     download_fx := Demo.fetch;
     tar_xf_fx := Demo.extract;
     unzip_fx := Demo.extract;
     copytree_fx := Demo.copy_tree;
     process_fx := Demo.run;
     popen_fx := capture |}.

End Noisy.

Module Hidden.

(** the unpacked tree of [Unpacked.world0] beside two hidden entries *)
Definition world0 : world :=
  World (<["/opt/conda-bld/work/.hg" := Dir]>
           (<["/opt/conda-bld/work/.gitignore" := File "*.o"]>
              (fs Unpacked.world0))) [].

End Hidden.

(** ** Vocabulary of the further properties *)

(** the announcements of [download_to_cache] about the file [fn] *)
Definition found_msg (fn : string) : event :=
  EvPrint "Found source in cache: %s" [VStr fn].

Definition downloading_msg (fn : string) : event :=
  EvPrint "Downloading source to cache: %s" [VStr fn].


(** the tool of a kind of source, and the message when it is missing *)
Definition vcs_tool (k : source_kind) : option (string * string) :=
  match k with
  | Git => Some ("git", "Error: git is not installed")
  | Mercurial => Some ("hg", "Error: hg not installed")
  | Subversion => Some ("svn", "Error: svn is not installed")
  | _ => None
  end.

(** [not (stderr and stderr.strip())] *)
Definition blank (s : string) : bool := String.eqb (PyStr.strip s) "".

(** [meta.get('git_tag') or meta.get('git_branch') or 'master'] *)
Definition git_reference (meta : descriptor) : pyval :=
  py_or (meta_get meta "git_tag")
        (py_or (meta_get meta "git_branch") (VStr "master")).

(** the keys the providers look up *)
Definition source_keys : list string :=
  ["fn"; "url"; "md5"; "sha1"; "sha256";
   "git_url"; "git_tag"; "git_branch";
   "hg_url"; "hg_tag";
   "svn_url"; "svn_rev"; "svn_ignore_externals"].

(** every exception [c] can end with satisfies [P] *)
Definition raises (P : exn → Prop) {A} (c : Py A) : Prop :=
  ∀ w e w', c w = Raise e w' → P e.

(** what is known of an exception of the module's own: of a [KeyError]
    its key, of an exit its message, of a digest mismatch its kind and
    the expected value, and whether a Git error or a failed assertion can
    occur at all; the exceptions of the imported callables are left
    open *)
Definition explained (key exit : string → Prop)
    (digest : string → pyval → Prop) (git assertion : Prop) (e : exn)
    : Prop :=
  match e with
  | KeyError k => key k
  | SystemExit msg => exit msg
  | RuntimeError tp _ expected => digest tp expected
  | GitError _ => git
  | AssertionError => assertion
  | _ => True
  end.

(** no key, no message, no mismatch *)
Definition never (s : string) : Prop := False.

Definition no_digest (tp : string) (expected : pyval) : Prop := False.

(** an exception of an imported callable *)
Definition plain : exn → Prop :=
  explained never never no_digest False False.

(** the mismatch [check_digest] reports for the kind [tp] *)
Definition digest_exn (meta : descriptor) (tp : string)
    (name : string) (expected : pyval) : Prop :=
  name = PyStr.upper tp ∧ meta !! tp = Some expected
  ∧ truthy expected = true.

(** the missing [url] of an archive that is not in the cache *)
Definition url_key (meta : descriptor) (k : string) : Prop :=
  k = "url" ∧ meta !! "url" = None.

(** a digest mismatch of one of the three kinds *)
Definition digest_mismatch (meta : descriptor)
    (name : string) (expected : pyval) : Prop :=
  ∃ tp, tp ∈ digest_kinds ∧ digest_exn meta tp name expected.

Section Observations.

Context (h : host).

(** the first announcement of [download_to_cache] *)
Definition cache_dir_msg : event :=
  EvPrint "Source cache directory is: %s" [VStr (SRC_CACHE h)].

(** the world in which [download_to_cache] looks for the cached file *)
Definition cache_ready (w : world) : world :=
  let w' := ensure_dir (SRC_CACHE h) w in
  World (fs w') (trace w ++ [cache_dir_msg]).

(** the kind [t] passes: it has no truthy expected value, or the right one *)
Definition passes (meta : descriptor) (c t : string) : Prop :=
  truthy (meta_get meta t) = false ∨ meta_get meta t = VStr (hashsum h t c).

(** the command [cmd] as it is started *)
Definition git_info_call (cmd : string) : event :=
  EvPopen (PyStr.split " " cmd) (WORK_DIR h).

(** the calls for one command whose answer is accepted: the command, its
    header and its output *)
Definition git_info_entry (cmd stdout : string) : list event :=
  [git_info_call cmd;
   EvWrite ("==> " +:+ cmd +:+ " <==" +:+ newline);
   EvWrite (stdout +:+ newline)].

(** a complete report, for the outputs of the three commands *)
Definition git_info_report (o1 o2 o3 : string) : list event :=
  git_info_entry "git log -n1" o1
  ++ git_info_entry "git describe --tags --dirty" o2
  ++ git_info_entry "git status" o3.

(** the two exits of [apply_patch] *)
Definition patch_exit (path msg : string) : Prop :=
  msg = no_such_patch_msg path
  ∨ (msg = patch_missing_msg h ∧ find_executable h "patch" = None).

(** the exit of a provider whose tool is missing *)
Definition tool_exit (tool msg : string) (m : string) : Prop :=
  m = msg ∧ exe_missing (find_executable h tool) = true.

(** the exit for a version control tool that is not installed *)
Definition missing_tool_exit (meta : descriptor) (msg : string) : Prop :=
  ∃ tool, vcs_tool (spec_kind meta) = Some (tool, msg)
          ∧ exe_missing (find_executable h tool) = true.

(** the exits of the patch stage *)
Definition patch_stage_exit (recipe_dir : string) (patch : bool)
    (msg : string) : Prop :=
  patch = true
  ∧ ((msg = patch_missing_msg h ∧ find_executable h "patch" = None)
     ∨ ∃ p, msg = no_such_patch_msg (PyStr.join recipe_dir p)).

End Observations.

(** ** Reasoning about the monad *)

Lemma bind_Ret {A B} (c : Py A) (k : A → Py B) w a w' :
  c w = Ret a w' → bind c k w = k a w'.
Proof. intros E. unfold bind. by rewrite E. Qed.

Lemma bind_Raise {A B} (c : Py A) (k : A → Py B) w e w' :
  c w = Raise e w' → bind c k w = Raise e w'.
Proof. intros E. unfold bind. by rewrite E. Qed.

Lemma bind_inv_Ret {A B} (c : Py A) (k : A → Py B) w b w'' :
  bind c k w = Ret b w'' → ∃ a w', c w = Ret a w' ∧ k a w' = Ret b w''.
Proof.
  unfold bind. destruct (c w) as [a w'|e w'] eqn:E; [|done].
  intros Hk. by exists a, w'.
Qed.

Lemma for_each_app {A} (body : A → Py unit) l1 l2 w :
  for_each body (l1 ++ l2) w
  = match for_each body l1 w with
    | Ret _ w1 => for_each body l2 w1
    | Raise e w1 => Raise e w1
    end.
Proof.
  revert w. induction l1 as [|x l1 IH]; intros w; [done|].
  cbn [for_each app]. unfold bind.
  destruct (body x w) as [[] w1|e w1]; [apply IH|done].
Qed.

(** ** Verification of the cached archive *)

Section Verify.

Context (h : host).

Lemma meta_item_get meta k :
  truthy (meta_get meta k) = true →
  meta_item meta k = ret (meta_get meta k).
Proof.
  unfold meta_get, meta_item. destruct (meta !! k); [done|]. cbn. done.
Qed.

(** a digest kind without a truthy expected value is not looked at *)
Lemma check_digest_skip meta path tp w :
  truthy (meta_get meta tp) = false →
  check_digest h meta path tp w = Ret tt w.
Proof. intros Hf. unfold check_digest. by rewrite Hf. Qed.

(** on an existing file the check compares the two values as they are *)
Lemma check_digest_file meta path tp w c :
  fs w !! path = Some (File c) →
  truthy (meta_get meta tp) = true →
  check_digest h meta path tp w
  = if py_ne (VStr (hashsum h tp c)) (meta_get meta tp)
    then Raise (RuntimeError (PyStr.upper tp) (hashsum h tp c)
                             (meta_get meta tp))
               (World (fs w)
                      ((trace w ++ [EvHashsum path tp])
                         ++ [EvHashsum path tp]))
    else Ret tt (World (fs w) (trace w ++ [EvHashsum path tp])).
Proof.
  intros Hf Ht. unfold check_digest. rewrite Ht, (meta_item_get _ _ Ht).
  unfold bind, hashsum_file, ret, raise. rewrite Hf. cbn.
  destruct (py_ne _ _); [|done]. simpl. by rewrite Hf.
Qed.

Lemma py_ne_true a b : py_ne a b = true ↔ a ≠ b.
Proof.
  unfold py_ne. case_bool_decide; cbn; split; intros; congruence.
Qed.

Lemma for_each_check_digest meta path c kinds w :
  fs w !! path = Some (File c) →
  (succeeds (for_each (check_digest h meta path) kinds w) = false
     ↔ ∃ tp, tp ∈ kinds ∧ mismatch h meta c tp)
  ∧ fs (final (for_each (check_digest h meta path) kinds w)) = fs w.
Proof.
  revert w. induction kinds as [|tp kinds IH]; intros w Hf.
  - cbn. split; [|done]. split; [done|].
    intros (tp & Hin & _). by apply elem_of_nil in Hin.
  - cbn [for_each]. unfold bind.
    destruct (truthy (meta_get meta tp)) eqn:Ht.
    + rewrite (check_digest_file _ _ _ _ c Hf Ht).
      destruct (py_ne _ _) eqn:Hne.
      * cbn. split; [|done]. split; [|done]. intros _. exists tp.
        split; [left|]. split; [done|].
        apply py_ne_true in Hne. congruence.
      * destruct (IH (World (fs w) (trace w ++ [EvHashsum path tp])) Hf)
          as [IH1 IH2].
        split; [|exact IH2]. rewrite IH1. split.
        -- intros (tp' & Hin & Hm). exists tp'. split; [by right|done].
        -- intros (tp' & Hin & Hm). apply elem_of_cons in Hin as [->|Hin].
           ++ destruct Hm as [_ Hm]. exfalso.
              assert (py_ne (VStr (hashsum h tp c)) (meta_get meta tp) = true)
                as Hc by (apply py_ne_true; congruence).
              congruence.
           ++ by exists tp'.
    + rewrite (check_digest_skip _ _ _ _ Ht).
      destruct (IH w Hf) as [IH1 IH2]. split; [|exact IH2].
      rewrite IH1. split.
      * intros (tp' & Hin & Hm). exists tp'. split; [by right|done].
      * intros (tp' & Hin & Hm). apply elem_of_cons in Hin as [->|Hin].
        -- destruct Hm as [Hm _]. congruence.
        -- by exists tp'.
Qed.

(** a failure of the loop is the mismatch error of a kind that differs *)
Lemma for_each_check_digest_error meta path c kinds w e w' :
  fs w !! path = Some (File c) →
  for_each (check_digest h meta path) kinds w = Raise e w' →
  ∃ tp, tp ∈ kinds ∧ mismatch h meta c tp
        ∧ e = RuntimeError (PyStr.upper tp) (hashsum h tp c)
                           (meta_get meta tp).
Proof.
  revert w. induction kinds as [|tp kinds IH]; intros w Hf; [done|].
  cbn [for_each]. unfold bind.
  destruct (truthy (meta_get meta tp)) eqn:Ht.
  - rewrite (check_digest_file _ _ _ _ c Hf Ht).
    destruct (py_ne _ _) eqn:Hne.
    + intros [= <- <-]. exists tp. split; [left|]. split; [|done].
      split; [done|]. apply py_ne_true in Hne. congruence.
    + intros HR.
      destruct (IH (World (fs w) (trace w ++ [EvHashsum path tp])) Hf HR)
        as (tp' & Hin & Hm & He).
      exists tp'. split; [by right|done].
  - rewrite (check_digest_skip _ _ _ _ Ht). intros HR.
    destruct (IH w Hf HR) as (tp' & Hin & Hm & He).
    exists tp'. split; [by right|done].
Qed.

Lemma for_each_check_digest_skip meta path kinds w :
  (∀ tp, tp ∈ kinds → truthy (meta_get meta tp) = false) →
  for_each (check_digest h meta path) kinds w = Ret tt w.
Proof.
  induction kinds as [|tp kinds IH]; intros Hall; [done|].
  cbn [for_each]. unfold bind.
  rewrite check_digest_skip by (apply Hall; left).
  apply IH. intros tp' Hin. apply Hall. by right.
Qed.

End Verify.

(** C2, as the spec has it, fails: the cached file has the expected MD5
    digest up to letter case, no digest differs case-insensitively, and
    yet [download_to_cache] raises the mismatch error. *)
Lemma verify_case_insensitive_cex :
  download_to_cache Demo.linux Examples.meta_upper_md5 Examples.cached_world
  = Raise (RuntimeError "MD5" "d41d8cd98f00b204e9800998ecf8427e"
                        (VStr "D41D8CD98F00B204E9800998ECF8427E"))
          (World (fs Examples.cached_world)
                 [EvPrint "Source cache directory is: %s"
                          [VStr "/opt/conda-bld/src_cache"];
                  EvPrint "Found source in cache: %s" [VStr "pkg-1.0.tar.gz"];
                  EvHashsum Examples.cache_file "md5";
                  EvHashsum Examples.cache_file "md5"])
  ∧ ¬ ∃ tp, tp ∈ digest_kinds
            ∧ spec_digest_differs Demo.linux Examples.meta_upper_md5 "" tp.
Proof.
  split; [by vm_compute|].
  intros (tp & Hin & e & Hl & Hne).
  unfold digest_kinds in Hin.
  repeat (apply elem_of_cons in Hin as [->|Hin]);
    [| |  | by apply elem_of_nil in Hin];
    vm_compute in Hl; [injection Hl as <-|discriminate Hl..].
  by vm_compute in Hne.
Qed.

(** C2 (amended): over an existing cached file, the verification loop
    fails exactly when, for some kind among md5, sha1 and sha256 with a
    truthy expected value, the computed digest is not equal to the
    expected value, the two compared as they are (an expected digest in
    another letter case does not match); its failure is the mismatch
    error of such a kind; and with none of the three keys in the
    descriptor it succeeds, whatever the file, without touching the
    world. *)
Theorem verify_fails_iff_exact_mismatch (h : host) (meta : descriptor)
    (path : string) :
  (∀ w c, fs w !! path = Some (File c) →
     (succeeds (verify_digests h meta path w) = false
      ↔ ∃ tp, tp ∈ digest_kinds
              ∧ truthy (meta_get meta tp) = true
              ∧ meta_get meta tp ≠ VStr (hashsum h tp c)))
  ∧ (∀ w c e w', fs w !! path = Some (File c) →
       verify_digests h meta path w = Raise e w' →
       ∃ tp, tp ∈ digest_kinds
             ∧ meta_get meta tp ≠ VStr (hashsum h tp c)
             ∧ e = RuntimeError (PyStr.upper tp) (hashsum h tp c)
                                (meta_get meta tp))
  ∧ ((∀ tp, tp ∈ digest_kinds → meta !! tp = None) →
     ∀ w, verify_digests h meta path w = Ret tt w).
Proof.
  split; [|split].
  - intros w c Hf.
    apply (for_each_check_digest h meta path c digest_kinds w Hf).
  - intros w c e w' Hf HR.
    destruct (for_each_check_digest_error h meta path c digest_kinds w e w'
                Hf HR) as (tp & Hin & [_ Hm] & He).
    by exists tp.
  - intros Hnone w. apply for_each_check_digest_skip.
    intros tp Hin. unfold meta_get. by rewrite (Hnone tp Hin).
Qed.

Lemma verify_fails_iff_exact_mismatch_witness :
  succeeds (verify_digests Demo.linux Examples.meta_upper_md5
              Examples.cache_file Examples.cached_world) = false
  ∧ verify_digests Demo.linux ∅ Examples.cache_file Examples.cached_world
    = Ret tt Examples.cached_world.
Proof.
  split.
  - apply (proj1 (verify_fails_iff_exact_mismatch Demo.linux
                    Examples.meta_upper_md5 Examples.cache_file)
                 Examples.cached_world "").
    + by vm_compute.
    + exists "md5". split; [left|]. split; by vm_compute.
  - apply (proj2 (proj2 (verify_fails_iff_exact_mismatch Demo.linux ∅
                           Examples.cache_file))).
    intros tp _. apply lookup_empty.
Defined.

(** C10: a digest kind whose value in the descriptor is falsy is not
    checked: its check returns at once and leaves the world as it is (no
    digest is computed, the file is not even read); every digest the loop
    computes is for a kind with a truthy value; when the three values are
    falsy the verification passes whatever the file; and a falsy value
    behaves like an absent key. *)
Theorem falsy_digest_is_skipped (h : host) (meta : descriptor)
    (path : string) :
  (∀ tp w, truthy (meta_get meta tp) = false →
           check_digest h meta path tp w = Ret tt w)
  ∧ (∀ w, ∃ evs : list event,
        trace (final (verify_digests h meta path w)) = trace w ++ evs
        ∧ ∀ e, e ∈ evs →
               ∃ tp, e = EvHashsum path tp ∧ tp ∈ digest_kinds
                     ∧ truthy (meta_get meta tp) = true)
  ∧ ((∀ tp, tp ∈ digest_kinds → truthy (meta_get meta tp) = false) →
     ∀ w, verify_digests h meta path w = Ret tt w)
  ∧ (∀ tp w, truthy (meta_get meta tp) = false →
       verify_digests h (delete tp meta) path w
       = verify_digests h meta path w).
Proof.
  split; [intros tp w Hf; by apply check_digest_skip|].
  split; [|split].
  - unfold verify_digests. generalize digest_kinds as kinds.
    induction kinds as [|tp kinds IH]; intros w.
    + exists []. cbn. split; [by rewrite app_nil_r|].
      intros e He. by apply elem_of_nil in He.
    + cbn [for_each]. unfold bind.
      destruct (truthy (meta_get meta tp)) eqn:Ht.
      * destruct (fs w !! path) as [[|c]|] eqn:Hf.
        -- exists []. unfold check_digest, bind, hashsum_file.
           rewrite Ht, Hf. cbn. split; [by rewrite app_nil_r|].
           intros e He. by apply elem_of_nil in He.
        -- rewrite (check_digest_file h _ _ _ _ c Hf Ht).
           destruct (py_ne _ _).
           ++ exists [EvHashsum path tp; EvHashsum path tp]. cbn.
              split; [by rewrite <-app_assoc|].
              intros e He. exists tp.
              repeat (apply elem_of_cons in He as [->|He]);
                [| |by apply elem_of_nil in He];
                (split; [done|split; [left|done]]).
           ++ destruct (IH (World (fs w) (trace w ++ [EvHashsum path tp])))
                as (evs & Htr & Hall).
              exists (EvHashsum path tp :: evs). split.
              ** rewrite Htr. cbn. by rewrite <-app_assoc.
              ** intros e He. apply elem_of_cons in He as [->|He].
                 --- exists tp. split; [done|split; [left|done]].
                 --- destruct (Hall e He) as (tp' & ? & ? & ?).
                     exists tp'. split; [done|split; [by right|done]].
        -- exists []. unfold check_digest, bind, hashsum_file.
           rewrite Ht, Hf. cbn. split; [by rewrite app_nil_r|].
           intros e He. by apply elem_of_nil in He.
      * rewrite (check_digest_skip h _ _ _ _ Ht).
        destruct (IH w) as (evs & Htr & Hall).
        exists evs. split; [done|].
        intros e He. destruct (Hall e He) as (tp' & ? & ? & ?).
        exists tp'. split; [done|split; [by right|done]].
  - intros Hall w. by apply for_each_check_digest_skip.
  - intros tp w Hf. unfold verify_digests.
    generalize digest_kinds as kinds. intros kinds. revert w.
    induction kinds as [|tp' kinds IH]; intros w; [done|].
    cbn [for_each]. unfold bind.
    assert (check_digest h (delete tp meta) path tp' w
            = check_digest h meta path tp' w) as ->.
    { destruct (decide (tp = tp')) as [<-|Hne].
      - rewrite (check_digest_skip h meta _ _ _ Hf).
        apply check_digest_skip. unfold meta_get.
        by rewrite lookup_delete_eq.
      - unfold check_digest, meta_get, meta_item.
        by rewrite lookup_delete_ne. }
    destruct (check_digest h meta path tp' w) as [[] w'|e w']; [apply IH|done].
Qed.

Lemma falsy_digest_is_skipped_witness :
  check_digest Demo.linux Examples.meta_empty_md5 Examples.cache_file "md5"
    Demo.empty_world = Ret tt Demo.empty_world
  ∧ verify_digests Demo.linux Examples.meta_empty_md5 Examples.cache_file
      Demo.empty_world = Ret tt Demo.empty_world.
Proof.
  pose proof (falsy_digest_is_skipped Demo.linux Examples.meta_empty_md5
                Examples.cache_file) as (H1 & _ & H3 & _).
  split.
  - apply H1. by vm_compute.
  - apply H3. intros tp Hin. unfold digest_kinds in Hin.
    repeat (apply elem_of_cons in Hin as [->|Hin]);
      [| | |by apply elem_of_nil in Hin]; by vm_compute.
Defined.

(** ** What [provide] returns *)

Ltac inv_bind H :=
  repeat match type of H with
         | bind _ _ _ = Ret _ _ =>
             let a := fresh "a" in
             let w := fresh "w" in
             let E := fresh "E" in
             apply bind_inv_Ret in H as (a & w & E & H)
         end.

Lemma ret_inv {A} (a b : A) w w' : ret a w = Ret b w' → a = b ∧ w = w'.
Proof. unfold ret. intros [= -> ->]. done. Qed.

Section Returns.

Context (h : host).

Lemma git_source_returns meta w v w' :
  git_source h meta w = Ret v w' → v = WORK_DIR h.
Proof.
  unfold git_source. intros H. inv_bind H.
  destruct (exe_missing _); [done|].
  inv_bind H. by apply ret_inv in H as [<- _].
Qed.

Lemma hg_source_returns meta w v w' :
  hg_source h meta w = Ret v w' → v = WORK_DIR h.
Proof.
  unfold hg_source. destruct (exe_missing _); [done|].
  intros H. inv_bind H. by apply ret_inv in H as [<- _].
Qed.

Lemma svn_source_returns meta w v w' :
  svn_source h meta w = Ret v w' → v = WORK_DIR h.
Proof.
  unfold svn_source. destruct (exe_missing _); [done|].
  intros H. inv_bind H. by apply ret_inv in H as [<- _].
Qed.

End Returns.

(** C4, as the spec has it, fails: the call of the [__main__] block
    completes and its value is [None], not the path of the work
    directory. *)
Lemma provide_returns_path_cex :
  (∃ w', provide Demo.linux "." MainBlock.meta true Demo.empty_world
         = Ret VNone w')
  ∧ ¬ ∃ w', provide Demo.linux "." MainBlock.meta true Demo.empty_world
            = Ret (VStr (WORK_DIR Demo.linux)) w'.
Proof.
  split.
  - eexists. vm_compute. reflexivity.
  - intros [w' H]. vm_compute in H. discriminate H.
Qed.

(** C4 (amended): a call of [provide] that completes returns [None], for
    every recipe directory, descriptor, patch flag and world; the path of
    the work directory is what the Git, Mercurial and Subversion providers
    return to [provide], which drops it. *)
Theorem provide_returns_none (h : host) (recipe_dir : string)
    (meta : descriptor) (patch : bool) (w : world) :
  (∀ v w', provide h recipe_dir meta patch w = Ret v w' → v = VNone)
  ∧ (∀ v w', git_source h meta w = Ret v w' → v = WORK_DIR h)
  ∧ (∀ v w', hg_source h meta w = Ret v w' → v = WORK_DIR h)
  ∧ (∀ v w', svn_source h meta w = Ret v w' → v = WORK_DIR h).
Proof.
  split; [|split; [|split]].
  - intros v w' H. unfold provide in H. inv_bind H.
    by apply ret_inv in H as [<- _].
  - intros v w'. apply git_source_returns.
  - intros v w'. apply hg_source_returns.
  - intros v w'. apply svn_source_returns.
Qed.

Lemma provide_returns_none_witness :
  ∃ v w', provide Demo.linux "." MainBlock.meta true Demo.empty_world
          = Ret v w' ∧ v = VNone.
Proof.
  eexists _, _. split; [vm_compute; reflexivity|].
  eapply (proj1 (provide_returns_none Demo.linux "." MainBlock.meta true
                   Demo.empty_world)).
  vm_compute. reflexivity.
Defined.

(** ** The calls a computation makes *)

Lemma emits_none P {A} (c : Py A) :
  (∀ w, trace (final (c w)) = trace w) → emits P c.
Proof. intros H w. exists []. by rewrite app_nil_r. Qed.

Lemma emits_one P {A} (c : Py A) e :
  P e →
  (∀ w, trace (final (c w)) = trace w
        ∨ trace (final (c w)) = trace w ++ [e]) →
  emits P c.
Proof.
  intros HP H w. destruct (H w) as [E|E].
  - exists []. by rewrite app_nil_r.
  - exists [e]. split; [done|]. by constructor.
Qed.

Lemma emits_ret P {A} (a : A) : emits P (ret a).
Proof. by apply emits_none. Qed.

Lemma emits_raise P {A} e : emits P (@raise A e).
Proof. by apply emits_none. Qed.

Lemma emits_bind P {A B} (c : Py A) (k : A → Py B) :
  emits P c → (∀ a, emits P (k a)) → emits P (bind c k).
Proof.
  intros Hc Hk w. unfold bind. destruct (Hc w) as (evs & E & HP).
  destruct (c w) as [a w'|e w']; cbn in E.
  - destruct (Hk a w') as (evs' & E' & HP'). exists (evs ++ evs').
    split; [by rewrite E', E, app_assoc|]. by apply Forall_app.
  - by exists evs.
Qed.

Lemma emits_for_each P {A} (body : A → Py unit) l :
  (∀ a, emits P (body a)) → emits P (for_each body l).
Proof.
  intros Hb. induction l as [|x l IH]; cbn [for_each].
  - apply emits_ret.
  - apply emits_bind; [apply Hb|intros _; apply IH].
Qed.

Lemma emits_log P e : P e → emits P (log e).
Proof. intros HP w. exists [e]. split; [done|]. by constructor. Qed.

Lemma emits_isdir P p : emits P (isdir p).
Proof. by apply emits_none. Qed.

Lemma emits_isfile P p : emits P (isfile p).
Proof. by apply emits_none. Qed.

Lemma emits_makedirs P p : emits P (makedirs p).
Proof.
  apply emits_none. intros w. unfold makedirs. by destruct (fs w !! p).
Qed.

Lemma emits_listdir P p : emits P (listdir p).
Proof.
  apply emits_none. intros w. unfold listdir. by destruct (FS.isdir p _).
Qed.

Lemma emits_copy2 P src dst : P (EvCopy2 src dst) → emits P (copy2 src dst).
Proof.
  intros HP. apply (emits_one P _ _ HP). intros w. unfold copy2.
  destruct (fs w !! src) as [[|c]|]; [by left| |by left].
  destruct (String.eqb _ _); [by left|].
  destruct (FS.isdir _ _); [by left|]. by right.
Qed.

Lemma emits_meta_item P meta k : emits P (meta_item meta k).
Proof.
  apply emits_none. intros w. unfold meta_item. by destruct (meta !! k).
Qed.

Lemma emits_as_str P v : emits P (as_str v).
Proof. apply emits_none. intros w. by destruct v. Qed.

Lemma emits_py_iter P v : emits P (py_iter v).
Proof. apply emits_none. intros w. by destruct v. Qed.

Lemma emits_rm_rf P p : P (EvRmRf p) → emits P (rm_rf p).
Proof. intros HP w. exists [EvRmRf p]. split; [done|]. by constructor. Qed.

Lemma emits_external P callee e fx : P e → emits P (external callee e fx).
Proof.
  intros HP w. exists [e]. unfold external.
  split; [by destruct (fx (fs w))|]. by constructor.
Qed.

Lemma emits_assert_isdir P p : emits P (assert_isdir p).
Proof.
  apply emits_none. intros w. unfold assert_isdir, bind, isdir.
  by destruct (FS.isdir p _).
Qed.

Lemma emits_hashsum_file P (h : host) path tp :
  P (EvHashsum path tp) → emits P (hashsum_file h path tp).
Proof.
  intros HP. apply (emits_one P _ _ HP). intros w. unfold hashsum_file.
  destruct (fs w !! path) as [[|c]|]; [by left| |by left]. by right.
Qed.

Lemma emits_check_call P (h : host) argv cwd :
  (∀ args, argv_strs argv = Some args → P (EvCheckCall args cwd)) →
  emits P (check_call h argv cwd).
Proof.
  intros HP w. unfold check_call.
  destruct (argv_strs argv) as [args|].
  - exists [EvCheckCall args cwd].
    split; [by destruct (process_fx h _ _ _).1|].
    constructor; [by apply HP|done].
  - exists []. cbn. by rewrite app_nil_r.
Qed.

Lemma emits_popen P (h : host) argv cwd :
  P (EvPopen argv cwd) → emits P (popen_communicate h argv cwd).
Proof.
  intros HP w. exists [EvPopen argv cwd]. unfold popen_communicate.
  split; [by destruct (popen_fx h argv cwd (fs w)) as [[out m]|]|].
  by constructor.
Qed.

Ltac emits_step :=
  match goal with
  | |- emits _ (bind _ _) => apply emits_bind; [|intros ?]
  | |- emits _ (for_each _ _) => apply emits_for_each; intros ?
  | |- emits _ (if ?b then _ else _) => destruct b
  | |- emits _ (match ?x with _ => _ end) => destruct x
  | |- emits _ (ret _) => apply emits_ret
  | |- emits _ (raise _) => apply emits_raise
  | |- emits _ (isdir _) => apply emits_isdir
  | |- emits _ (isfile _) => apply emits_isfile
  | |- emits _ (makedirs _) => apply emits_makedirs
  | |- emits _ (listdir _) => apply emits_listdir
  | |- emits _ (meta_item _ _) => apply emits_meta_item
  | |- emits _ (as_str _) => apply emits_as_str
  | |- emits _ (py_iter _) => apply emits_py_iter
  | |- emits _ (assert_isdir _) => apply emits_assert_isdir
  | |- emits _ (log _) => apply emits_log
  | |- emits _ (copy2 _ _) => apply emits_copy2
  | |- emits _ (rm_rf _) => apply emits_rm_rf
  | |- emits _ (external _ _ _) => apply emits_external
  | |- emits _ (hashsum_file _ _ _) => apply emits_hashsum_file
  | |- emits _ (popen_communicate _ _ _) => apply emits_popen
  | |- emits _ (check_call _ _ _) => apply emits_check_call; intros ? ?
  end.

(** leaves the conditions on the calls themselves *)
Ltac emits_calls := repeat emits_step.

Ltac solve_extends := unfold extends; emits_calls; exact I.

Lemma extends_bind {A B} (c : Py A) (k : A → Py B) :
  extends c → (∀ a, extends (k a)) → extends (bind c k).
Proof. apply emits_bind. Qed.

Lemma extends_ret {A} (a : A) : extends (ret a).
Proof. apply emits_ret. Qed.





Section ExtendsModule.

Context (h : host).

Lemma extends_get_dir : extends (get_dir h).
Proof. unfold get_dir. solve_extends. Qed.

Lemma extends_download_to_cache meta : extends (download_to_cache h meta).
Proof.
  unfold download_to_cache, verify_digests, check_digest, print, download.
  solve_extends.
Qed.

Lemma extends_unpack meta : extends (unpack h meta).
Proof.
  unfold unpack, tar_xf, unzip, print.
  apply extends_bind; [apply extends_download_to_cache|intros ?].
  solve_extends.
Qed.

Lemma extends_git_info : extends (git_info h).
Proof. unfold git_info. solve_extends. Qed.

Lemma extends_git_source meta : extends (git_source h meta).
Proof.
  unfold git_source, print, sys_exit.
  pose proof extends_git_info as Hinfo. unfold extends in Hinfo.
  unfold extends.
  repeat first [apply Hinfo | emits_step]; exact I.
Qed.

Lemma extends_hg_source meta : extends (hg_source h meta).
Proof. unfold hg_source, print, sys_exit. solve_extends. Qed.

Lemma extends_svn_source meta : extends (svn_source h meta).
Proof. unfold svn_source, copytree, print, sys_exit. solve_extends. Qed.

Lemma extends_acquire meta : extends (acquire h meta).
Proof.
  unfold acquire.
  repeat match goal with
         | |- extends (if ?b then _ else _) => destruct b
         end;
    [apply extends_unpack| | | |unfold extends; apply emits_makedirs];
    (apply extends_bind; [|intros ?; apply extends_ret]);
    [apply extends_git_source|apply extends_hg_source
    |apply extends_svn_source].
Qed.

Lemma extends_apply_patch src_dir path : extends (apply_patch h src_dir path).
Proof. unfold apply_patch, print, sys_exit. solve_extends. Qed.

Lemma extends_apply_patches recipe_dir meta :
  extends (apply_patches h recipe_dir meta).
Proof.
  unfold apply_patches.
  apply extends_bind; [apply extends_get_dir|intros ?].
  apply extends_bind; [unfold extends; apply emits_py_iter|intros ?].
  apply emits_for_each. intros ?. apply extends_apply_patch.
Qed.

End ExtendsModule.

(** ** The work directory after the reset *)

Lemma append_cons (a : ascii) (s t : string) :
  String a s +:+ t = String a (s +:+ t).
Proof. reflexivity. Qed.

Lemma prefix_app_longer (d : string) (c : ascii) (s : string) :
  String.prefix (d +:+ String c s) d = false.
Proof.
  induction d as [|a d IH]; [done|].
  rewrite append_cons. cbn. by destruct (ascii_dec a a).
Qed.

Lemma under_self d : FS.under d d = true.
Proof. unfold FS.under. by rewrite String.eqb_refl. Qed.

Lemma entry_name_self d : FS.entry_name d d = None.
Proof. unfold FS.entry_name. by rewrite prefix_app_longer. Qed.

Lemma entry_name_not_under d p :
  FS.under d p = false → FS.entry_name d p = None.
Proof.
  unfold FS.under, FS.entry_name. intros [_ ->]%orb_false_iff. done.
Qed.

Lemma omap_all_None {A B} (f : A → option B) (l : list A) :
  (∀ x, x ∈ l → f x = None) → omap f l = [].
Proof.
  induction l as [|x l IH]; intros H; [done|].
  cbn. rewrite (H x) by left. apply IH. intros y Hy. apply H. by right.
Qed.

Lemma removed_under d m p : FS.under d p = true → removed d m !! p = None.
Proof.
  intros Hu. unfold removed. apply map_lookup_filter_None. right.
  intros v _ Hn. change (¬ FS.under d p) in Hn. apply Hn. by rewrite Hu.
Qed.

Lemma removed_not_under d m p :
  FS.under d p = false → removed d m !! p = m !! p.
Proof.
  intros Hu. unfold removed.
  destruct (m !! p) as [v|] eqn:E.
  - apply map_lookup_filter_Some. split; [done|].
    change (¬ FS.under d p). rewrite Hu. intros [].
  - apply map_lookup_filter_None. by left.
Qed.

Lemma removed_agree d m1 m2 :
  (∀ p, FS.under d p = false → m1 !! p = m2 !! p) →
  removed d m1 = removed d m2.
Proof.
  intros H. apply map_eq. intros p.
  destruct (FS.under d p) eqn:Hu.
  - by rewrite !removed_under.
  - rewrite !removed_not_under by done. by apply H.
Qed.

(** a directory created right after the reset has no entry *)
Lemma entries_fresh d m : FS.entries d (<[d := Dir]> (removed d m)) = [].
Proof.
  unfold FS.entries. apply omap_all_None. intros [p v] Hin. cbn.
  apply elem_of_map_to_list in Hin.
  destruct (decide (d = p)) as [<-|Hne]; [apply entry_name_self|].
  rewrite lookup_insert_ne in Hin by done.
  apply entry_name_not_under.
  destruct (FS.under d p) eqn:Hu; [|done].
  by rewrite removed_under in Hin.
Qed.

Lemma rm_rf_eq d w :
  rm_rf d w = Ret tt (World (removed d (fs w)) (trace w ++ [EvRmRf d])).
Proof. done. Qed.

(** once the source is acquired, [provide] is its patch block *)
Lemma provide_patch_stage (h : host) recipe_dir meta w_s w :
  (rm_rf (WORK_DIR h) >> acquire h meta) w_s = Ret tt w →
  provide h recipe_dir meta true w_s
  = (apply_patches h recipe_dir meta >> ret VNone) w.
Proof.
  intros H. unfold provide.
  rewrite (bind_Ret _ _ _ _ _ (rm_rf_eq _ _)).
  rewrite (bind_Ret _ _ _ _ _ (rm_rf_eq _ _)) in H.
  by rewrite (bind_Ret _ _ _ _ _ H).
Qed.

(** ** The branch on the source kind *)

Section Dispatch.

Context (h : host).

Lemma acquire_kind meta : acquire h meta = run_kind h (spec_kind meta) meta.
Proof.
  unfold acquire, spec_kind, identity_keys. cbn [List.find fst snd].
  repeat (destruct (meta_has meta _); [done|]). done.
Qed.

(** with no source, after the reset, the work directory is created empty *)
Lemma provide_no_source recipe_dir meta patch w :
  spec_kind meta = NoSource →
  patch = false ∨ patches_of meta = VList [] →
  provide h recipe_dir meta patch w
  = Ret VNone (World (<[WORK_DIR h := Dir]> (removed (WORK_DIR h) (fs w)))
                     (trace w ++ [EvRmRf (WORK_DIR h)])).
Proof.
  intros Hk Hp. unfold provide.
  rewrite (bind_Ret _ _ _ _ _ (rm_rf_eq _ w)).
  rewrite acquire_kind, Hk. cbn [run_kind].
  set (w0 := World _ _).
  assert (makedirs (WORK_DIR h) w0
          = Ret tt (World (<[WORK_DIR h := Dir]> (fs w0)) (trace w0))) as Hm.
  { unfold makedirs. subst w0. cbn [fs].
    by rewrite (removed_under _ _ _ (under_self _)). }
  rewrite (bind_Ret _ _ _ _ _ Hm). subst w0. cbn [fs trace].
  set (w1 := World _ _).
  assert (apply_patches h recipe_dir meta w1 = Ret tt w1
          ∨ patch = false) as Hpatch.
  { destruct Hp as [->|Hp]; [by right|left].
    unfold apply_patches, get_dir.
    assert (FS.isdir (WORK_DIR h) (fs w1) = true) as Hd.
    { unfold FS.isdir. subst w1. cbn [fs].
      by rewrite lookup_insert_eq, bool_decide_eq_true. }
    unfold bind at 1 2. unfold isdir at 1. rewrite Hd.
    unfold bind at 1. unfold ret at 1.
    unfold bind at 1. unfold listdir. rewrite Hd.
    subst w1. cbn [fs]. rewrite entries_fresh. cbn [List.filter].
    unfold ret at 1. rewrite Hp. done. }
  destruct Hpatch as [Ha| ->].
  - destruct patch; [|done]. by rewrite (bind_Ret _ _ _ _ _ Ha).
  - done.
Qed.

End Dispatch.

(** C3: [provide] removes the work directory and then runs what the first
    identity key present in the descriptor selects, in the priority
    [fn] (unpack), [git_url] (Git), [hg_url] (Mercurial), [svn_url]
    (Subversion); with none of them it creates the work directory, and
    then, when no patch is to be applied, it completes without an error
    and the work directory exists and has no entry. *)
Theorem provide_dispatches_by_priority (h : host) (recipe_dir : string)
    (meta : descriptor) (patch : bool) (w : world) :
  provide h recipe_dir meta patch w
  = (rm_rf (WORK_DIR h) >>
     run_kind h (spec_kind meta) meta >>
     (if patch then apply_patches h recipe_dir meta else ret tt) >>
     ret VNone) w
  ∧ (spec_kind meta = NoSource →
     patch = false ∨ patches_of meta = VList [] →
     ∃ w', provide h recipe_dir meta patch w = Ret VNone w'
           ∧ trace w' = trace w ++ [EvRmRf (WORK_DIR h)]
           ∧ FS.isdir (WORK_DIR h) (fs w') = true
           ∧ FS.entries (WORK_DIR h) (fs w') = []).
Proof.
  split.
  - unfold provide. by rewrite acquire_kind.
  - intros Hk Hp. eexists. split; [by apply provide_no_source|].
    cbn [fs trace]. split; [done|]. split; [|apply entries_fresh].
    unfold FS.isdir. by rewrite lookup_insert_eq, bool_decide_eq_true.
Qed.

Lemma provide_dispatches_by_priority_witness :
  ∃ w', provide Demo.linux "/recipe" ∅ true Demo.stale_world = Ret VNone w'
        ∧ trace w' = [EvRmRf "/opt/conda-bld/work"]
        ∧ FS.isdir "/opt/conda-bld/work" (fs w') = true
        ∧ FS.entries "/opt/conda-bld/work" (fs w') = [].
Proof.
  apply (proj2 (provide_dispatches_by_priority Demo.linux "/recipe" ∅ true
                  Demo.stale_world)).
  - reflexivity.
  - right. reflexivity.
Defined.

(** ** The reset at the start of [provide] *)

Section Reset.

Context (h : host).

Lemma extends_after_reset recipe_dir meta patch :
  extends (after_reset h recipe_dir meta patch).
Proof.
  unfold after_reset.
  apply extends_bind; [apply extends_acquire|intros ?].
  apply extends_bind; [|intros ?; apply extends_ret].
  destruct patch; [apply extends_apply_patches|apply extends_ret].
Qed.

Lemma provide_after_reset recipe_dir meta patch w :
  provide h recipe_dir meta patch w
  = after_reset h recipe_dir meta patch
      (World (removed (WORK_DIR h) (fs w))
             (trace w ++ [EvRmRf (WORK_DIR h)])).
Proof. done. Qed.

End Reset.

(** C1: whatever the descriptor, the patch flag and the world it starts
    from (a stale or half-provisioned work directory included), [provide]
    first removes the work directory: the removal is the first call it
    makes, it leaves no path at or below the work directory and changes
    nothing else, and everything after it runs from that state.  Hence the
    outcome does not depend on what the work directory held before (two
    worlds that differ only below it give the same outcome and the same
    final world, so no earlier file survives and nothing is left over from
    a prior run), and with no source and no patch to apply the call
    completes with the work directory present and empty. *)
Theorem provide_resets_work_dir (h : host) (recipe_dir : string)
    (meta : descriptor) (patch : bool) :
  (∀ w, ∃ evs : list event,
      trace (final (provide h recipe_dir meta patch w))
      = trace w ++ EvRmRf (WORK_DIR h) :: evs)
  ∧ (∀ w, ∃ w0,
        rm_rf (WORK_DIR h) w = Ret tt w0
        ∧ (∀ p, FS.under (WORK_DIR h) p = true → fs w0 !! p = None)
        ∧ (∀ p, FS.under (WORK_DIR h) p = false → fs w0 !! p = fs w !! p)
        ∧ provide h recipe_dir meta patch w
          = after_reset h recipe_dir meta patch w0)
  ∧ (∀ w1 w2,
        trace w1 = trace w2 →
        (∀ p, FS.under (WORK_DIR h) p = false → fs w1 !! p = fs w2 !! p) →
        provide h recipe_dir meta patch w1
        = provide h recipe_dir meta patch w2)
  ∧ (spec_kind meta = NoSource →
     patch = false ∨ patches_of meta = VList [] →
     ∀ w, ∃ w',
       provide h recipe_dir meta patch w = Ret VNone w'
       ∧ fs w' !! WORK_DIR h = Some Dir
       ∧ ∀ p, FS.under (WORK_DIR h) p = true → p ≠ WORK_DIR h →
              fs w' !! p = None).
Proof.
  split; [|split; [|split]].
  - intros w. rewrite provide_after_reset.
    destruct (extends_after_reset h recipe_dir meta patch
                (World (removed (WORK_DIR h) (fs w))
                       (trace w ++ [EvRmRf (WORK_DIR h)]))) as (evs & E & _).
    exists evs. rewrite E. cbn [trace]. by rewrite <-app_assoc.
  - intros w. eexists. split; [apply rm_rf_eq|]. cbn [fs].
    split; [intros p; apply removed_under|].
    split; [intros p; apply removed_not_under|].
    apply provide_after_reset.
  - intros w1 w2 Ht Hfs. rewrite !provide_after_reset.
    by rewrite Ht, (removed_agree _ _ _ Hfs).
  - intros Hk Hp w. eexists. split; [by apply provide_no_source|].
    cbn [fs]. split; [by rewrite lookup_insert_eq|].
    intros p Hu Hne. rewrite lookup_insert_ne by done.
    by apply removed_under.
Qed.

Lemma provide_resets_work_dir_witness :
  provide Demo.linux "/recipe" Stale.meta true Demo.stale_world
  = provide Demo.linux "/recipe" Stale.meta true Stale.clean_world
  ∧ ∃ w', provide Demo.linux "/recipe" ∅ true Demo.stale_world = Ret VNone w'
          ∧ fs w' !! WORK_DIR Demo.linux = Some Dir
          ∧ ∀ p, FS.under (WORK_DIR Demo.linux) p = true →
                 p ≠ WORK_DIR Demo.linux → fs w' !! p = None.
Proof.
  split.
  - apply (proj1 (proj2 (proj2 (provide_resets_work_dir Demo.linux "/recipe"
                                  Stale.meta true)))).
    + reflexivity.
    + intros p Hp. unfold Demo.stale_world, Stale.clean_world. cbn [fs].
      do 3 (rewrite lookup_insert_ne
              by (intros <-; vm_compute in Hp; discriminate Hp)).
      reflexivity.
  - apply (proj2 (proj2 (proj2 (provide_resets_work_dir Demo.linux "/recipe"
                                  ∅ true)))).
    + reflexivity.
    + right. reflexivity.
Defined.

(** ** Patches *)

Section Patches.

Context (h : host).

Lemma apply_patch_no_file src_dir path w :
  FS.isfile path (fs w) = false →
  apply_patch h src_dir path w
  = Raise (SystemExit (no_such_patch_msg path))
          (World (fs w) (trace w ++ [applying path])).
Proof.
  intros Hf. unfold apply_patch, print, bind, log, isfile. simpl.
  by rewrite Hf.
Qed.

Lemma apply_patch_no_tool src_dir path w :
  FS.isfile path (fs w) = true →
  find_executable h "patch" = None →
  apply_patch h src_dir path w
  = Raise (SystemExit (patch_missing_msg h))
          (World (fs w) (trace w ++ [applying path])).
Proof.
  intros Hf Ht. unfold apply_patch, print, bind, log, isfile. simpl.
  by rewrite Hf, Ht.
Qed.

Lemma apply_patch_run src_dir path w tool :
  FS.isfile path (fs w) = true →
  find_executable h "patch" = Some tool →
  apply_patch h src_dir path w
  = let r := process_fx h [tool; "-p0"; "-i"; path] (Some src_dir) (fs w) in
    let w' := World r.2 (trace w ++ patch_events h src_dir path) in
    if r.1 then Ret tt w'
    else Raise (CalledProcessError [tool; "-p0"; "-i"; path]) w'.
Proof.
  intros Hf Ht. unfold apply_patch, print, bind, log, isfile, patch_events.
  simpl. rewrite Hf, Ht. unfold check_call. simpl.
  rewrite <-app_assoc. done.
Qed.

(** the calls of the loop are an initial part of the calls for the whole
    list, in its order, and all of them when the loop completes *)
Lemma patch_loop_trace src_dir recipe_dir ps w :
  ∃ evs : list event,
    trace (final (for_each (patch_body h src_dir recipe_dir) ps w))
    = trace w ++ evs
    ∧ evs `prefix_of`
        flat_map (λ p, patch_events h src_dir (PyStr.join recipe_dir p)) ps
    ∧ (succeeds (for_each (patch_body h src_dir recipe_dir) ps w) = true →
       evs = flat_map
               (λ p, patch_events h src_dir (PyStr.join recipe_dir p)) ps).
Proof.
  revert w. induction ps as [|p ps IH]; intros w.
  - exists []. cbn. by rewrite app_nil_r.
  - cbn [for_each flat_map]. unfold bind.
    change (patch_body h src_dir recipe_dir p w)
      with (apply_patch h src_dir (PyStr.join recipe_dir p) w).
    set (path := PyStr.join recipe_dir p).
    destruct (FS.isfile path (fs w)) eqn:Hf.
    + destruct (find_executable h "patch") as [tool|] eqn:Ht.
      * rewrite (apply_patch_run _ _ _ tool Hf Ht). cbn zeta.
        destruct (process_fx h _ _ _).1.
        -- destruct (IH (World (process_fx h [tool; "-p0"; "-i"; path]
                                  (Some src_dir) (fs w)).2
                               (trace w ++ patch_events h src_dir path)))
             as (evs & E & Hpre & Hall).
           exists (patch_events h src_dir path ++ evs).
           rewrite E. cbn [trace]. rewrite <-app_assoc.
           split; [done|]. split; [by apply prefix_app|].
           intros Hs. by rewrite (Hall Hs).
        -- exists (patch_events h src_dir path). cbn.
           split; [done|]. split; [|done]. by eexists.
      * rewrite (apply_patch_no_tool _ _ _ Hf Ht).
        exists [applying path]. cbn. split; [done|]. split; [|done].
        by eexists.
    + rewrite (apply_patch_no_file _ _ _ Hf).
      exists [applying path]. cbn. split; [done|]. split; [|done].
      by eexists.
Qed.

Lemma isdir_insert d (m : filesystem) : FS.isdir d (<[d := Dir]> m) = true.
Proof. unfold FS.isdir. by rewrite lookup_insert_eq, bool_decide_eq_true. Qed.

Lemma get_dir_listing w :
  FS.isdir (WORK_DIR h) (fs w) = true →
  (let! names := listdir (WORK_DIR h) in
   let lst := List.filter (λ fn, negb (PyStr.startswith fn ".")) names in
   match lst with
   | [x] =>
       let dir_path := PyStr.join (WORK_DIR h) x in
       let! d' := isdir dir_path in
       if d' then ret dir_path else ret (WORK_DIR h)
   | _ => ret (WORK_DIR h)
   end) w = Ret (src_dir_of h (fs w)) w.
Proof.
  intros Hd. unfold bind at 1. unfold listdir. rewrite Hd.
  unfold src_dir_of. cbn zeta.
  destruct (List.filter _ _) as [|x [|y l]]; [done| |done].
  unfold bind, isdir.
  destruct (FS.isdir (PyStr.join _ _) _); reflexivity.
Qed.

Lemma get_dir_eq w :
  get_dir h w
  = if FS.isdir (WORK_DIR h) (fs w) then Ret (src_dir_of h (fs w)) w
    else match fs w !! WORK_DIR h with
         | Some _ => Raise (OSError (WORK_DIR h)) w
         | None =>
             Ret (src_dir_of h (<[WORK_DIR h := Dir]> (fs w)))
                 (World (<[WORK_DIR h := Dir]> (fs w)) (trace w))
         end.
Proof.
  unfold get_dir. unfold bind at 1 2. unfold isdir at 1.
  destruct (FS.isdir (WORK_DIR h) (fs w)) eqn:Hd.
  - unfold ret at 1. by apply get_dir_listing.
  - unfold makedirs. destruct (fs w !! WORK_DIR h); [done|].
    apply get_dir_listing. apply isdir_insert.
Qed.

Lemma get_dir_trace w src_dir w0 :
  get_dir h w = Ret src_dir w0 → trace w0 = trace w.
Proof.
  rewrite get_dir_eq. destruct (FS.isdir _ _); [by intros [= _ <-]|].
  destruct (fs w !! WORK_DIR h); [done|]. by intros [= _ <-].
Qed.

Lemma get_dir_value w src_dir w0 :
  get_dir h w = Ret src_dir w0 → src_dir = src_dir_of h (fs w0).
Proof.
  rewrite get_dir_eq. destruct (FS.isdir _ _); [by intros [= <- <-]|].
  destruct (fs w !! WORK_DIR h); [done|]. by intros [= <- <-].
Qed.

Lemma apply_patches_loop recipe_dir meta ps w src_dir w0 :
  meta !! "patches" = Some (VList ps) →
  get_dir h w = Ret src_dir w0 →
  apply_patches h recipe_dir meta w
  = for_each (patch_body h src_dir recipe_dir) ps w0.
Proof.
  intros Hm Hg. unfold apply_patches.
  rewrite (bind_Ret _ _ _ _ _ Hg). unfold patches_of. rewrite Hm. done.
Qed.

End Patches.

(** C5: with [patches] a list in the descriptor, the calls of the patch
    loop are an initial part of the calls for the whole list taken in its
    declared order, each entry joined to the recipe directory, and all of
    them when the loop completes; when the entries before one were
    applied and that one's path is not a file, the loop stops with the
    fatal "no such patch" error right there: nothing is called for the
    later entries and the files are as the applied patches left them.
    For a relative entry the joined path is [recipe_dir/entry].  The
    loop is what [provide] runs, with the patch flag set, once the source
    is acquired. *)
Theorem patches_applied_in_order (h : host) (recipe_dir : string)
    (meta : descriptor) (ps : list string) (w : world) (src_dir : string)
    (w0 : world) :
  meta !! "patches" = Some (VList ps) →
  get_dir h w = Ret src_dir w0 →
  (∃ evs : list event,
      trace (final (apply_patches h recipe_dir meta w)) = trace w ++ evs
      ∧ evs `prefix_of` patch_calls h src_dir recipe_dir ps
      ∧ (succeeds (apply_patches h recipe_dir meta w) = true →
         evs = patch_calls h src_dir recipe_dir ps))
  ∧ (∀ done p rest w1,
        ps = done ++ p :: rest →
        for_each (patch_body h src_dir recipe_dir) done w0 = Ret tt w1 →
        FS.isfile (PyStr.join recipe_dir p) (fs w1) = false →
        apply_patches h recipe_dir meta w
        = Raise (SystemExit (no_such_patch_msg (PyStr.join recipe_dir p)))
                (World (fs w1)
                       (trace w1 ++ [applying (PyStr.join recipe_dir p)]))
        ∧ trace w1 = trace w ++ patch_calls h src_dir recipe_dir done)
  ∧ (∀ p, PyStr.startswith p "/" = false →
          recipe_dir ≠ "" → PyStr.endswith recipe_dir "/" = false →
          PyStr.join recipe_dir p = recipe_dir +:+ "/" +:+ p)
  ∧ (∀ w_s, (rm_rf (WORK_DIR h) >> acquire h meta) w_s = Ret tt w →
       provide h recipe_dir meta true w_s
       = (apply_patches h recipe_dir meta >> ret VNone) w).
Proof.
  intros Hm Hg.
  split; [|split; [|split]]; [| | |intros w_s; apply provide_patch_stage].
  all: rewrite ?(apply_patches_loop h _ _ _ _ _ _ Hm Hg).
  all: pose proof (get_dir_trace h _ _ _ Hg) as Ht.
  - rewrite <-Ht. apply patch_loop_trace.
  - intros done p rest w1 -> Hdone Hf. split.
    + rewrite for_each_app, Hdone. cbn [for_each]. unfold bind.
      change (patch_body h src_dir recipe_dir p w1)
        with (apply_patch h src_dir (PyStr.join recipe_dir p) w1).
      by rewrite (apply_patch_no_file h _ _ _ Hf).
    + destruct (patch_loop_trace h src_dir recipe_dir done w0)
        as (evs & E & _ & Hall).
      rewrite Hdone in E, Hall. cbn in E.
      rewrite E, Ht, (Hall eq_refl). done.
  - intros p Hp Hne Hend. unfold PyStr.join. rewrite Hp, Hend.
    apply String.eqb_neq in Hne. by rewrite Hne.
Qed.

Lemma patches_applied_in_order_witness :
  apply_patches Demo.linux "/recipe" Unpacked.meta Unpacked.world0
  = Raise (SystemExit "Error: no such patch: /recipe/fix2.patch")
          (World (fs Unpacked.world0)
                 [applying "/recipe/fix1.patch";
                  patch_call "/usr/bin/patch" Unpacked.src_dir
                             "/recipe/fix1.patch";
                  applying "/recipe/fix2.patch"]).
Proof.
  refine (proj1 (proj1 (proj2 (patches_applied_in_order Demo.linux "/recipe"
                   Unpacked.meta ["fix1.patch"; "fix2.patch"] Unpacked.world0
                   Unpacked.src_dir Unpacked.world0 _ _))
                 ["fix1.patch"] "fix2.patch" [] Unpacked.world1 _ _ _)).
  - reflexivity.
  - vm_compute. reflexivity.
  - reflexivity.
  - vm_compute. reflexivity.
  - vm_compute. reflexivity.
Defined.

(** C8, as the spec has it, fails: after an archive with one top-level
    directory is unpacked, the patch tool runs in that directory, and no
    call at all is made in the work directory itself. *)
Lemma patch_root_is_work_dir_cex :
  succeeds (provide Demo.linux "/recipe" Stale.meta true Demo.stale_world)
  = true
  ∧ patch_call "/usr/bin/patch" "/opt/conda-bld/work/pkg-1.0"
               "/recipe/fix1.patch"
    ∈ trace (final (provide Demo.linux "/recipe" Stale.meta true
                      Demo.stale_world))
  ∧ ∀ argv, EvCheckCall argv (Some (WORK_DIR Demo.linux))
            ∉ trace (final (provide Demo.linux "/recipe" Stale.meta true
                              Demo.stale_world)).
Proof.
  split; [by vm_compute|].
  assert (trace (final (provide Demo.linux "/recipe" Stale.meta true
                          Demo.stale_world))
          = [EvRmRf "/opt/conda-bld/work";
             EvPrint "Source cache directory is: %s"
                     [VStr "/opt/conda-bld/src_cache"];
             EvPrint "Downloading source to cache: %s"
                     [VStr "pkg-1.0.tar.gz"];
             EvDownload (VStr "http://x/pkg-1.0.tar.gz")
                        "/opt/conda-bld/src_cache/pkg-1.0.tar.gz";
             EvTarXf "/opt/conda-bld/src_cache/pkg-1.0.tar.gz"
                     "/opt/conda-bld/work";
             applying "/recipe/fix1.patch";
             patch_call "/usr/bin/patch" "/opt/conda-bld/work/pkg-1.0"
                        "/recipe/fix1.patch"]) as ->
    by (vm_compute; reflexivity).
  split.
  - do 6 right. left.
  - intros argv Hin.
    repeat (apply elem_of_cons in Hin as [Hin|Hin]; [discriminate Hin|]).
    by apply elem_of_nil in Hin.
Qed.

Section PatchCalls.

Context (h : host).

(** the calls of the loop are announcements of entries of the list and
    runs of the tool for them, with [-p0] and in [src_dir] *)
Lemma patch_loop_members (src_dir recipe_dir : string) (ps : list string)
    (w0 : world) :
  ∃ evs : list event,
    trace (final (for_each (patch_body h src_dir recipe_dir) ps w0))
    = trace w0 ++ evs
    ∧ ∀ e, e ∈ evs →
        ∃ p, p ∈ ps
             ∧ (e = applying (PyStr.join recipe_dir p)
                ∨ ∃ tool, find_executable h "patch" = Some tool
                          ∧ e = EvCheckCall
                                  [tool; "-p0"; "-i";
                                   PyStr.join recipe_dir p]
                                  (Some src_dir)).
Proof.
  revert w0. induction ps as [|p ps IH]; intros w0.
  - exists []. cbn. split; [by rewrite app_nil_r|].
    intros e He. by apply elem_of_nil in He.
  - cbn [for_each]. unfold bind.
    change (patch_body h src_dir recipe_dir p w0)
      with (apply_patch h src_dir (PyStr.join recipe_dir p) w0).
    set (path := PyStr.join recipe_dir p).
    assert (∀ e, e ∈ [applying path] →
              ∃ p0, p0 ∈ p :: ps
                    ∧ (e = applying (PyStr.join recipe_dir p0)
                       ∨ ∃ tool, find_executable h "patch" = Some tool
                                 ∧ e = EvCheckCall
                                         [tool; "-p0"; "-i";
                                          PyStr.join recipe_dir p0]
                                         (Some src_dir))) as Hone.
    { intros e He. apply list_elem_of_singleton in He as ->.
      exists p. split; [left|by left]. }
    destruct (FS.isfile path (fs w0)) eqn:Hf.
    + destruct (find_executable h "patch") as [tool|] eqn:Ht.
      * rewrite (apply_patch_run h _ _ _ tool Hf Ht). cbn zeta.
        assert (∀ e, e ∈ patch_events h src_dir path →
                  ∃ p0, p0 ∈ p :: ps
                        ∧ (e = applying (PyStr.join recipe_dir p0)
                           ∨ ∃ tool0, Some tool = Some tool0
                                     ∧ e = EvCheckCall
                                             [tool0; "-p0"; "-i";
                                              PyStr.join recipe_dir p0]
                                             (Some src_dir))) as Htwo.
        { intros e He. unfold patch_events in He. rewrite Ht in He.
          exists p. split; [left|].
          apply elem_of_cons in He as [->|He]; [by left|].
          apply list_elem_of_singleton in He as ->. right. by exists tool. }
        destruct (process_fx h _ _ _).1.
        -- destruct (IH (World (process_fx h [tool; "-p0"; "-i"; path]
                                  (Some src_dir) (fs w0)).2
                               (trace w0 ++ patch_events h src_dir path)))
             as (evs & E & Hall).
           exists (patch_events h src_dir path ++ evs).
           rewrite E. cbn [trace]. rewrite <-app_assoc. split; [done|].
           intros e He. apply elem_of_app in He as [He|He].
           ++ by apply Htwo.
           ++ destruct (Hall e He) as (p0 & Hin & Hcase).
              exists p0. split; [by right|done].
        -- exists (patch_events h src_dir path). cbn [final trace].
           split; [done|]. apply Htwo.
      * rewrite (apply_patch_no_tool h _ _ _ Hf Ht).
        exists [applying path]. cbn [final trace]. split; [done|].
        intros e He. destruct (Hone e He) as (p0 & ? & [?|(t & ? & ?)]);
          [|done]. exists p0. split; [done|by left].
    + rewrite (apply_patch_no_file h _ _ _ Hf).
      exists [applying path]. cbn [final trace]. by split.
Qed.

(** a loop over a list that is not empty completes with the tool only *)
Lemma patch_loop_needs_tool (src_dir recipe_dir : string) (p : string)
    (ps : list string) (w0 : world) :
  succeeds (for_each (patch_body h src_dir recipe_dir) (p :: ps) w0) = true →
  is_Some (find_executable h "patch").
Proof.
  cbn [for_each]. unfold bind.
  change (patch_body h src_dir recipe_dir p w0)
    with (apply_patch h src_dir (PyStr.join recipe_dir p) w0).
  destruct (FS.isfile (PyStr.join recipe_dir p) (fs w0)) eqn:Hf.
  - destruct (find_executable h "patch") as [tool|] eqn:Ht; [by eexists|].
    by rewrite (apply_patch_no_tool h _ _ _ Hf Ht).
  - by rewrite (apply_patch_no_file h _ _ _ Hf).
Qed.

(** with the tool, the calls for a list are those two per entry *)
Lemma patch_calls_tool (src_dir recipe_dir tool : string)
    (ps : list string) :
  find_executable h "patch" = Some tool →
  flat_map (λ p, patch_events h src_dir (PyStr.join recipe_dir p)) ps
  = flat_map (λ p, [applying (PyStr.join recipe_dir p);
                    EvCheckCall [tool; "-p0"; "-i"; PyStr.join recipe_dir p]
                                (Some src_dir)]) ps.
Proof.
  intros Ht. apply flat_map_ext. intros p. unfold patch_events.
  by rewrite Ht.
Qed.

End PatchCalls.

(** C8 (amended): every patch is applied by running the patch tool with
    [-p0 -i path] in the directory [get_dir] returns, which is the only
    entry of the work directory whose name does not start with a dot when
    there is exactly one such entry and it is a directory, and the work
    directory itself otherwise.  The calls of the patch loop are the
    announcements of the patches and such runs of the tool, for entries of
    the list, and nothing else; when the loop completes they are, for
    every entry in the order of the list, its announcement and then its
    run; and an entry whose turn comes, whose path is a file and for which
    the tool is found is announced and then handed to the tool in that
    directory, the loop going on exactly when the tool succeeds.  The
    loop is what [provide] runs, with the patch flag set, once the source
    is acquired. *)
Theorem patch_tool_runs_in_get_dir (h : host) (recipe_dir : string)
    (meta : descriptor) (ps : list string) (w : world) (src_dir : string)
    (w0 : world) :
  meta !! "patches" = Some (VList ps) →
  get_dir h w = Ret src_dir w0 →
  src_dir = src_dir_of h (fs w0)
  ∧ (∃ evs : list event,
      trace (final (apply_patches h recipe_dir meta w)) = trace w ++ evs
      ∧ (∀ e, e ∈ evs →
          ∃ p, p ∈ ps
               ∧ (e = applying (PyStr.join recipe_dir p)
                  ∨ ∃ tool, find_executable h "patch" = Some tool
                            ∧ e = EvCheckCall
                                    [tool; "-p0"; "-i";
                                     PyStr.join recipe_dir p]
                                    (Some src_dir)))
      ∧ (succeeds (apply_patches h recipe_dir meta w) = true →
         ps ≠ [] →
         ∃ tool, find_executable h "patch" = Some tool
                 ∧ evs = flat_map
                           (λ p, [applying (PyStr.join recipe_dir p);
                                  EvCheckCall
                                    [tool; "-p0"; "-i";
                                     PyStr.join recipe_dir p]
                                    (Some src_dir)]) ps))
  ∧ (∀ done p rest w1 tool,
       ps = done ++ p :: rest →
       for_each (patch_body h src_dir recipe_dir) done w0 = Ret tt w1 →
       FS.isfile (PyStr.join recipe_dir p) (fs w1) = true →
       find_executable h "patch" = Some tool →
       let argv := [tool; "-p0"; "-i"; PyStr.join recipe_dir p] in
       let r := process_fx h argv (Some src_dir) (fs w1) in
       let w2 := World r.2 (trace w1 ++ [applying (PyStr.join recipe_dir p);
                                         EvCheckCall argv (Some src_dir)]) in
       for_each (patch_body h src_dir recipe_dir) (done ++ [p]) w0
       = if r.1 then Ret tt w2 else Raise (CalledProcessError argv) w2)
  ∧ (∀ w_s, (rm_rf (WORK_DIR h) >> acquire h meta) w_s = Ret tt w →
       provide h recipe_dir meta true w_s
       = (apply_patches h recipe_dir meta >> ret VNone) w).
Proof.
  intros Hm Hg. split; [by apply (get_dir_value h w)|].
  split; [|split; [|intros w_s; apply provide_patch_stage]].
  - rewrite (apply_patches_loop h _ _ _ _ _ _ Hm Hg).
    rewrite <-(get_dir_trace h _ _ _ Hg).
    destruct (patch_loop_members h src_dir recipe_dir ps w0)
      as (evs & E & Hall).
    exists evs. split; [done|]. split; [done|]. intros Hs Hne.
    destruct (patch_loop_trace h src_dir recipe_dir ps w0)
      as (evs' & E' & _ & Hsucc).
    rewrite E in E'. apply app_inv_head in E'. subst evs'.
    destruct ps as [|p ps]; [done|].
    destruct (patch_loop_needs_tool h src_dir recipe_dir p ps w0 Hs)
      as [tool Ht].
    exists tool. split; [done|].
    rewrite (Hsucc Hs). by apply patch_calls_tool.
  - intros done p rest w1 tool -> Hdone Hf Ht. cbv zeta.
    rewrite for_each_app, Hdone. cbn [for_each]. unfold bind.
    change (patch_body h src_dir recipe_dir p w1)
      with (apply_patch h src_dir (PyStr.join recipe_dir p) w1).
    rewrite (apply_patch_run h _ _ _ tool Hf Ht). cbv zeta.
    unfold patch_events. rewrite Ht.
    by destruct (process_fx h _ _ _).1.
Qed.

Lemma patch_tool_runs_in_get_dir_witness :
  trace (final (apply_patches Demo.linux "/recipe" Stale.meta
                  Unpacked.world0))
  = [applying "/recipe/fix1.patch";
     EvCheckCall ["/usr/bin/patch"; "-p0"; "-i"; "/recipe/fix1.patch"]
                 (Some Unpacked.src_dir)].
Proof.
  destruct (patch_tool_runs_in_get_dir Demo.linux "/recipe" Stale.meta
              ["fix1.patch"] Unpacked.world0 Unpacked.src_dir
              Unpacked.world0)
    as (_ & (evs & E & _ & Hs) & _).
  - reflexivity.
  - vm_compute. reflexivity.
  - destruct Hs as (tool & Ht & ->); [by vm_compute|done|].
    injection Ht as <-. exact E.
Defined.

(** C9, as the spec has it, fails: on a host without the patch tool and
    with a patch list of one entry that is not a file, the error reported
    is the "no such patch" one, not the one about the missing tool. *)
Lemma missing_tool_config_error_cex :
  find_executable Demo.linux_no_patch "patch" = None
  ∧ provide Demo.linux_no_patch "/recipe" NoTool.meta_missing true
      Demo.stale_world
    = Raise (SystemExit "Error: no such patch: /recipe/fix2.patch")
            (World (<["/opt/conda-bld/work" := Dir]>
                      (<["/recipe/fix1.patch" := File "--- a"]> ∅))
                   [EvRmRf "/opt/conda-bld/work";
                    applying "/recipe/fix2.patch"])
  ∧ SystemExit "Error: no such patch: /recipe/fix2.patch"
    ≠ SystemExit (patch_missing_msg Demo.linux_no_patch).
Proof.
  split; [reflexivity|]. split; [by vm_compute|].
  intros H. vm_compute in H. discriminate H.
Qed.

(** C9 (amended): on a host without the patch tool and with a non-empty
    patch list, the patch loop stops at the first entry with a fatal
    error, before the tool is run for any patch and with the files
    untouched: the error is the one about the missing tool when the first
    entry's path is a file, and the "no such patch" error when it is
    not.  That is how [provide], with the patch flag set, ends once the
    source is acquired. *)
Theorem missing_patch_tool_is_fatal (h : host) (recipe_dir : string)
    (meta : descriptor) (p : string) (ps : list string) (w : world)
    (src_dir : string) (w0 : world) :
  find_executable h "patch" = None →
  meta !! "patches" = Some (VList (p :: ps)) →
  get_dir h w = Ret src_dir w0 →
  apply_patches h recipe_dir meta w
  = Raise (SystemExit
             (if FS.isfile (PyStr.join recipe_dir p) (fs w0)
              then patch_missing_msg h
              else no_such_patch_msg (PyStr.join recipe_dir p)))
          (World (fs w0) (trace w ++ [applying (PyStr.join recipe_dir p)]))
  ∧ (∀ w_s, (rm_rf (WORK_DIR h) >> acquire h meta) w_s = Ret tt w →
       provide h recipe_dir meta true w_s
       = Raise (SystemExit
                  (if FS.isfile (PyStr.join recipe_dir p) (fs w0)
                   then patch_missing_msg h
                   else no_such_patch_msg (PyStr.join recipe_dir p)))
               (World (fs w0)
                      (trace w ++ [applying (PyStr.join recipe_dir p)]))).
Proof.
  intros Ht Hm Hg.
  assert (apply_patches h recipe_dir meta w
          = Raise (SystemExit
                     (if FS.isfile (PyStr.join recipe_dir p) (fs w0)
                      then patch_missing_msg h
                      else no_such_patch_msg (PyStr.join recipe_dir p)))
                  (World (fs w0)
                         (trace w ++ [applying (PyStr.join recipe_dir p)])))
    as Hloop.
  { rewrite (apply_patches_loop h _ _ _ _ _ _ Hm Hg).
    rewrite <-(get_dir_trace h _ _ _ Hg).
    cbn [for_each]. unfold bind.
    change (patch_body h src_dir recipe_dir p w0)
      with (apply_patch h src_dir (PyStr.join recipe_dir p) w0).
    destruct (FS.isfile _ (fs w0)) eqn:Hf.
    - by rewrite (apply_patch_no_tool h _ _ _ Hf Ht).
    - by rewrite (apply_patch_no_file h _ _ _ Hf). }
  split; [done|]. intros w_s Hs.
  rewrite (provide_patch_stage h _ _ _ _ Hs).
  by rewrite (bind_Raise _ _ _ _ _ Hloop).
Qed.

Lemma missing_patch_tool_is_fatal_witness :
  apply_patches Demo.linux_no_patch "/recipe" NoTool.meta_present
    Unpacked.world0
  = Raise (SystemExit (patch_missing_msg Demo.linux_no_patch))
          (World (fs Unpacked.world0) [applying "/recipe/fix1.patch"]).
Proof.
  refine (proj1 (missing_patch_tool_is_fatal Demo.linux_no_patch "/recipe"
            NoTool.meta_present "fix1.patch" ["fix2.patch"] Unpacked.world0
            Unpacked.src_dir Unpacked.world0 _ _ _)).
  - reflexivity.
  - reflexivity.
  - vm_compute. reflexivity.
Defined.

(** ** Facts about paths *)

Section Paths.

Lemma length_append (a b : string) :
  String.length (a +:+ b) = String.length a + String.length b.
Proof.
  induction a as [|c a IH]; [done|].
  rewrite append_cons. cbn. by rewrite IH.
Qed.

Lemma append_assoc (a b c : string) : (a +:+ b) +:+ c = a +:+ b +:+ c.
Proof.
  induction a as [|x a IH]; [done|].
  rewrite !append_cons. by rewrite IH.
Qed.

Lemma drop_append_ge (a b : string) (n : nat) :
  PyStr.drop (String.length a + n) (a +:+ b) = PyStr.drop n b.
Proof. induction a as [|c a IH]; [done|]. by rewrite append_cons. Qed.

Lemma drop_append_le (a b : string) (n : nat) :
  (n ≤ String.length a)%nat →
  PyStr.drop n (a +:+ b) = PyStr.drop n a +:+ b.
Proof.
  revert n. induction a as [|c a IH]; intros n Hn.
  - cbn in Hn. by replace n with 0 by lia.
  - destruct n as [|n]; [done|]. rewrite append_cons. cbn.
    apply IH. cbn in Hn. lia.
Qed.

Lemma prefix_append (a b : string) : String.prefix a (a +:+ b) = true.
Proof.
  induction a as [|c a IH]; [by destruct b|].
  rewrite append_cons. cbn. by destruct (ascii_dec c c).
Qed.

Lemma smap_append f (a b : string) :
  PyStr.smap f (a +:+ b) = PyStr.smap f a +:+ PyStr.smap f b.
Proof.
  induction a as [|c a IH]; [done|].
  rewrite append_cons. cbn. by rewrite IH.
Qed.

(** a suffix no longer than the last part is a suffix of that part *)
Lemma endswith_append_short (a b p : string) :
  (String.length p ≤ String.length b)%nat →
  PyStr.endswith (a +:+ b) p = PyStr.endswith b p.
Proof.
  intros Hp. unfold PyStr.endswith. rewrite length_append.
  replace (String.length a + String.length b - String.length p)
    with (String.length a + (String.length b - String.length p)) by lia.
  rewrite drop_append_ge.
  destruct (Nat.leb_spec (String.length p) (String.length b)); [|lia].
  by destruct (Nat.leb_spec (String.length p)
                 (String.length a + String.length b)); [|lia].
Qed.

Lemma has_char_append c (a b : string) :
  has_char c (a +:+ b) = has_char c a || has_char c b.
Proof.
  induction a as [|x a IH]; [done|].
  rewrite append_cons. cbn. by rewrite IH, orb_assoc.
Qed.

(** a suffix longer than the name would hold the separator before it *)
Lemma endswith_append_long (x b p : string) :
  has_char "/" p = false →
  (String.length b < String.length p)%nat →
  PyStr.endswith ((x +:+ "/") +:+ b) p = false.
Proof.
  intros Hp Hlen. unfold PyStr.endswith.
  destruct (Nat.leb_spec (String.length p)
              (String.length ((x +:+ "/") +:+ b))) as [Hle|]; [|done].
  cbn [andb]. apply String.eqb_neq. intros E.
  rewrite !length_append in Hle. cbn in Hle.
  rewrite drop_append_le in E
    by (rewrite !length_append; cbn; lia).
  rewrite drop_append_le in E
    by (rewrite !length_append; cbn; lia).
  rewrite <-E, !has_char_append in Hp. cbn in Hp.
  by rewrite orb_true_r in Hp.
Qed.

Lemma endswith_in_dir (x b p : string) :
  has_char "/" p = false →
  PyStr.endswith ((x +:+ "/") +:+ b) p = PyStr.endswith b p.
Proof.
  intros Hp.
  destruct (le_lt_dec (String.length p) (String.length b)) as [Hle|Hlt].
  - by apply endswith_append_short.
  - rewrite (endswith_append_long _ _ _ Hp Hlt). unfold PyStr.endswith.
    by destruct (Nat.leb_spec (String.length p) (String.length b)); [lia|].
Qed.

(** [join] of a directory and a relative name *)
Lemma join_child (a b : string) :
  a ≠ "" → PyStr.endswith a "/" = false → PyStr.startswith b "/" = false →
  PyStr.join a b = a +:+ "/" +:+ b.
Proof.
  intros Ha He Hb. unfold PyStr.join. rewrite Hb, He.
  apply String.eqb_neq in Ha. by rewrite Ha.
Qed.

Lemma join_absolute (a b : string) :
  PyStr.startswith b "/" = true → PyStr.join a b = b.
Proof. intros Hb. unfold PyStr.join. by rewrite Hb. Qed.

(** the directories of the module: the build root, then their name *)
Lemma join_shape (c name : string) :
  PyStr.startswith name "/" = false →
  ∃ x, PyStr.join c name = x +:+ name.
Proof.
  intros Hn. unfold PyStr.join. rewrite Hn.
  destruct (_ || _); [by exists c|].
  exists (c +:+ "/"). by rewrite append_assoc.
Qed.

Lemma under_child (d b : string) : FS.under d (d +:+ "/" +:+ b) = true.
Proof.
  unfold FS.under. rewrite <-append_assoc, prefix_append.
  apply orb_true_r.
Qed.

Lemma child_neq (d b : string) : d +:+ "/" +:+ b ≠ d.
Proof.
  intros E. apply (f_equal String.length) in E.
  rewrite !length_append in E. cbn in E. lia.
Qed.

(** the parts of a split do not start with the separator *)
Lemma split_parts c s x :
  x ∈ PyStr.split c s → PyStr.startswith x (String c "") = false.
Proof.
  revert x. induction s as [|a s IH]; intros x Hx.
  - apply list_elem_of_singleton in Hx as ->. done.
  - cbn in Hx. destruct (Ascii.eqb_spec a c) as [->|Hne].
    + apply elem_of_cons in Hx as [->|Hx]; [done|by apply IH].
    + destruct (PyStr.split c s) as [|hd tl] eqn:Es.
      * apply list_elem_of_singleton in Hx as ->.
        cbn. by destruct (ascii_dec c a) as [->|].
      * apply elem_of_cons in Hx as [->|Hx].
        -- cbn. by destruct (ascii_dec c a) as [->|].
        -- apply IH. by right.
Qed.

Lemma split_nonempty c s : PyStr.split c s ≠ [].
Proof.
  destruct s as [|a s]; [done|]. cbn.
  destruct (Ascii.eqb a c); [done|]. by destruct (PyStr.split c s).
Qed.

Lemma last_item_elem (l : list string) :
  l ≠ [] → PyStr.last_item l ∈ l.
Proof.
  unfold PyStr.last_item. induction l as [|x l IH]; [done|]. intros _.
  destruct l as [|y l]; [left|]. right. by apply IH.
Qed.

Lemma basename_relative p :
  PyStr.startswith (PyStr.basename p) "/" = false.
Proof.
  apply (split_parts "/" p), last_item_elem, split_nonempty.
Qed.

End Paths.

Section ModuleDirs.

Context (h : host).

(** a directory of the module is not empty and has no trailing slash *)
Lemma module_dir_proper (name : string) :
  PyStr.startswith name "/" = false →
  (1 ≤ String.length name)%nat →
  PyStr.endswith name "/" = false →
  PyStr.join (croot h) name ≠ ""
  ∧ PyStr.endswith (PyStr.join (croot h) name) "/" = false.
Proof.
  intros Hs Hl He. destruct (join_shape (croot h) name Hs) as [x ->].
  split.
  - intros E. apply (f_equal String.length) in E.
    rewrite length_append in E. cbn in E. lia.
  - by rewrite endswith_append_short.
Qed.

Lemma work_dir_child (b : string) :
  PyStr.startswith b "/" = false →
  PyStr.join (WORK_DIR h) b = WORK_DIR h +:+ "/" +:+ b.
Proof.
  intros Hb.
  destruct (module_dir_proper "work") as [Hne He];
    [reflexivity|cbn; lia|reflexivity|].
  by apply join_child.
Qed.

End ModuleDirs.

(** ** Unpacking *)

Section Unpack.

Context (h : host).

Lemma download_to_cache_path meta w src_path w1 :
  download_to_cache h meta w = Ret src_path w1 →
  ∃ fn, meta !! "fn" = Some (VStr fn)
        ∧ src_path = PyStr.join (SRC_CACHE h) fn.
Proof.
  unfold download_to_cache. intros H. inv_bind H.
  apply ret_inv in H as [<- _].
  match goal with
  | Hi : meta_item _ _ _ = Ret _ _, Hs : as_str _ _ = Ret _ _ |- _ =>
      unfold meta_item in Hi;
      destruct (meta !! "fn") as [v|]; [|done];
      apply ret_inv in Hi as [<- _];
      destruct v; try done;
      apply ret_inv in Hs as [<- _]
  end.
  by eexists.
Qed.

(** the suffix test on the cached path is a test on the file name *)
Lemma cache_path_suffix fn suf :
  has_char "/" suf = false →
  PyStr.endswith (PyStr.lower (PyStr.join (SRC_CACHE h) fn)) suf
  = PyStr.endswith (PyStr.lower fn) suf.
Proof.
  intros Hs. destruct (PyStr.startswith fn "/") eqn:Hfn.
  - by rewrite join_absolute.
  - destruct (module_dir_proper h "src_cache") as [Hne He];
      [reflexivity|cbn; lia|reflexivity|].
    unfold SRC_CACHE. rewrite join_child by done.
    unfold PyStr.lower. rewrite !smap_append, <-append_assoc.
    change (PyStr.smap PyStr.lower_ascii "/") with "/".
    by apply endswith_in_dir.
Qed.

Lemma tar_suffixes_spec name :
  PyStr.endswith_any name tar_suffixes = true
  ↔ ∃ suf, suf ∈ spec_tar_suffixes ∧ PyStr.endswith name suf = true.
Proof.
  unfold PyStr.endswith_any. rewrite existsb_exists. split.
  - intros (suf & Hin & Hs). exists suf. split; [|done].
    apply list_elem_of_In in Hin. unfold tar_suffixes in Hin.
    repeat (apply elem_of_cons in Hin as [->|Hin];
            [by apply (bool_decide_unpack _)|]).
    by apply elem_of_nil in Hin.
  - intros (suf & Hin & Hs). exists suf. split; [|done].
    apply list_elem_of_In. unfold spec_tar_suffixes in Hin.
    repeat (apply elem_of_cons in Hin as [->|Hin];
            [by apply (bool_decide_unpack _)|]).
    by apply elem_of_nil in Hin.
Qed.

Lemma makedirs_fresh d w :
  fs w !! d = None →
  makedirs d w = Ret tt (World (<[d := Dir]> (fs w)) (trace w)).
Proof. intros Hn. unfold makedirs. by rewrite Hn. Qed.

(** a file copied into the fresh work directory *)
Lemma copy2_into_work_dir src c w :
  (∀ p, FS.under (WORK_DIR h) p = true → fs w !! p = None) →
  fs w !! src = Some (File c) →
  copy2 src (WORK_DIR h)
    (World (<[WORK_DIR h := Dir]> (fs w)) (trace w ++ [unrecognized_warning]))
  = Ret tt
      (World (<[WORK_DIR h +:+ "/" +:+ PyStr.basename src := File c]>
                (<[WORK_DIR h := Dir]> (fs w)))
             (trace w ++ [unrecognized_warning; EvCopy2 src (WORK_DIR h)])).
Proof.
  intros Hclean Hsrc. unfold copy2. cbn [fs trace].
  rewrite isdir_insert, (work_dir_child h _ (basename_relative src)).
  set (target := WORK_DIR h +:+ "/" +:+ PyStr.basename src).
  assert (fs w !! target = None) as Ht by apply Hclean, under_child.
  assert (src ≠ WORK_DIR h) as Hne1.
  { intros ->. by rewrite (Hclean _ (under_self _)) in Hsrc. }
  assert (src ≠ target) as Hne2 by (intros E; rewrite E in Hsrc; congruence).
  rewrite lookup_insert_ne, Hsrc by done.
  apply String.eqb_neq in Hne2. rewrite Hne2.
  unfold FS.isdir. rewrite lookup_insert_ne by (symmetry; apply child_neq).
  rewrite Ht, bool_decide_eq_false_2 by done.
  by rewrite <-app_assoc.
Qed.

End Unpack.

(** C6: once the archive is in the cache, [unpack] chooses by the end of
    the lower-cased file name alone: [.tar.gz], [.tgz], [.tar.bz2],
    [.tar.xz] or [.tar] hands the cached file and the (fresh) work
    directory to the tar extraction; otherwise [.zip] hands them to the
    zip extraction; and with any other name no error is raised: the
    warning is printed and the cached file is copied, content unchanged
    and under its own name, into the work directory. *)
Theorem unpack_dispatches_on_suffix (h : host) (meta : descriptor)
    (w : world) (fn src_path : string) (w1 : world) :
  meta !! "fn" = Some (VStr fn) →
  download_to_cache h meta w = Ret src_path w1 →
  (∀ p, FS.under (WORK_DIR h) p = true → fs w1 !! p = None) →
  let name := PyStr.lower fn in
  let w2 := World (<[WORK_DIR h := Dir]> (fs w1)) (trace w1) in
  src_path = PyStr.join (SRC_CACHE h) fn
  ∧ ((∃ suf, suf ∈ spec_tar_suffixes ∧ PyStr.endswith name suf = true) →
     unpack h meta w = tar_xf h src_path (WORK_DIR h) w2
     ∧ trace (final (unpack h meta w))
       = trace w1 ++ [EvTarXf src_path (WORK_DIR h)])
  ∧ ((∀ suf, suf ∈ spec_tar_suffixes → PyStr.endswith name suf = false) →
     PyStr.endswith name ".zip" = true →
     unpack h meta w = unzip h src_path (WORK_DIR h) w2
     ∧ trace (final (unpack h meta w))
       = trace w1 ++ [EvUnzip src_path (WORK_DIR h)])
  ∧ ((∀ suf, suf ∈ spec_tar_suffixes → PyStr.endswith name suf = false) →
     PyStr.endswith name ".zip" = false →
     ∀ c, fs w1 !! src_path = Some (File c) →
       unpack h meta w
       = Ret tt
           (World (<[WORK_DIR h +:+ "/" +:+ PyStr.basename src_path
                     := File c]> (fs w2))
                  (trace w1 ++ [unrecognized_warning;
                                EvCopy2 src_path (WORK_DIR h)]))).
Proof.
  intros Hfn Hd Hclean name w2.
  destruct (download_to_cache_path h _ _ _ _ Hd) as (fn' & Hfn' & Hpath).
  assert (fn' = fn) as -> by congruence. split; [done|].
  assert (unpack h meta w
          = (if PyStr.endswith_any (PyStr.lower src_path) tar_suffixes
             then tar_xf h src_path (WORK_DIR h)
             else if PyStr.endswith (PyStr.lower src_path) ".zip"
                  then unzip h src_path (WORK_DIR h)
                  else print "Warning: Unrecognized source format. Source file will be copied to the SRC_DIR" [] >>
                       copy2 src_path (WORK_DIR h)) w2) as ->.
  { unfold unpack. rewrite (bind_Ret _ _ _ _ _ Hd).
    by rewrite (bind_Ret _ _ _ _ _
                  (makedirs_fresh _ _ (Hclean _ (under_self _)))). }
  assert (∀ suf, suf ∈ ".zip" :: spec_tar_suffixes →
            PyStr.endswith (PyStr.lower src_path) suf
            = PyStr.endswith name suf) as Hsuf.
  { intros suf Hin. rewrite Hpath. apply cache_path_suffix.
    unfold spec_tar_suffixes in Hin.
    repeat (apply elem_of_cons in Hin as [->|Hin]; [reflexivity|]).
    by apply elem_of_nil in Hin. }
  assert (PyStr.endswith_any (PyStr.lower src_path) tar_suffixes = false
          ↔ ∀ suf, suf ∈ spec_tar_suffixes →
                   PyStr.endswith name suf = false) as Hnone.
  { rewrite <-not_true_iff_false, tar_suffixes_spec. split.
    - intros Hn suf Hin. apply not_true_iff_false. intros Hs. apply Hn.
      exists suf. split; [done|]. rewrite Hsuf; [done|by right].
    - intros Hall (suf & Hin & Hs). rewrite Hsuf in Hs by (by right).
      rewrite (Hall suf Hin) in Hs. done. }
  split; [|split].
  - intros (suf & Hin & Hs).
    assert (PyStr.endswith_any (PyStr.lower src_path) tar_suffixes = true)
      as ->.
    { apply tar_suffixes_spec. exists suf. split; [done|].
      rewrite Hsuf; [done|by right]. }
    split; [done|]. unfold tar_xf, external.
    by destruct (tar_xf_fx h _ _ _).
  - intros Hall Hzip. rewrite (proj2 Hnone Hall).
    rewrite Hsuf by left. rewrite Hzip. split; [done|].
    unfold unzip, external. by destruct (unzip_fx h _ _ _).
  - intros Hall Hzip c Hsrc. rewrite (proj2 Hnone Hall).
    rewrite Hsuf by left. rewrite Hzip.
    unfold bind, print, log. subst w2. cbn [fs trace].
    by apply copy2_into_work_dir.
Qed.

Lemma unpack_dispatches_on_suffix_witness :
  unpack Demo.linux Plain.meta Demo.empty_world
  = Ret tt
      (World (<["/opt/conda-bld/work/pkg-1.0.TXT" := File ""]>
                (<["/opt/conda-bld/work" := Dir]> (fs Plain.downloaded)))
             (trace Plain.downloaded
                ++ [unrecognized_warning;
                    EvCopy2 Plain.src_path "/opt/conda-bld/work"])).
Proof.
  refine (proj2 (proj2 (proj2 (unpack_dispatches_on_suffix Demo.linux
            Plain.meta Demo.empty_world "pkg-1.0.TXT" Plain.src_path
            Plain.downloaded _ _ _))) _ _ "" _).
  - reflexivity.
  - vm_compute. reflexivity.
  - intros p Hp. unfold Plain.downloaded. cbn [fs].
    rewrite !lookup_insert_ne
      by (intros <-; vm_compute in Hp; discriminate Hp).
    apply lookup_empty.
  - intros suf Hin. unfold spec_tar_suffixes in Hin.
    repeat (apply elem_of_cons in Hin as [->|Hin]; [reflexivity|]).
    by apply elem_of_nil in Hin.
  - reflexivity.
  - reflexivity.
Defined.

(** ** Mirrors *)

Section MirrorFacts.





Lemma ensure_dir_bind {A} (d : string) (k : Py A) (w : world) :
  FS.isdir d (fs w) = true ∨ fs w !! d = None →
  (let! present := isdir d in
   (if present then ret tt else makedirs d) >> k) w
  = k (ensure_dir d w).
Proof.
  intros Hd. unfold bind at 1. unfold isdir, ensure_dir.
  destruct (FS.isdir d (fs w)) eqn:E; [done|].
  destruct Hd as [Hd|Hd]; [done|].
  unfold bind, makedirs. by rewrite Hd.
Qed.



Lemma bind_ret_l {A B} (a : A) (k : A → Py B) w : bind (ret a) k w = k a w.
Proof. done. Qed.




End MirrorFacts.

Section Mirrors.

Context (h : host).


















End Mirrors.



(** * Further properties of the module *)

(** ** The source directory *)

Section GetDir.

Context (h : host).

Lemma entry_name_relative d p x :
  FS.entry_name d p = Some x → PyStr.startswith x "/" = false.
Proof.
  unfold FS.entry_name. destruct (String.prefix _ _); [|done].
  destruct (PyStr.split "/" _) as [|y [|z l]] eqn:Es; [done| |done].
  destruct (String.eqb y ""); [done|]. intros [= <-].
  apply (split_parts "/" (PyStr.drop (String.length d + 1) p)).
  rewrite Es. left.
Qed.

Lemma entries_relative d m x :
  x ∈ FS.entries d m → PyStr.startswith x "/" = false.
Proof.
  unfold FS.entries. intros Hx. apply list_elem_of_omap in Hx as (kv & _ & Hx).
  by apply entry_name_relative in Hx.
Qed.

Lemma src_dir_of_isdir m :
  FS.isdir (WORK_DIR h) m = true → FS.isdir (src_dir_of h m) m = true.
Proof.
  intros Hd. unfold src_dir_of.
  destruct (List.filter _ _) as [|x [|y l]]; [done| |done].
  by destruct (FS.isdir (PyStr.join _ _) m) eqn:Hx.
Qed.

Lemma src_dir_of_under m : FS.under (WORK_DIR h) (src_dir_of h m) = true.
Proof.
  unfold src_dir_of.
  destruct (List.filter _ _) as [|x [|y l]] eqn:El;
    [apply under_self| |apply under_self].
  destruct (FS.isdir (PyStr.join _ _) m); [|apply under_self].
  assert (x ∈ FS.entries (WORK_DIR h) m) as Hx.
  { apply list_elem_of_In.
    apply (proj1 (filter_In (λ fn, negb (PyStr.startswith fn "."))
                    x (FS.entries (WORK_DIR h) m))).
    rewrite El. by left. }
  rewrite (work_dir_child h _ (entries_relative _ _ _ Hx)).
  apply under_child.
Qed.

Lemma get_dir_result w d w0 :
  get_dir h w = Ret d w0 →
  FS.isdir (WORK_DIR h) (fs w0) = true ∧ d = src_dir_of h (fs w0).
Proof.
  rewrite get_dir_eq. destruct (FS.isdir _ (fs w)) eqn:Hd.
  - by intros [= <- <-].
  - destruct (fs w !! WORK_DIR h); [done|]. intros [= <- <-]. cbn [fs].
    split; [apply isdir_insert|done].
Qed.

End GetDir.

(** X1: what [get_dir] returns is an existing directory, the work
    directory or a path below it, and asking again gives the same answer
    and changes nothing. *)
Theorem get_dir_settles (h : host) (w : world) (d : string) (w0 : world) :
  get_dir h w = Ret d w0 →
  FS.isdir d (fs w0) = true
  ∧ FS.under (WORK_DIR h) d = true
  ∧ get_dir h w0 = Ret d w0.
Proof.
  intros Hg. destruct (get_dir_result h _ _ _ Hg) as [Hd ->].
  split; [by apply src_dir_of_isdir|]. split; [apply src_dir_of_under|].
  by rewrite get_dir_eq, Hd.
Qed.

Lemma get_dir_settles_witness :
  FS.isdir Unpacked.src_dir (fs Unpacked.world0) = true
  ∧ FS.under (WORK_DIR Demo.linux) Unpacked.src_dir = true
  ∧ get_dir Demo.linux Unpacked.world0 = Ret Unpacked.src_dir Unpacked.world0.
Proof.
  apply (get_dir_settles Demo.linux Unpacked.world0).
  vm_compute. reflexivity.
Defined.



(** ** The archive cache *)

Section Cache.

Context (h : host).

Lemma download_to_cache_lookup meta fn w :
  meta !! "fn" = Some (VStr fn) →
  FS.isdir (SRC_CACHE h) (fs w) = true ∨ fs w !! SRC_CACHE h = None →
  download_to_cache h meta w
  = (let path := PyStr.join (SRC_CACHE h) fn in
     (if FS.isfile path (fs (cache_ready h w))
      then print "Found source in cache: %s" [VStr fn]
      else print "Downloading source to cache: %s" [VStr fn] >>
           let! url := meta_item meta "url" in
           download h url path) >>
     verify_digests h meta path >>
     ret path) (cache_ready h w).
Proof.
  intros Hfn Hc. unfold download_to_cache.
  unfold bind at 1. unfold print at 1, log. cbv beta iota.
  rewrite ensure_dir_bind by done.
  unfold meta_item at 1. rewrite Hfn, bind_ret_l. cbn [as_str].
  rewrite bind_ret_l. unfold bind at 1. unfold isfile at 1.
  unfold cache_ready, ensure_dir, cache_dir_msg. cbn [fs trace].
  by destruct (FS.isdir (SRC_CACHE h) (fs w)).
Qed.

(** the checks read the file and leave the world's files alone *)
Lemma verify_digests_emits meta path :
  emits (λ e, ∃ tp, e = EvHashsum path tp) (verify_digests h meta path).
Proof.
  unfold verify_digests, check_digest. emits_calls; by eexists.
Qed.

Lemma verify_digests_fs meta path w :
  fs (final (verify_digests h meta path w)) = fs w.
Proof.
  unfold verify_digests. generalize digest_kinds as kinds.
  intros kinds. revert w. induction kinds as [|tp kinds IH]; intros w; [done|].
  cbn [for_each]. unfold bind.
  destruct (truthy (meta_get meta tp)) eqn:Ht.
  - destruct (fs w !! path) as [[|c]|] eqn:Hf.
    + unfold check_digest, bind, hashsum_file. by rewrite Ht, Hf.
    + rewrite (check_digest_file h _ _ _ _ c Hf Ht).
      destruct (py_ne _ _); [done|]. by rewrite IH.
    + unfold check_digest, bind, hashsum_file. by rewrite Ht, Hf.
  - rewrite (check_digest_skip h _ _ _ _ Ht). apply IH.
Qed.

Lemma isfile_cache_ready p w :
  FS.isdir (SRC_CACHE h) (fs w) = true ∨ fs w !! SRC_CACHE h = None →
  FS.isfile p (fs (cache_ready h w)) = FS.isfile p (fs w).
Proof.
  intros Hc. unfold cache_ready, ensure_dir. cbn [fs].
  destruct (FS.isdir (SRC_CACHE h) (fs w)) eqn:Hd; [done|].
  destruct Hc as [Hc|Hc]; [done|].
  cbn [fs]. unfold FS.isfile.
  destruct (decide (p = SRC_CACHE h)) as [->|Hne].
  - by rewrite lookup_insert_eq, Hc.
  - by rewrite lookup_insert_ne.
Qed.

End Cache.

Lemma bind_assoc {A B C} (c : Py A) (k : A → Py B) (k' : B → Py C) w :
  bind (bind c k) k' w = bind c (λ a, bind (k a) k') w.
Proof. unfold bind. by destruct (c w). Qed.

Lemma bind_log {A} (e : event) (k : unit → Py A) w :
  bind (log e) k w = k tt (World (fs w) (trace w ++ [e])).
Proof. done. Qed.

Lemma final_bind_ret {A B} (c : Py A) (b : B) w :
  final ((c >> ret b) w) = final (c w).
Proof. unfold bind. by destruct (c w). Qed.

Section Cached.

Context (h : host).

(** the outcome for an archive that is in the cache *)
Lemma download_found meta fn w :
  meta !! "fn" = Some (VStr fn) →
  FS.isdir (SRC_CACHE h) (fs w) = true ∨ fs w !! SRC_CACHE h = None →
  FS.isfile (PyStr.join (SRC_CACHE h) fn) (fs w) = true →
  download_to_cache h meta w
  = (verify_digests h meta (PyStr.join (SRC_CACHE h) fn) >>
     ret (PyStr.join (SRC_CACHE h) fn))
      (World (fs (ensure_dir (SRC_CACHE h) w))
             (trace w ++ [cache_dir_msg h; found_msg fn])).
Proof.
  intros Hfn Hc Hf.
  rewrite (download_to_cache_lookup h _ _ _ Hfn Hc).
  cbv zeta. rewrite (isfile_cache_ready h _ _ Hc), Hf.
  unfold print. rewrite bind_log.
  unfold cache_ready, found_msg. cbn [fs trace].
  by rewrite <-app_assoc.
Qed.

(** the checks do not look at the descriptor's [url] *)
Lemma verify_digests_url meta path (u : pyval) :
  verify_digests h (<["url" := u]> meta) path = verify_digests h meta path.
Proof.
  unfold verify_digests, digest_kinds. cbn [for_each].
  unfold check_digest, meta_get, meta_item.
  by rewrite !lookup_insert_ne by done.
Qed.

Lemma verify_digests_no_url meta path :
  verify_digests h (delete "url" meta) path = verify_digests h meta path.
Proof.
  unfold verify_digests, digest_kinds. cbn [for_each].
  unfold check_digest, meta_get, meta_item.
  by rewrite !lookup_delete_ne by done.
Qed.

End Cached.

(** X3: an archive that is in the cache is not fetched again, and the
    descriptor's [url] is not looked at: the call does the same whatever
    [url] is, and without one.  It returns the cache path or ends with the
    mismatch error of a digest; its only calls are the two announcements
    and the digests of the cached file, and no file changes (the cache
    directory is created when it is missing). *)
Theorem cached_archive_is_not_fetched (h : host) (meta : descriptor)
    (fn : string) (w : world) :
  meta !! "fn" = Some (VStr fn) →
  FS.isdir (SRC_CACHE h) (fs w) = true ∨ fs w !! SRC_CACHE h = None →
  FS.isfile (PyStr.join (SRC_CACHE h) fn) (fs w) = true →
  (∃ evs : list event,
    trace (final (download_to_cache h meta w))
    = trace w ++ [cache_dir_msg h; found_msg fn] ++ evs
    ∧ Forall (λ e, ∃ tp, e = EvHashsum (PyStr.join (SRC_CACHE h) fn) tp) evs
    ∧ fs (final (download_to_cache h meta w))
      = fs (ensure_dir (SRC_CACHE h) w))
  ∧ (∀ u, download_to_cache h (<["url" := u]> meta) w
          = download_to_cache h meta w)
  ∧ download_to_cache h (delete "url" meta) w = download_to_cache h meta w
  ∧ match download_to_cache h meta w with
    | Ret path _ => path = PyStr.join (SRC_CACHE h) fn
    | Raise e _ => ∃ name computed expected,
                     e = RuntimeError name computed expected
    end.
Proof.
  intros Hfn Hc Hf.
  set (path := PyStr.join (SRC_CACHE h) fn) in *.
  set (w2 := World (fs (ensure_dir (SRC_CACHE h) w))
                   (trace w ++ [cache_dir_msg h; found_msg fn])).
  assert (∃ c, fs w2 !! path = Some (File c)) as [c Hfile].
  { subst w2. cbn [fs]. pose proof (isfile_cache_ready h path w Hc) as E.
    unfold cache_ready in E. cbn [fs] in E. rewrite Hf in E.
    unfold FS.isfile in E.
    destruct (fs (ensure_dir (SRC_CACHE h) w) !! path) as [[|c]|];
      [done|by exists c|done]. }
  assert (match download_to_cache h meta w with
          | Ret p _ => p = path
          | Raise e _ => ∃ name computed expected,
                           e = RuntimeError name computed expected
          end) as Hout.
  { rewrite (download_found h _ _ _ Hfn Hc Hf). fold path w2. unfold bind.
    destruct (verify_digests h meta path w2) as [[] w'|e w'] eqn:Ev; [done|].
    destruct (for_each_check_digest_error h meta path c digest_kinds w2 e w'
                Hfile Ev) as (tp & _ & _ & ->).
    by eexists _, _, _. }
  split; [|split; [|split; [|done]]].
  - rewrite (download_found h _ _ _ Hfn Hc Hf). fold path w2.
    rewrite final_bind_ret.
    destruct (verify_digests_emits h meta path w2) as (evs & E & HP).
    exists evs. rewrite E, verify_digests_fs. subst w2. cbn [fs trace].
    by rewrite <-app_assoc.
  - intros u.
    rewrite (download_found h (<["url" := u]> meta) fn w) by
      (try done; by rewrite lookup_insert_ne).
    rewrite (download_found h _ _ _ Hfn Hc Hf).
    by rewrite verify_digests_url.
  - rewrite (download_found h (delete "url" meta) fn w) by
      (try done; by rewrite lookup_delete_ne).
    rewrite (download_found h _ _ _ Hfn Hc Hf).
    by rewrite verify_digests_no_url.
Qed.

Lemma cached_archive_is_not_fetched_witness :
  download_to_cache Demo.linux
    (<["url" := VStr "http://x/pkg-1.0.tar.gz"]> Examples.meta_upper_md5)
    Examples.cached_world
  = download_to_cache Demo.linux Examples.meta_upper_md5
      Examples.cached_world.
Proof.
  refine (proj1 (proj2 (cached_archive_is_not_fetched Demo.linux
                          Examples.meta_upper_md5 "pkg-1.0.tar.gz"
                          Examples.cached_world _ _ _)) _).
  - reflexivity.
  - left. reflexivity.
  - reflexivity.
Defined.

(** X4: an archive that is not in the cache is fetched from the
    descriptor's [url] to its cache path, right after the two
    announcements and before any digest is computed; without a [url] the
    call ends with [KeyError] and nothing is fetched; and when the fetch
    fails its error ends the call before any verification. *)
Theorem uncached_archive_is_fetched (h : host) (meta : descriptor)
    (fn : string) (w : world) :
  meta !! "fn" = Some (VStr fn) →
  FS.isdir (SRC_CACHE h) (fs w) = true ∨ fs w !! SRC_CACHE h = None →
  FS.isfile (PyStr.join (SRC_CACHE h) fn) (fs w) = false →
  (meta !! "url" = None →
   download_to_cache h meta w
   = Raise (KeyError "url")
           (World (fs (ensure_dir (SRC_CACHE h) w))
                  (trace w ++ [cache_dir_msg h; downloading_msg fn])))
  ∧ (∀ u, meta !! "url" = Some u →
       ∃ evs : list event,
         trace (final (download_to_cache h meta w))
         = trace w ++ [cache_dir_msg h; downloading_msg fn;
                       EvDownload u (PyStr.join (SRC_CACHE h) fn)] ++ evs
         ∧ Forall (λ e, ∃ tp,
                     e = EvHashsum (PyStr.join (SRC_CACHE h) fn) tp) evs)
  ∧ (∀ u, meta !! "url" = Some u →
       download_fx h u (PyStr.join (SRC_CACHE h) fn)
         (fs (ensure_dir (SRC_CACHE h) w)) = None →
       download_to_cache h meta w
       = Raise (ExternalError "download")
               (World (fs (ensure_dir (SRC_CACHE h) w))
                      (trace w ++ [cache_dir_msg h; downloading_msg fn;
                                   EvDownload u
                                     (PyStr.join (SRC_CACHE h) fn)]))).
Proof.
  intros Hfn Hc Hf.
  set (path := PyStr.join (SRC_CACHE h) fn).
  assert (download_to_cache h meta w
          = (let! url := meta_item meta "url" in
             download h url path >> verify_digests h meta path >> ret path)
              (World (fs (ensure_dir (SRC_CACHE h) w))
                     (trace w ++ [cache_dir_msg h; downloading_msg fn])))
    as ->.
  { rewrite (download_to_cache_lookup h _ _ _ Hfn Hc).
    cbv zeta. rewrite (isfile_cache_ready h _ _ Hc), Hf.
    unfold print. rewrite bind_assoc, bind_log, bind_assoc.
    unfold cache_ready, downloading_msg. cbn [fs trace].
    by rewrite <-app_assoc. }
  unfold meta_item. split; [|split].
  - intros Hu. by rewrite Hu.
  - intros u Hu. rewrite Hu, bind_ret_l.
    unfold bind at 1. unfold download, external. cbn [fs trace].
    destruct (download_fx h u path _) as [m|].
    + rewrite final_bind_ret. set (w2 := World _ _).
      destruct (verify_digests_emits h meta path w2) as (evs & E & HP).
      exists evs. rewrite E. subst w2. cbn [trace].
      by rewrite <-!app_assoc.
    + exists []. cbn. by rewrite <-!app_assoc.
  - intros u Hu Hfail. rewrite Hu, bind_ret_l.
    unfold bind at 1. unfold download, external. cbn [fs trace].
    rewrite Hfail. by rewrite <-!app_assoc.
Qed.

Lemma uncached_archive_is_fetched_witness :
  download_to_cache Demo.linux Examples.meta_empty_md5 Demo.empty_world
  = Raise (KeyError "url")
          (World (fs (ensure_dir (SRC_CACHE Demo.linux) Demo.empty_world))
                 [cache_dir_msg Demo.linux;
                  downloading_msg "pkg-1.0.tar.gz"]).
Proof.
  apply (proj1 (uncached_archive_is_fetched Demo.linux
                  Examples.meta_empty_md5 "pkg-1.0.tar.gz" Demo.empty_world
                  eq_refl (or_intror eq_refl) eq_refl)).
  reflexivity.
Defined.

(** ** The directories of the module *)

Section Dirs.




Lemma prefix_inv (a p : string) :
  String.prefix a p = true → ∃ r, p = a +:+ r.
Proof.
  revert p. induction a as [|c a IH]; intros p; [by exists p|].
  destruct p as [|d p]; [done|].
  change (String.prefix (String c a) (String d p))
    with (if ascii_dec c d then String.prefix a p else false).
  destruct (ascii_dec c d) as [->|]; [|done]. intros Hp.
  destruct (IH p Hp) as [r ->]. by exists r.
Qed.



End Dirs.

Section CachesApart.

Context (h : host).



End CachesApart.

Section CachedPaths.

Context (h : host).



End CachedPaths.



(** ** Failed verification *)


Section FirstMismatch.

Context (h : host).

Lemma check_digests_first_mismatch meta path c pre tp post w :
  fs w !! path = Some (File c) →
  (∀ t, t ∈ pre → passes h meta c t) →
  mismatch h meta c tp →
  for_each (check_digest h meta path) (pre ++ tp :: post) w
  = Raise (RuntimeError (PyStr.upper tp) (hashsum h tp c) (meta_get meta tp))
          (World (fs w)
                 (trace w
                    ++ map (EvHashsum path)
                         (List.filter (λ t, truthy (meta_get meta t)) pre)
                    ++ [EvHashsum path tp; EvHashsum path tp])).
Proof.
  intros Hf Hpre [Ht Hm]. revert w Hf Hpre.
  induction pre as [|t pre IH]; intros w Hf Hpre.
  - cbn [app for_each List.filter map]. unfold bind.
    rewrite (check_digest_file h _ _ _ _ c Hf Ht).
    assert (py_ne (VStr (hashsum h tp c)) (meta_get meta tp) = true) as ->
      by (apply py_ne_true; congruence).
    by rewrite <-app_assoc.
  - cbn [app for_each List.filter]. unfold bind.
    assert (∀ t', t' ∈ pre → passes h meta c t') as Hpre'
      by (intros t' Hin; apply Hpre; by right).
    destruct (truthy (meta_get meta t)) eqn:Htt.
    + rewrite (check_digest_file h _ _ _ _ c Hf Htt).
      assert (py_ne (VStr (hashsum h t c)) (meta_get meta t) = false) as ->.
      { apply not_true_iff_false. rewrite py_ne_true.
        destruct (Hpre t) as [Hx|Hx]; [left|congruence|congruence]. }
      rewrite (IH (World (fs w) (trace w ++ [EvHashsum path t])) Hf Hpre').
      cbn [fs trace map]. by rewrite <-!app_assoc.
    + rewrite (check_digest_skip h _ _ _ _ Htt). by apply IH.
Qed.

End FirstMismatch.

(** X6: the digests are checked in the order md5, sha1, sha256 and the
    first one that differs ends the verification: the error names that
    kind, the kinds before it were computed once each (those with a
    truthy expected value), the failing one twice (once more for the
    message), the kinds after it not at all, and no file changed. *)
Theorem verification_stops_at_first_mismatch (h : host) (meta : descriptor)
    (path c : string) (pre : list string) (tp : string) (post : list string)
    (w : world) :
  digest_kinds = pre ++ tp :: post →
  fs w !! path = Some (File c) →
  (∀ t, t ∈ pre → passes h meta c t) →
  truthy (meta_get meta tp) = true →
  meta_get meta tp ≠ VStr (hashsum h tp c) →
  verify_digests h meta path w
  = Raise (RuntimeError (PyStr.upper tp) (hashsum h tp c) (meta_get meta tp))
          (World (fs w)
                 (trace w
                    ++ map (EvHashsum path)
                         (List.filter (λ t, truthy (meta_get meta t)) pre)
                    ++ [EvHashsum path tp; EvHashsum path tp])).
Proof.
  intros Hk Hf Hpre Ht Hm. unfold verify_digests. rewrite Hk.
  by apply check_digests_first_mismatch.
Qed.

Lemma verification_stops_at_first_mismatch_witness :
  verify_digests Demo.linux Digests.meta Examples.cache_file
    Examples.cached_world
  = Raise (RuntimeError "SHA1" Demo.sha1_empty (VStr "00"))
          (World (fs Examples.cached_world)
                 [EvHashsum Examples.cache_file "md5";
                  EvHashsum Examples.cache_file "sha1";
                  EvHashsum Examples.cache_file "sha1"]).
Proof.
  refine (verification_stops_at_first_mismatch Demo.linux Digests.meta
            Examples.cache_file "" ["md5"] "sha1" ["sha256"]
            Examples.cached_world _ _ _ _ _).
  - reflexivity.
  - reflexivity.
  - intros t Ht. apply list_elem_of_singleton in Ht as ->.
    right. reflexivity.
  - reflexivity.
  - discriminate.
Defined.

Section FailedUnpack.

Context (h : host).

Lemma acquire_archive meta w :
  is_Some (meta !! "fn") → acquire h meta w = unpack h meta w.
Proof.
  intros Hfn. unfold acquire, meta_has. by rewrite bool_decide_eq_true_2.
Qed.

(** an error of [download_to_cache] is the outcome of [provide] *)
Lemma provide_download_error recipe_dir meta patch w e w' :
  is_Some (meta !! "fn") →
  download_to_cache h meta
    (World (removed (WORK_DIR h) (fs w)) (trace w ++ [EvRmRf (WORK_DIR h)]))
  = Raise e w' →
  provide h recipe_dir meta patch w = Raise e w'.
Proof.
  intros Hfn Hd. rewrite provide_after_reset. unfold after_reset.
  apply bind_Raise. rewrite acquire_archive by done.
  unfold unpack. by apply bind_Raise.
Qed.

End FailedUnpack.

Section FailedVerification.

Context (h : host).

Lemma download_cached meta fn w :
  meta !! "fn" = Some (VStr fn) →
  FS.isdir (SRC_CACHE h) (fs w) = true →
  FS.isfile (PyStr.join (SRC_CACHE h) fn) (fs w) = true →
  download_to_cache h meta w
  = (verify_digests h meta (PyStr.join (SRC_CACHE h) fn) >>
     ret (PyStr.join (SRC_CACHE h) fn))
      (World (fs w) (trace w ++ [cache_dir_msg h; found_msg fn])).
Proof.
  intros Hfn Hd Hf.
  rewrite (download_to_cache_lookup h _ _ _ Hfn (or_introl Hd)).
  cbv zeta. rewrite (isfile_cache_ready h _ _ (or_introl Hd)), Hf.
  unfold print. rewrite bind_log.
  unfold cache_ready, ensure_dir, found_msg. rewrite Hd. cbn [fs trace].
  by rewrite <-app_assoc.
Qed.

End FailedVerification.

(** X7: when, after the reset, the archive is in the cache and one of its
    digests differs from the descriptor's, [provide] ends with the
    mismatch error of a digest kind; the files are as the reset left them
    (the work directory is not created), and the only calls after the
    reset are the two announcements and digests of the cached file:
    nothing is fetched, extracted or patched. *)
Theorem failed_verification_stops_provide (h : host)
    (recipe_dir : string) (meta : descriptor) (patch : bool)
    (fn c tp : string) (w w0 : world) :
  rm_rf (WORK_DIR h) w = Ret tt w0 →
  meta !! "fn" = Some (VStr fn) →
  fs w0 !! PyStr.join (SRC_CACHE h) fn = Some (File c) →
  FS.isdir (SRC_CACHE h) (fs w0) = true →
  tp ∈ digest_kinds →
  truthy (meta_get meta tp) = true →
  meta_get meta tp ≠ VStr (hashsum h tp c) →
  ∃ tp' w' (evs : list event),
    provide h recipe_dir meta patch w
    = Raise (RuntimeError (PyStr.upper tp') (hashsum h tp' c)
                          (meta_get meta tp')) w'
    ∧ tp' ∈ digest_kinds
    ∧ fs w' = fs w0
    ∧ trace w' = trace w0 ++ [cache_dir_msg h; found_msg fn] ++ evs
    ∧ Forall (λ e, ∃ t, e = EvHashsum (PyStr.join (SRC_CACHE h) fn) t) evs.
Proof.
  intros Hr Hfn Hfile0 Hdir0 Hin Ht Hm.
  rewrite rm_rf_eq in Hr. injection Hr as Ew.
  set (path := PyStr.join (SRC_CACHE h) fn) in *.
  assert (FS.isfile path (fs w0) = true) as Hisf
    by (unfold FS.isfile; by rewrite Hfile0).
  pose proof (download_cached h meta fn w0 Hfn Hdir0 Hisf) as Hdl.
  fold path in Hdl.
  set (w2 := World (fs w0) (trace w0 ++ [cache_dir_msg h; found_msg fn]))
    in Hdl.
  assert (fs w2 !! path = Some (File c)) as Hfile2 by done.
  destruct (for_each_check_digest h meta path c digest_kinds w2 Hfile2)
    as [Hfail _].
  assert (succeeds (verify_digests h meta path w2) = false) as Hs.
  { apply Hfail. exists tp. by split. }
  destruct (verify_digests h meta path w2) as [[] w'|e w'] eqn:Ev; [done|].
  destruct (for_each_check_digest_error h meta path c digest_kinds w2 e w'
              Hfile2 Ev) as (tp' & Hin' & _ & ->).
  pose proof (verify_digests_fs h meta path w2) as Hfs.
  destruct (verify_digests_emits h meta path w2) as (evs & Etr & HP).
  rewrite Ev in Hfs, Etr. cbn [final] in Hfs, Etr.
  exists tp', w', evs. split; [|split; [done|split; [done|split]]].
  - apply provide_download_error; [by rewrite Hfn|].
    rewrite Ew, Hdl. by apply bind_Raise.
  - rewrite Etr. subst w2. cbn [trace]. by rewrite <-!app_assoc.
  - done.
Qed.

Lemma failed_verification_stops_provide_witness :
  ∃ tp' w' (evs : list event),
    provide Demo.linux "/recipe" Digests.meta true Examples.cached_world
    = Raise (RuntimeError (PyStr.upper tp') (hashsum Demo.linux tp' "")
                          (meta_get Digests.meta tp')) w'
    ∧ tp' ∈ digest_kinds
    ∧ fs w' = fs (final (rm_rf (WORK_DIR Demo.linux) Examples.cached_world))
    ∧ trace w'
      = trace (final (rm_rf (WORK_DIR Demo.linux) Examples.cached_world))
          ++ [cache_dir_msg Demo.linux; found_msg "pkg-1.0.tar.gz"] ++ evs
    ∧ Forall (λ e, ∃ t, e = EvHashsum
                          (PyStr.join (SRC_CACHE Demo.linux) "pkg-1.0.tar.gz")
                          t) evs.
Proof.
  apply (failed_verification_stops_provide Demo.linux "/recipe"
           Digests.meta true "pkg-1.0.tar.gz" "" "sha1"
           Examples.cached_world).
  - reflexivity.
  - reflexivity.
  - reflexivity.
  - reflexivity.
  - right. left.
  - reflexivity.
  - discriminate.
Defined.

(** X8: [unpack] relies on the work directory being absent: called where
    it exists, it still fetches and verifies the archive and then fails
    with [OSError] at [os.makedirs], before anything is extracted or
    copied. *)
Theorem unpack_needs_fresh_work_dir (h : host) (meta : descriptor)
    (w : world) (src_path : string) (w1 : world) :
  download_to_cache h meta w = Ret src_path w1 →
  is_Some (fs w1 !! WORK_DIR h) →
  unpack h meta w = Raise (OSError (WORK_DIR h)) w1.
Proof.
  intros Hd [n Hn]. unfold unpack. rewrite (bind_Ret _ _ _ _ _ Hd).
  apply bind_Raise. unfold makedirs. by rewrite Hn.
Qed.

Lemma unpack_needs_fresh_work_dir_witness :
  unpack Demo.linux Stale.meta Demo.stale_world
  = Raise (OSError "/opt/conda-bld/work")
          (World (<["/opt/conda-bld/src_cache/pkg-1.0.tar.gz" := File ""]>
                    (<["/opt/conda-bld/src_cache" := Dir]>
                       (fs Demo.stale_world)))
                 [EvPrint "Source cache directory is: %s"
                          [VStr "/opt/conda-bld/src_cache"];
                  EvPrint "Downloading source to cache: %s"
                          [VStr "pkg-1.0.tar.gz"];
                  EvDownload (VStr "http://x/pkg-1.0.tar.gz")
                             "/opt/conda-bld/src_cache/pkg-1.0.tar.gz"]).
Proof.
  apply (unpack_needs_fresh_work_dir Demo.linux Stale.meta Demo.stale_world
           "/opt/conda-bld/src_cache/pkg-1.0.tar.gz").
  - vm_compute. reflexivity.
  - vm_compute. by eexists.
Defined.

(** ** A version control tool that is not installed *)

Section MissingTool.

Context (h : host).




Lemma spec_kind_cases meta :
  match spec_kind meta with
  | Archive => is_Some (meta !! "fn")
  | Git => meta !! "fn" = None ∧ is_Some (meta !! "git_url")
  | Mercurial =>
      meta !! "fn" = None ∧ meta !! "git_url" = None
      ∧ is_Some (meta !! "hg_url")
  | Subversion =>
      meta !! "fn" = None ∧ meta !! "git_url" = None
      ∧ meta !! "hg_url" = None ∧ is_Some (meta !! "svn_url")
  | NoSource =>
      meta !! "fn" = None ∧ meta !! "git_url" = None
      ∧ meta !! "hg_url" = None ∧ meta !! "svn_url" = None
  end.
Proof.
  unfold spec_kind, identity_keys, meta_has. cbn [List.find fst snd].
  repeat case_bool_decide; cbn [snd];
    repeat match goal with
           | H : ¬ is_Some _ |- _ => apply eq_None_not_Some in H
           end; done.
Qed.

End MissingTool.





(** ** The report of [git_info] *)


Section GitInfo.

Context (h : host).

Lemma blank_spec (s : string) :
  negb (String.eqb s "") && negb (String.eqb (PyStr.strip s) "")
  = negb (blank s).
Proof.
  unfold blank. destruct (String.eqb_spec s "") as [->|]; done.
Qed.

(** one round of the loop, for a command that runs *)
Lemma git_info_step (cmd : string) (check_error : bool) (w : world)
    (stdout stderr : string) (m : filesystem) :
  popen_fx h (PyStr.split " " cmd) (WORK_DIR h) (fs w)
  = Some (stdout, stderr, m) →
  (let! out := popen_communicate h (PyStr.split " " cmd) (WORK_DIR h) in
   let '(stdout, stderr) := out in
   if check_error && negb (String.eqb stderr "")
      && negb (String.eqb (PyStr.strip stderr) "")
   then raise (GitError stderr)
   else
     log (EvWrite ("==> " +:+ cmd +:+ " <==" +:+ newline)) >>
     log (EvWrite (stdout +:+ newline))) w
  = if check_error && negb (blank stderr)
    then Raise (GitError stderr) (World m (trace w ++ [git_info_call h cmd]))
    else Ret tt (World m (trace w ++ git_info_entry h cmd stdout)).
Proof.
  intros Hp. unfold bind at 1. unfold popen_communicate. rewrite Hp.
  rewrite <- andb_assoc, blank_spec.
  destruct (check_error && negb (blank stderr)); [done|].
  unfold bind, log, git_info_entry. cbn [fs trace].
  by rewrite <- !app_assoc.
Qed.

End GitInfo.

(** X11: [git_info], in a work directory and with its three commands
    running, ends with a Git error exactly when [git log -n1] or
    [git status] leaves more than white space on its error pipe, the
    first such output being the error; what [git describe --tags --dirty]
    writes there is ignored.  A complete report is, for the three
    commands in order, the command, its header and its output; a failing
    command ends the report before its header.  The files are as the
    commands leave them. *)
Theorem git_info_ignores_describe_errors (h : host) (w : world)
    (o1 e1 o2 e2 o3 e3 : string) (m1 m2 m3 : filesystem) :
  FS.isdir (WORK_DIR h) (fs w) = true →
  popen_fx h (PyStr.split " " "git log -n1") (WORK_DIR h) (fs w)
  = Some (o1, e1, m1) →
  popen_fx h (PyStr.split " " "git describe --tags --dirty") (WORK_DIR h) m1
  = Some (o2, e2, m2) →
  popen_fx h (PyStr.split " " "git status") (WORK_DIR h) m2
  = Some (o3, e3, m3) →
  git_info h w
  = if negb (blank e1) then
      Raise (GitError e1)
            (World m1 (trace w ++ [git_info_call h "git log -n1"]))
    else if negb (blank e3) then
      Raise (GitError e3)
            (World m3 (trace w
                         ++ git_info_entry h "git log -n1" o1
                         ++ git_info_entry h "git describe --tags --dirty" o2
                         ++ [git_info_call h "git status"]))
    else Ret tt (World m3 (trace w ++ git_info_report h o1 o2 o3)).
Proof.
  intros Hd H1 H2 H3.
  unfold git_info. unfold bind at 1. unfold assert_isdir.
  unfold bind at 1. unfold isdir at 1. rewrite Hd.
  unfold ret at 1. unfold git_info_cmds. cbn [for_each]. cbv beta iota.
  unfold bind at 1.
  rewrite (git_info_step h "git log -n1" true w o1 e1 m1 H1). cbn [andb].
  destruct (negb (blank e1)); [done|].
  unfold bind at 1.
  rewrite (git_info_step h "git describe --tags --dirty" false _ o2 e2 m2)
    by exact H2.
  cbn [andb fs trace]. unfold bind at 1.
  rewrite (git_info_step h "git status" true _ o3 e3 m3) by exact H3.
  cbn [andb fs trace]. unfold git_info_report.
  destruct (negb (blank e3)).
  - by rewrite <- !app_assoc.
  - unfold ret. by rewrite <- !app_assoc.
Qed.

Lemma git_info_ignores_describe_errors_witness :
  git_info Noisy.linux Unpacked.world0
  = Ret tt (World (fs Unpacked.world0)
                  (git_info_report Noisy.linux "ok" "ok" "ok")).
Proof.
  exact (git_info_ignores_describe_errors Noisy.linux Unpacked.world0
           "ok" "" "ok" "fatal: No names found, cannot describe anything."
           "ok" "" (fs Unpacked.world0) (fs Unpacked.world0)
           (fs Unpacked.world0) eq_refl eq_refl eq_refl eq_refl).
Defined.

(** ** A completed Git checkout *)

Lemma check_call_inv (h : host) argv cwd w u w' :
  check_call h argv cwd w = Ret u w' →
  ∃ args, argv_strs argv = Some args
          ∧ trace w' = trace w ++ [EvCheckCall args cwd].
Proof.
  unfold check_call. destruct (argv_strs argv) as [args|]; [|done].
  destruct (process_fx h args cwd (fs w)).1; [|done].
  intros [= _ <-]. by exists args.
Qed.

Section GitReport.

Context (h : host).

(** one round of the loop that completes *)
Lemma git_info_step_inv (cmd : string) (check_error : bool) (w : world)
    (u : unit) (w' : world) :
  (let! out := popen_communicate h (PyStr.split " " cmd) (WORK_DIR h) in
   let '(stdout, stderr) := out in
   if check_error && negb (String.eqb stderr "")
      && negb (String.eqb (PyStr.strip stderr) "")
   then raise (GitError stderr)
   else
     log (EvWrite ("==> " +:+ cmd +:+ " <==" +:+ newline)) >>
     log (EvWrite (stdout +:+ newline))) w = Ret u w' →
  ∃ stdout, trace w' = trace w ++ git_info_entry h cmd stdout.
Proof.
  unfold bind at 1. unfold popen_communicate.
  destruct (popen_fx h _ _ _) as [[[stdout stderr] m]|] eqn:Hp; [|done].
  destruct (_ && _); [done|].
  unfold bind, log, git_info_entry. cbn [fs trace]. intros [= _ <-].
  exists stdout. cbn [trace]. by rewrite <- !app_assoc.
Qed.

(** a report that completes started in a work directory *)
Lemma git_info_inv (w : world) (u : unit) (w' : world) :
  git_info h w = Ret u w' →
  FS.isdir (WORK_DIR h) (fs w) = true
  ∧ ∃ o1 o2 o3, trace w' = trace w ++ git_info_report h o1 o2 o3.
Proof.
  unfold git_info. intros H. apply bind_inv_Ret in H as (a & w0 & Ea & H).
  unfold assert_isdir, bind, isdir in Ea.
  destruct (FS.isdir (WORK_DIR h) (fs w)) eqn:Hd; [|done].
  apply ret_inv in Ea as [_ <-]. split; [done|].
  unfold git_info_cmds in H. cbn [for_each] in H. cbv beta iota in H.
  apply bind_inv_Ret in H as (a1 & w1 & E1 & H).
  apply bind_inv_Ret in H as (a2 & w2 & E2 & H).
  apply bind_inv_Ret in H as (a3 & w3 & E3 & H).
  apply ret_inv in H as [_ <-].
  apply git_info_step_inv in E1 as [o1 T1].
  apply git_info_step_inv in E2 as [o2 T2].
  apply git_info_step_inv in E3 as [o3 T3].
  exists o1, o2, o3. rewrite T3, T2, T1. unfold git_info_report.
  by rewrite <- !app_assoc.
Qed.

End GitReport.

(** X12: a call of [git_source] that completes returns the work
    directory.  Its last call before the report is the checkout, in the
    work directory, of the reference of the descriptor (the tag, else the
    branch, else [master]), which is a string; the report then ran from
    the world that checkout left, in which the work directory was a
    directory, and was complete. *)
Theorem completed_git_source_checked_out (h : host) (meta : descriptor)
    (w : world) (d : string) (w' : world) :
  git_source h meta w = Ret d w' →
  d = WORK_DIR h
  ∧ ∃ git ref evs w1 o1 o2 o3,
      find_executable h "git" = Some git
      ∧ git_reference meta = VStr ref
      ∧ trace w1
        = evs ++ [EvCheckCall [git; "checkout"; ref] (Some (WORK_DIR h))]
      ∧ FS.isdir (WORK_DIR h) (fs w1) = true
      ∧ git_info h w1 = Ret tt w'
      ∧ trace w' = trace w1 ++ git_info_report h o1 o2 o3.
Proof.
  intros H. split; [by eapply git_source_returns|].
  unfold git_source in H. inv_bind H.
  destruct (find_executable h "git") as [git|]; cbn [exe_missing] in H;
    [|discriminate H].
  destruct (git =? ""); [discriminate H|]. cbn [default] in H.
  inv_bind H. apply ret_inv in H as [_ <-].
  fold (git_reference meta) in *.
  destruct a8. pose proof E8 as Hrun.
  apply git_info_inv in E8 as (Hd & o1 & o2 & o3 & Ht).
  apply check_call_inv in E7 as (args & Ha & Hc).
  cbn [argv_strs] in Ha.
  destruct (git_reference meta) as [| | |ref|]; try done.
  injection Ha as <-.
  by exists git, ref, (trace w7), w8, o1, o2, o3.
Qed.

Lemma completed_git_source_checked_out_witness :
  "/opt/conda-bld/work" = WORK_DIR Demo.linux
  ∧ ∃ git ref evs w1 o1 o2 o3,
      find_executable Demo.linux "git" = Some git
      ∧ git_reference MainBlock.meta = VStr ref
      ∧ trace w1
        = evs ++ [EvCheckCall [git; "checkout"; ref]
                              (Some (WORK_DIR Demo.linux))]
      ∧ FS.isdir (WORK_DIR Demo.linux) (fs w1) = true
      ∧ git_info Demo.linux w1
        = Ret tt (final (git_source Demo.linux MainBlock.meta
                           Demo.empty_world))
      ∧ trace (final (git_source Demo.linux MainBlock.meta Demo.empty_world))
        = trace w1 ++ git_info_report Demo.linux o1 o2 o3.
Proof.
  apply (completed_git_source_checked_out Demo.linux MainBlock.meta
           Demo.empty_world).
  vm_compute. reflexivity.
Defined.

(** ** Mirrors shared between URLs *)

Section MirrorNames.

Lemma split_append (c : ascii) (a b : string) :
  PyStr.split c (a +:+ String c b) = PyStr.split c a ++ PyStr.split c b.
Proof.
  induction a as [|x a IH].
  - change ("" +:+ String c b) with (String c b).
    cbn. by rewrite Ascii.eqb_refl.
  - rewrite append_cons. cbn. rewrite IH.
    destruct (Ascii.eqb x c); [done|].
    pose proof (split_nonempty c a) as Hne.
    by destruct (PyStr.split c a).
Qed.

Lemma last_item_app (l1 l2 : list string) :
  l2 ≠ [] → PyStr.last_item (l1 ++ l2) = PyStr.last_item l2.
Proof.
  intros Hne. unfold PyStr.last_item.
  destruct (exists_last Hne) as (l & x & ->).
  by rewrite app_assoc, !last_last.
Qed.

Lemma split_last_append (c : ascii) (a b : string) :
  PyStr.last_item (PyStr.split c (a +:+ String c b))
  = PyStr.last_item (PyStr.split c b).
Proof. rewrite split_append. apply last_item_app, split_nonempty. Qed.

Lemma split1_append (c : ascii) (a b : string) :
  has_char c a = false →
  PyStr.split1 c (a +:+ String c b) = [a; b].
Proof.
  induction a as [|x a IH]; intros Ha.
  - change ("" +:+ String c b) with (String c b).
    cbn. by rewrite Ascii.eqb_refl.
  - rewrite append_cons. cbn in *.
    apply orb_false_iff in Ha as [Hx Ha]. rewrite Hx, (IH Ha). done.
Qed.

End MirrorNames.

(** X13: the mirror of a Git or Mercurial URL is named after what follows
    the last colon of the URL alone: two URLs that agree from there on
    share one mirror directory, whatever stands before.  The mirror of a
    Subversion URL is named after what follows the first colon: URLs that
    differ in the scheme only share one mirror directory. *)
Theorem mirrors_are_shared_between_urls (h : host) (a b rest : string) :
  git_cache_repo h (a +:+ ":" +:+ rest) = git_cache_repo h (b +:+ ":" +:+ rest)
  ∧ hg_cache_repo h (a +:+ ":" +:+ rest) = hg_cache_repo h (b +:+ ":" +:+ rest)
  ∧ (has_char ":" a = false → has_char ":" b = false →
     svn_cache_repo h (a +:+ ":" +:+ rest)
     = svn_cache_repo h (b +:+ ":" +:+ rest)).
Proof.
  unfold git_cache_repo, git_dn, hg_cache_repo, hg_dn, svn_cache_repo, svn_dn.
  change (":" +:+ rest) with (String ":" rest).
  rewrite !split_last_append. split; [done|]. split; [done|].
  intros Ha Hb. by rewrite !split1_append.
Qed.

Lemma mirrors_are_shared_between_urls_witness :
  svn_cache_repo Demo.linux "http://svn.x.org/repo/trunk"
  = svn_cache_repo Demo.linux "https://svn.x.org/repo/trunk".
Proof.
  apply (mirrors_are_shared_between_urls Demo.linux "http" "https"
           "//svn.x.org/repo/trunk"); reflexivity.
Defined.

(** ** The keys of the descriptor that are read *)

Section ReadKeys.

Context (h : host).

Lemma acquire_reads_source_keys (m1 m2 : descriptor) :
  (∀ k, k ∈ source_keys → m1 !! k = m2 !! k) →
  acquire h m1 = acquire h m2.
Proof.
  intros H.
  assert (∀ k, bool_decide (k ∈ source_keys) = true → m1 !! k = m2 !! k)
    as H' by (intros k Hk; apply bool_decide_eq_true in Hk; by apply H).
  unfold acquire, unpack, download_to_cache, verify_digests, digest_kinds,
    git_source, hg_source, svn_source.
  cbn [for_each].
  unfold check_digest, meta_has, meta_get, meta_item.
  rewrite (H' "fn"), (H' "url"), (H' "md5"), (H' "sha1"), (H' "sha256"),
    (H' "git_url"), (H' "git_tag"), (H' "git_branch"), (H' "hg_url"),
    (H' "hg_tag"), (H' "svn_url"), (H' "svn_rev"),
    (H' "svn_ignore_externals") by done.
  reflexivity.
Qed.

End ReadKeys.

(** X14: [provide] reads thirteen keys of the descriptor to obtain the
    source, and [patches] when patches are applied; no other entry has an
    influence on what it does.  Called with [patch=False] it looks at
    neither [patches] nor the recipe directory. *)
Theorem provide_reads_only_source_keys (h : host) (m1 m2 : descriptor) :
  (∀ k, k ∈ source_keys → m1 !! k = m2 !! k) →
  (∀ rd1 rd2, provide h rd1 m1 false = provide h rd2 m2 false)
  ∧ (m1 !! "patches" = m2 !! "patches" →
     ∀ rd, provide h rd m1 true = provide h rd m2 true).
Proof.
  intros H. unfold provide, apply_patches, patches_of.
  rewrite (acquire_reads_source_keys h m1 m2 H).
  split; [done|]. by intros ->.
Qed.

Lemma provide_reads_only_source_keys_witness :
  provide Demo.linux "/recipe" Stale.meta false
  = provide Demo.linux "/elsewhere" (delete "patches" Stale.meta) false.
Proof.
  apply (provide_reads_only_source_keys Demo.linux Stale.meta
           (delete "patches" Stale.meta)).
  intros k Hk. rewrite lookup_delete_ne; [done|].
  intros <-. revert Hk.
  apply (bool_decide_eq_false_1 ("patches" ∈ source_keys)). reflexivity.
Defined.

(** ** The value of [patches] *)

(** X15: the patches are optional, and the loop takes whatever the entry
    holds: without the entry nothing is applied; a string is run through
    character by character, as the list of its one-character strings
    would be; a value that is neither a list nor a string ([None], a
    boolean, a number) is a [TypeError], raised once [get_dir] has run. *)
Theorem patches_entry_is_iterated (h : host) (recipe_dir : string)
    (meta : descriptor) (w : world) (src_dir : string) (w0 : world) :
  get_dir h w = Ret src_dir w0 →
  (meta !! "patches" = None →
   apply_patches h recipe_dir meta w = Ret tt w0)
  ∧ (∀ s, meta !! "patches" = Some (VStr s) →
       apply_patches h recipe_dir meta w
       = apply_patches h recipe_dir
           (<["patches" := VList (PyStr.chars s)]> meta) w)
  ∧ (∀ v, meta !! "patches" = Some v →
       (∀ l, v ≠ VList l) → (∀ s, v ≠ VStr s) →
       apply_patches h recipe_dir meta w = Raise TypeError w0).
Proof.
  intros Hg. unfold apply_patches. rewrite !(bind_Ret _ _ _ _ _ Hg).
  unfold patches_of. split; [|split].
  - by intros ->.
  - intros s ->. by rewrite (bind_Ret _ _ _ _ _ Hg), lookup_insert_eq.
  - intros v -> Hl Hs. destruct v as [| | |s|l]; try done.
    + by destruct (Hs s).
    + by destruct (Hl l).
Qed.

Lemma patches_entry_is_iterated_witness :
  apply_patches Demo.linux "/recipe" (<["patches" := VStr "a.b"]> ∅)
    Unpacked.world0
  = apply_patches Demo.linux "/recipe"
      (<["patches" := VList ["a"; "."; "b"]]>
         (<["patches" := VStr "a.b"]> ∅)) Unpacked.world0.
Proof.
  refine (proj1 (proj2 (patches_entry_is_iterated Demo.linux "/recipe"
                          (<["patches" := VStr "a.b"]> ∅) Unpacked.world0
                          Unpacked.src_dir Unpacked.world0 _)) "a.b" _).
  - vm_compute. reflexivity.
  - reflexivity.
Defined.

(** ** The exceptions of a computation *)

Lemma raises_weaken {A} (P Q : exn → Prop) (c : Py A) :
  (∀ e, P e → Q e) → raises P c → raises Q c.
Proof. intros HPQ Hc w e w' E. by eapply HPQ, Hc. Qed.

Lemma raises_bind {A B} P (c : Py A) (k : A → Py B) :
  raises P c → (∀ a, raises P (k a)) → raises P (bind c k).
Proof.
  intros Hc Hk w e w'. unfold bind.
  destruct (c w) as [a w1|e1 w1] eqn:E.
  - apply Hk.
  - intros [= <- <-]. by eapply Hc.
Qed.

Lemma raises_ret {A} P (a : A) : raises P (ret a).
Proof. by intros w e w'. Qed.

Lemma raises_raise {A} (P : exn → Prop) e : P e → raises P (@raise A e).
Proof. by intros He w e' w' [= <- <-]. Qed.

Lemma raises_if {A} P (b : bool) (c1 c2 : Py A) :
  raises P c1 → raises P c2 → raises P (if b then c1 else c2).
Proof. by destruct b. Qed.

Lemma raises_for_each {A} P (body : A → Py unit) l :
  (∀ x, x ∈ l → raises P (body x)) → raises P (for_each body l).
Proof.
  induction l as [|x l IH]; intros Hb; [apply raises_ret|].
  cbn. apply raises_bind; [apply Hb; by left|intros _].
  apply IH. intros y Hy. apply Hb. by right.
Qed.

Lemma plain_explained key exit digest (git assertion : Prop) e :
  plain e → explained key exit digest git assertion e.
Proof. by destruct e. Qed.

Lemma raises_plain {A} key exit digest (git assertion : Prop) (c : Py A) :
  raises plain c → raises (explained key exit digest git assertion) c.
Proof. apply raises_weaken, plain_explained. Qed.

Section Plain.

Context (h : host).

Lemma raises_isdir p : raises plain (isdir p).
Proof. by intros w e w'. Qed.

Lemma raises_isfile p : raises plain (isfile p).
Proof. by intros w e w'. Qed.

Lemma raises_log ev : raises plain (log ev).
Proof. by intros w e w'. Qed.

Lemma raises_rm_rf p : raises plain (rm_rf p).
Proof. by intros w e w'. Qed.

Lemma raises_makedirs p : raises plain (makedirs p).
Proof.
  intros w e w'. unfold makedirs. destruct (fs w !! p); [|done].
  by intros [= <- _].
Qed.

Lemma raises_listdir p : raises plain (listdir p).
Proof.
  intros w e w'. unfold listdir. destruct (FS.isdir p (fs w)); [done|].
  by intros [= <- _].
Qed.

Lemma raises_copy2 src dst : raises plain (copy2 src dst).
Proof.
  intros w e w'. unfold copy2. destruct (fs w !! src) as [[|c]|].
  - by intros [= <- _].
  - destruct (_ =? _); [by intros [= <- _]|].
    destruct (FS.isdir _ _); [by intros [= <- _]|done].
  - by intros [= <- _].
Qed.

Lemma raises_external callee ev fx : raises plain (external callee ev fx).
Proof.
  intros w e w'. unfold external. destruct (fx (fs w)); [done|].
  by intros [= <- _].
Qed.

Lemma raises_hashsum_file path tp : raises plain (hashsum_file h path tp).
Proof.
  intros w e w'. unfold hashsum_file.
  destruct (fs w !! path) as [[|c]|]; [|done|]; by intros [= <- _].
Qed.

Lemma raises_check_call argv cwd : raises plain (check_call h argv cwd).
Proof.
  intros w e w'. unfold check_call.
  destruct (argv_strs argv); [|by intros [= <- _]].
  destruct (process_fx h _ _ _).1; [done|]. by intros [= <- _].
Qed.

Lemma raises_popen argv cwd : raises plain (popen_communicate h argv cwd).
Proof.
  intros w e w'. unfold popen_communicate.
  destruct (popen_fx h argv cwd (fs w)) as [[out m]|]; [done|].
  by intros [= <- _].
Qed.

Lemma raises_as_str v : raises plain (as_str v).
Proof. destruct v; cbn; by (apply raises_ret || apply raises_raise). Qed.

Lemma raises_py_iter v : raises plain (py_iter v).
Proof. destruct v; cbn; by (apply raises_ret || apply raises_raise). Qed.

Lemma raises_bind_meta_item {B} (P : exn → Prop) meta k
    (kont : pyval → Py B) :
  (meta !! k = None → P (KeyError k)) →
  (∀ v, meta !! k = Some v → raises P (kont v)) →
  raises P (bind (meta_item meta k) kont).
Proof.
  intros Hn Hk. unfold meta_item. destruct (meta !! k) as [v|].
  - by apply Hk.
  - intros w e w' [= <- _]. by apply Hn.
Qed.

Lemma truthy_is_Some meta k :
  truthy (meta_get meta k) = true → is_Some (meta !! k).
Proof. unfold meta_get. destruct (meta !! k); [by eexists|done]. Qed.

End Plain.

Create HintDb raises.

#[local] Hint Resolve raises_ret raises_isdir raises_isfile raises_log
  raises_makedirs raises_listdir raises_copy2 raises_external
  raises_hashsum_file raises_check_call raises_popen raises_as_str
  raises_py_iter raises_rm_rf : raises.

(** one step through a computation: its binds and branches, then the
    imported callables *)
Ltac raises_step :=
  lazymatch goal with
  | |- raises _ (bind (meta_item _ _) _) =>
      apply raises_bind_meta_item;
        [try by intros ?%eq_None_not_Some|intros ? ?]
  | |- raises _ (bind _ _) => apply raises_bind; [|intros ?]
  | |- raises _ (if _ then _ else _) => apply raises_if
  | |- raises _ (for_each _ _) => apply raises_for_each; intros ? ?
  | |- raises _ (ret _) => apply raises_ret
  | |- raises _ (print _ _) => apply raises_plain, raises_log
  | |- raises _ _ => apply raises_plain; solve [auto with raises]
  end.

Ltac raises_steps := repeat raises_step.

Section Explained.

Context (h : host).

Lemma raises_assert_isdir p :
  raises (explained never never no_digest False True) (assert_isdir p).
Proof. unfold assert_isdir. raises_steps. by apply raises_raise. Qed.

Lemma raises_get_dir : raises plain (get_dir h).
Proof.
  unfold get_dir. raises_steps.
  destruct (List.filter _ _) as [|x [|y l]]; raises_steps.
Qed.

Lemma raises_git_info :
  raises (explained never never no_digest True True) (git_info h).
Proof.
  unfold git_info. raises_steps.
  - eapply raises_weaken; [|apply raises_assert_isdir]. by intros [].
  - destruct x as [cmd check_error]. raises_steps.
    destruct a0 as [stdout stderr]. raises_steps. by apply raises_raise.
Qed.

Lemma raises_apply_patch src_dir path :
  raises (explained never (patch_exit h path) no_digest False False)
         (apply_patch h src_dir path).
Proof.
  unfold apply_patch. raises_steps.
  - apply raises_raise. by left.
  - destruct (find_executable h "patch") eqn:E; raises_steps.
    apply raises_raise. by right.
Qed.

Lemma raises_apply_patches recipe_dir meta :
  raises (explained never
            (λ msg, ∃ p, patch_exit h (PyStr.join recipe_dir p) msg)
            no_digest False False)
         (apply_patches h recipe_dir meta).
Proof.
  unfold apply_patches. raises_steps.
  - apply raises_plain, raises_get_dir.
  - eapply raises_weaken; [|apply raises_apply_patch].
    intros []; cbn; try done. intros Hx. by exists x.
Qed.

Lemma raises_check_digest meta path tp :
  raises (explained never never (digest_exn meta tp) False False)
         (check_digest h meta path tp).
Proof.
  unfold check_digest.
  destruct (truthy (meta_get meta tp)) eqn:Ht; [|apply raises_ret].
  pose proof (truthy_is_Some _ _ Ht) as Hs.
  raises_steps.
  apply raises_raise. cbn. unfold meta_get in Ht.
  match goal with Hv : meta !! tp = Some _ |- _ => rewrite Hv in Ht end.
  done.
Qed.

End Explained.

Section ExplainedProviders.

Context (h : host).

Lemma raises_download_to_cache meta :
  is_Some (meta !! "fn") →
  raises (explained (url_key meta) never (digest_mismatch meta) False False)
         (download_to_cache h meta).
Proof.
  intros Hfn. unfold download_to_cache, verify_digests, download.
  raises_steps.
  - done.
  - eapply raises_weaken; [|apply raises_check_digest].
    intros []; cbn; try done. intros Hd. by exists x.
Qed.

Lemma raises_unpack meta :
  is_Some (meta !! "fn") →
  raises (explained (url_key meta) never (digest_mismatch meta) False False)
         (unpack h meta).
Proof.
  intros Hfn. unfold unpack, tar_xf, unzip.
  apply raises_bind; [by apply raises_download_to_cache|intros src_path].
  raises_steps.
Qed.

Lemma raises_git_source meta :
  is_Some (meta !! "git_url") →
  raises (explained never (tool_exit h "git" "Error: git is not installed")
            no_digest True True)
         (git_source h meta).
Proof.
  intros Hu. unfold git_source.
  destruct (exe_missing (find_executable h "git")) eqn:Eg.
  - raises_steps. by apply raises_raise.
  - raises_steps.
    + eapply raises_weaken; [|apply raises_assert_isdir]. by intros [].
    + eapply raises_weaken; [|apply raises_git_info]. by intros [].
Qed.

Lemma raises_hg_source meta :
  is_Some (meta !! "hg_url") →
  raises (explained never (tool_exit h "hg" "Error: hg not installed")
            no_digest False True)
         (hg_source h meta).
Proof.
  intros Hu. unfold hg_source.
  destruct (exe_missing (find_executable h "hg")) eqn:Eg.
  - by apply raises_raise.
  - raises_steps.
    eapply raises_weaken; [|apply raises_assert_isdir]. by intros [].
Qed.

Lemma raises_svn_source meta :
  is_Some (meta !! "svn_url") →
  raises (explained never (tool_exit h "svn" "Error: svn is not installed")
            no_digest False True)
         (svn_source h meta).
Proof.
  intros Hu. unfold svn_source, copytree.
  destruct (exe_missing (find_executable h "svn")) eqn:Eg.
  - by apply raises_raise.
  - raises_steps.
    eapply raises_weaken; [|apply raises_assert_isdir]. by intros [].
Qed.

End ExplainedProviders.

(** ** What an exception of [provide] tells *)

Section ExplainedProvide.

Context (h : host).

Lemma raises_acquire meta :
  raises (explained
            (λ k, spec_kind meta = Archive ∧ url_key meta k)
            (missing_tool_exit h meta)
            (λ name expected,
               spec_kind meta = Archive ∧ digest_mismatch meta name expected)
            (spec_kind meta = Git)
            (is_Some (vcs_tool (spec_kind meta))))
         (acquire h meta).
Proof.
  rewrite acquire_kind. pose proof (spec_kind_cases meta) as Hc.
  unfold missing_tool_exit.
  destruct (spec_kind meta); cbn [run_kind].
  - eapply raises_weaken; [|by apply raises_unpack].
    by intros [].
  - destruct Hc as [_ Hc].
    apply raises_bind; [|intros ?; apply raises_ret].
    eapply raises_weaken; [|by apply raises_git_source].
    intros []; cbn; try done. intros [-> He]. by exists "git".
  - destruct Hc as (_ & _ & Hc).
    apply raises_bind; [|intros ?; apply raises_ret].
    eapply raises_weaken; [|by apply raises_hg_source].
    intros []; cbn; try done. intros [-> He]. by exists "hg".
  - destruct Hc as (_ & _ & _ & Hc).
    apply raises_bind; [|intros ?; apply raises_ret].
    eapply raises_weaken; [|by apply raises_svn_source].
    intros []; cbn; try done. intros [-> He]. by exists "svn".
  - apply raises_plain, raises_makedirs.
Qed.

Lemma raises_provide recipe_dir meta patch :
  raises (explained
            (λ k, spec_kind meta = Archive ∧ url_key meta k)
            (λ msg, missing_tool_exit h meta msg
                    ∨ patch_stage_exit h recipe_dir patch msg)
            (λ name expected,
               spec_kind meta = Archive ∧ digest_mismatch meta name expected)
            (spec_kind meta = Git)
            (is_Some (vcs_tool (spec_kind meta))))
         (provide h recipe_dir meta patch).
Proof.
  unfold provide.
  apply raises_bind; [apply raises_plain, raises_rm_rf|intros _].
  apply raises_bind; [|intros _].
  { eapply raises_weaken; [|apply raises_acquire].
    intros []; cbn; try done. by left. }
  apply raises_bind; [|intros _; apply raises_ret].
  destruct patch; [|apply raises_ret].
  eapply raises_weaken; [|apply raises_apply_patches].
  intros []; cbn; try done. intros [p [->|[-> Hp]]]; right.
  - split; [done|]. right. by exists p.
  - split; [done|]. by left.
Qed.

End ExplainedProvide.

(** X16: the one [KeyError] [provide] can end with is that of
    [meta['url']]: the descriptor names an archive ([fn]) and has no
    [url] to fetch it from.  Every other key is looked up where it is
    known to be present, or with a default. *)
Theorem provide_key_error_is_missing_url (h : host) (recipe_dir : string)
    (meta : descriptor) (patch : bool) (w : world) (k : string)
    (w' : world) :
  provide h recipe_dir meta patch w = Raise (KeyError k) w' →
  k = "url" ∧ is_Some (meta !! "fn") ∧ meta !! "url" = None.
Proof.
  intros H. apply raises_provide in H. cbn in H.
  destruct H as (Hk & -> & Hu). split; [done|]. split; [|done].
  pose proof (spec_kind_cases meta) as Hc. by rewrite Hk in Hc.
Qed.

Lemma provide_key_error_is_missing_url_witness :
  succeeds (provide Demo.linux "/recipe" Examples.meta_empty_md5 true
              Demo.empty_world) = false
  ∧ "url" = "url"
  ∧ is_Some (Examples.meta_empty_md5 !! "fn")
  ∧ Examples.meta_empty_md5 !! "url" = None.
Proof.
  split; [vm_compute; reflexivity|].
  apply (provide_key_error_is_missing_url Demo.linux "/recipe"
           Examples.meta_empty_md5 true Demo.empty_world "url"
           (final (provide Demo.linux "/recipe" Examples.meta_empty_md5 true
                     Demo.empty_world))).
  vm_compute. reflexivity.
Defined.

(** X17: when [provide] exits, the message names the cause: the tool of
    the descriptor's kind of source (Git, Mercurial, Subversion) that is
    not installed; or, with patches to apply, the patch tool that is not
    installed or a patch of the recipe that is no file.  An archive or an
    empty descriptor handled with [patch=False] never exits. *)
Theorem provide_exit_names_its_cause (h : host) (recipe_dir : string)
    (meta : descriptor) (patch : bool) (w : world) (msg : string)
    (w' : world) :
  provide h recipe_dir meta patch w = Raise (SystemExit msg) w' →
  (∃ tool, vcs_tool (spec_kind meta) = Some (tool, msg)
           ∧ exe_missing (find_executable h tool) = true)
  ∨ (patch = true
     ∧ ((msg = patch_missing_msg h ∧ find_executable h "patch" = None)
        ∨ ∃ p, msg = no_such_patch_msg (PyStr.join recipe_dir p))).
Proof. intros H. by apply raises_provide in H. Qed.

Lemma provide_exit_names_its_cause_witness :
  (∃ tool, vcs_tool (spec_kind Mirrored.hg_meta)
           = Some (tool, "Error: hg not installed")
           ∧ exe_missing (find_executable Hosts.no_vcs tool) = true)
  ∨ (true = true
     ∧ (("Error: hg not installed" = patch_missing_msg Hosts.no_vcs
         ∧ find_executable Hosts.no_vcs "patch" = None)
        ∨ ∃ p, "Error: hg not installed"
               = no_such_patch_msg (PyStr.join "/recipe" p))).
Proof.
  apply (provide_exit_names_its_cause Hosts.no_vcs "/recipe"
           Mirrored.hg_meta true Demo.stale_world "Error: hg not installed"
           (final (provide Hosts.no_vcs "/recipe" Mirrored.hg_meta true
                     Demo.stale_world))).
  vm_compute. reflexivity.
Defined.

(** X18: the other exceptions of the module's own tell the kind of
    source: a digest mismatch is reported for an archive only, under the
    upper-case name of one of the three kinds and with the truthy value
    the descriptor expects; a Git error comes from a Git source; a failed
    assertion from a source under version control. *)
Theorem provide_failure_tells_the_kind (h : host) (recipe_dir : string)
    (meta : descriptor) (patch : bool) (w : world) (e : exn) (w' : world) :
  provide h recipe_dir meta patch w = Raise e w' →
  (∀ name computed expected, e = RuntimeError name computed expected →
     spec_kind meta = Archive
     ∧ ∃ tp, tp ∈ digest_kinds ∧ name = PyStr.upper tp
             ∧ meta !! tp = Some expected ∧ truthy expected = true)
  ∧ (∀ stderr, e = GitError stderr → spec_kind meta = Git)
  ∧ (e = AssertionError → is_Some (vcs_tool (spec_kind meta))).
Proof.
  intros H. apply raises_provide in H.
  split; [|split].
  - by intros name computed expected ->.
  - by intros stderr ->.
  - by intros ->.
Qed.

Lemma provide_failure_tells_the_kind_witness :
  let e := RuntimeError "SHA1" Demo.sha1_empty (VStr "00") in
  (∀ name computed expected, e = RuntimeError name computed expected →
     spec_kind Digests.meta = Archive
     ∧ ∃ tp, tp ∈ digest_kinds ∧ name = PyStr.upper tp
             ∧ Digests.meta !! tp = Some expected ∧ truthy expected = true)
  ∧ (∀ stderr, e = GitError stderr → spec_kind Digests.meta = Git)
  ∧ (e = AssertionError → is_Some (vcs_tool (spec_kind Digests.meta))).
Proof.
  apply (provide_failure_tells_the_kind Demo.linux "/recipe" Digests.meta
           true Examples.cached_world
           (RuntimeError "SHA1" Demo.sha1_empty (VStr "00"))
           (final (provide Demo.linux "/recipe" Digests.meta true
                     Examples.cached_world))).
  vm_compute. reflexivity.
Defined.

(** ** Hidden entries of the work directory *)


Section Entries.

Lemma split_singleton (c : ascii) (s y : string) :
  PyStr.split c s = [y] → y = s.
Proof.
  revert y. induction s as [|a s IH]; intros y; cbn; [by intros [= <-]|].
  destruct (Ascii.eqb a c).
  - intros [= _ E]. by destruct (split_nonempty c s).
  - destruct (PyStr.split c s) as [|x l] eqn:Es;
      [by destruct (split_nonempty c s)|].
    intros [= <- ->]. by rewrite (IH x).
Qed.

(** an entry is named after the path it stands for *)
Lemma entry_name_path (d p y : string) :
  FS.entry_name d p = Some y → p = (d +:+ "/") +:+ y.
Proof.
  unfold FS.entry_name.
  destruct (String.prefix (d +:+ "/") p) eqn:Hp; [|done].
  destruct (prefix_inv _ _ Hp) as [r ->].
  replace (String.length d + 1) with (String.length (d +:+ "/") + 0)
    by (rewrite length_append; cbn; lia).
  rewrite drop_append_ge. cbn [PyStr.drop].
  destruct (PyStr.split "/" r) as [|x [|z l]] eqn:Es; [done| |done].
  destruct (String.eqb x ""); [done|]. intros [= <-].
  by rewrite (split_singleton _ _ _ Es).
Qed.

Lemma NoDup_omap_inj {A B} (f : A → option B) (l : list A) :
  (∀ a b y, a ∈ l → b ∈ l → f a = Some y → f b = Some y → a = b) →
  NoDup l → NoDup (omap f l).
Proof.
  intros Hf Hnd. induction Hnd as [|a l Ha Hl IH]; cbn; [constructor|].
  assert (NoDup (omap f l)) as IH'.
  { apply IH. intros x b y Hx Hb. apply Hf; by right. }
  destruct (f a) as [y|] eqn:Ey; [|done].
  constructor; [|done]. intros Hy.
  apply list_elem_of_omap in Hy as (b & Hb & Eb).
  rewrite (Hf a b y) in Ha; [done|by left|by right|done|done].
Qed.

Lemma NoDup_entries (d : string) (m : filesystem) : NoDup (FS.entries d m).
Proof.
  unfold FS.entries. apply NoDup_omap_inj; [|apply NoDup_map_to_list].
  intros [p n] [q n'] y Hin Hin' Hp Hq. cbn in Hp, Hq.
  apply entry_name_path in Hp, Hq. subst p q.
  apply elem_of_map_to_list in Hin, Hin'. congruence.
Qed.

(** a list without duplicates whose items are all [x] *)
Lemma NoDup_constant {A} (x : A) (l : list A) :
  NoDup l → x ∈ l → Forall (λ y, y = x) l → l = [x].
Proof.
  intros Hnd Hx Hall. destruct l as [|a l]; [by apply elem_of_nil in Hx|].
  apply Forall_cons in Hall as [-> Hall].
  destruct l as [|b l]; [done|].
  apply Forall_cons in Hall as [-> _].
  apply NoDup_cons in Hnd as [Hnd _]. destruct Hnd. by left.
Qed.

End Entries.

(** X19: hidden entries do not count when [get_dir] looks for the source
    tree: when one entry of the work directory does not start with a dot
    and all the others do, [get_dir] answers with that entry if it is a
    directory, and with the work directory itself if it is a file; the
    world stays as it is. *)
Theorem get_dir_ignores_hidden_entries (h : host) (w : world) (x : string) :
  FS.isdir (WORK_DIR h) (fs w) = true →
  x ∈ FS.entries (WORK_DIR h) (fs w) →
  PyStr.startswith x "." = false →
  Forall (λ y, y = x ∨ PyStr.startswith y "." = true)
         (FS.entries (WORK_DIR h) (fs w)) →
  get_dir h w
  = Ret (if FS.isdir (PyStr.join (WORK_DIR h) x) (fs w)
         then PyStr.join (WORK_DIR h) x else WORK_DIR h) w.
Proof.
  intros Hd Hx Hv Hall. rewrite get_dir_eq, Hd. unfold src_dir_of.
  assert (List.filter (λ fn, negb (PyStr.startswith fn "."))
            (FS.entries (WORK_DIR h) (fs w)) = [x]) as ->; [|done].
  apply NoDup_constant.
  - apply NoDup_ListNoDup, List.NoDup_filter, NoDup_ListNoDup, NoDup_entries.
  - apply list_elem_of_In, filter_In. split; [by apply list_elem_of_In|].
    by rewrite Hv.
  - apply Forall_forall. intros y Hy.
    apply list_elem_of_In, filter_In in Hy as [Hy Hvis].
    apply list_elem_of_In in Hy.
    rewrite Forall_forall in Hall. destruct (Hall y Hy) as [->|Hh]; [done|].
    by rewrite Hh in Hvis.
Qed.

Lemma get_dir_ignores_hidden_entries_witness :
  get_dir Demo.linux Hidden.world0
  = Ret (if FS.isdir (PyStr.join (WORK_DIR Demo.linux) "pkg-1.0")
              (fs Hidden.world0)
         then PyStr.join (WORK_DIR Demo.linux) "pkg-1.0"
         else WORK_DIR Demo.linux) Hidden.world0.
Proof.
  apply (get_dir_ignores_hidden_entries Demo.linux Hidden.world0 "pkg-1.0").
  - reflexivity.
  - apply (bool_decide_unpack _). vm_compute. exact I.
  - reflexivity.
  - apply (bool_decide_unpack _). vm_compute. exact I.
Defined.

(** ** A completed download *)

Section Verified.

Context (h : host).

Lemma for_each_check_digest_Ret meta path kinds w u w' :
  for_each (check_digest h meta path) kinds w = Ret u w' →
  fs w' = fs w
  ∧ ∀ tp, tp ∈ kinds → truthy (meta_get meta tp) = true →
          ∃ c, fs w !! path = Some (File c)
               ∧ meta_get meta tp = VStr (hashsum h tp c).
Proof.
  revert w. induction kinds as [|tp kinds IH]; intros w.
  - intros [= _ <-]. split; [done|].
    intros tp Hin. by apply elem_of_nil in Hin.
  - cbn [for_each]. intros H. apply bind_inv_Ret in H as (a & w1 & E & H).
    apply IH in H as [Hfs Hall].
    destruct (truthy (meta_get meta tp)) eqn:Ht.
    + destruct (fs w !! path) as [[|c]|] eqn:Hf.
      * unfold check_digest, bind, hashsum_file in E. by rewrite Ht, Hf in E.
      * rewrite (check_digest_file h _ _ _ _ c Hf Ht) in E.
        destruct (py_ne _ _) eqn:Hne; [done|]. injection E as _ <-.
        cbn [fs] in *. split; [done|]. intros tp' Hin Ht'. rewrite <- Hf.
        apply elem_of_cons in Hin as [->|Hin]; [|by apply Hall].
        exists c. split; [done|].
        unfold py_ne in Hne. apply negb_false_iff in Hne.
        by apply bool_decide_eq_true_1 in Hne.
      * unfold check_digest, bind, hashsum_file in E. by rewrite Ht, Hf in E.
    + rewrite (check_digest_skip h _ _ _ _ Ht) in E. injection E as _ <-.
      split; [done|]. intros tp' Hin Ht'.
      apply elem_of_cons in Hin as [->|Hin]; [congruence|by apply Hall].
Qed.

End Verified.

(** X20: when [download_to_cache] completes, the path it returns is the
    archive's name joined to the source cache, and every digest the
    descriptor gives with a truthy value has been checked there: the path
    holds a file whose digest of that kind is the expected string.
    Without such a digest nothing tells that the file is there. *)
Theorem completed_download_is_verified (h : host) (meta : descriptor)
    (w : world) (path : string) (w' : world) :
  download_to_cache h meta w = Ret path w' →
  (∃ fn, meta !! "fn" = Some (VStr fn)
         ∧ path = PyStr.join (SRC_CACHE h) fn)
  ∧ ∀ tp, tp ∈ digest_kinds → truthy (meta_get meta tp) = true →
          ∃ c, fs w' !! path = Some (File c)
               ∧ meta_get meta tp = VStr (hashsum h tp c).
Proof.
  intros H. unfold download_to_cache in H. inv_bind H.
  apply ret_inv in H as [<- <-].
  unfold meta_item in E2. destruct (meta !! "fn") as [v|] eqn:Hfn; [|done].
  apply ret_inv in E2 as [<- <-].
  destruct v as [| | |fn|]; try done. apply ret_inv in E3 as [<- <-].
  split; [by exists fn|].
  apply for_each_check_digest_Ret in E6 as [Hfs Hall].
  intros tp Hin Ht. rewrite Hfs. by apply Hall.
Qed.

Lemma completed_download_is_verified_witness :
  let meta : descriptor :=
    <["fn" := VStr "pkg-1.0.tar.gz"]>
      (<["sha1" := VStr Demo.sha1_empty]> ∅) in
  (∃ fn, meta !! "fn" = Some (VStr fn)
         ∧ Examples.cache_file = PyStr.join (SRC_CACHE Demo.linux) fn)
  ∧ ∀ tp, tp ∈ digest_kinds → truthy (meta_get meta tp) = true →
          ∃ c, fs (final (download_to_cache Demo.linux meta
                            Examples.cached_world))
               !! Examples.cache_file = Some (File c)
               ∧ meta_get meta tp = VStr (hashsum Demo.linux tp c).
Proof.
  intros meta.
  apply (completed_download_is_verified Demo.linux meta
           Examples.cached_world).
  vm_compute. reflexivity.
Defined.
